(** * Chat intake, context aggregation and analysis dispatch

    A shallow embedding of [backend/controllers/chatController.js] and
    [backend/config/fastApiClient.js].

    Conventions of the embedding.
    - A JavaScript string is a [string]: a sequence of code units below 256.
    - An [ObjectId] is a natural number; two ids have the same [toString()]
      exactly when they are equal.
    - Dynamically typed request fields and JSON data are values of [jsval].
    - The MongoDB collections are lists in natural (insertion) order;
      [findOne] returns the first document that matches.
    - Storage operations are total: a handler's [catch] branch is reached only
      through the explicit failures of the model (URL parsing, the outbound
      HTTP call).
    - Platform services whose full semantics is outside the repository
      ([JSON.parse], [JSON.stringify], [new URL], Base64) are the fields of
      the class [Runtime]. *)

From Stdlib Require Import String Ascii List Bool Arith ZArith Lia DecimalString.
Import ListNotations.
Local Open Scope string_scope.
Local Open Scope list_scope.
Local Open Scope nat_scope.

Set Implicit Arguments.
Set Warnings "-register-all".

(* ===================================================================== *)
(** * Part I: the program                                                 *)
(* ===================================================================== *)

(** ** JavaScript strings *)

Module JS.

(** White space as [String.prototype.trim] sees it, restricted to code
    units below 256: TAB, LF, VT, FF, CR, SPACE and NBSP. *)
Definition isWhiteSpace (c : ascii) : bool :=
  let n := nat_of_ascii c in
  ((9 <=? n) && (n <=? 13)) || (n =? 32) || (n =? 160).

Fixpoint dropWhile (p : ascii -> bool) (s : string) : string :=
  match s with
  | EmptyString => EmptyString
  | String c r => if p c then dropWhile p r else s
  end.

(** Removes the longest suffix all of whose characters satisfy [p]. *)
Fixpoint dropWhileEnd (p : ascii -> bool) (s : string) : string :=
  match s with
  | EmptyString => EmptyString
  | String c r =>
      match dropWhileEnd p r with
      | EmptyString => if p c then EmptyString else String c EmptyString
      | r' => String c r'
      end
  end.

(** [s.trim()] *)
Definition trim (s : string) : string :=
  dropWhileEnd isWhiteSpace (dropWhile isWhiteSpace s).

(** A string of white space only: what [trim] reduces to nothing. *)
Fixpoint allWhiteSpace (s : string) : bool :=
match s with
| EmptyString => true
| String c r => isWhiteSpace c && allWhiteSpace r
end.

(** [s.includes(c)] for a one-character needle. *)
Fixpoint includes (c : ascii) (s : string) : bool :=
  match s with
  | EmptyString => false
  | String d r => Ascii.eqb d c || includes c r
  end.

(** [s.split(c)] for a one-character separator. *)
Fixpoint split (c : ascii) (s : string) : list string :=
  match s with
  | EmptyString => [EmptyString]
  | String d r =>
      if Ascii.eqb d c then EmptyString :: split c r
      else match split c r with
           | h :: t => String d h :: t
           | [] => [String d EmptyString]
           end
  end.

(** [s.endsWith(suffix)]: some tail of [s] is [suffix]. *)
Fixpoint endsWith (s suffix : string) : bool :=
  String.eqb s suffix ||
  match s with
  | EmptyString => false
  | String _ r => endsWith r suffix
  end.

(** [s.replace(/\/+$/, EmptyString)] *)
Definition stripTrailingSlashes (s : string) : string :=
  dropWhileEnd (Ascii.eqb "/"%char) s.

Definition lowerChar (c : ascii) : ascii :=
  let n := nat_of_ascii c in
  if (65 <=? n) && (n <=? 90) then ascii_of_nat (n + 32) else c.

(** [s.toLowerCase()] on the ASCII letters. *)
Fixpoint toLowerCase (s : string) : string :=
  match s with
  | EmptyString => EmptyString
  | String c r => String (lowerChar c) (toLowerCase r)
  end.

(** Truthiness of a string: non-empty. *)
Definition nonEmpty (s : string) : bool :=
  match s with EmptyString => false | _ => true end.

(** Decimal rendering of a non-negative integer, as in a template
    literal. *)
Definition ofNat (n : nat) : string :=
  NilEmpty.string_of_uint (Nat.to_uint n).

(** [a || b] on optional strings: [a] when it is a non-empty string. *)
Definition orString (a : option string) (b : string) : string :=
  match a with
  | Some s => if nonEmpty s then s else b
  | None => b
  end.

(** [arr.slice(start)] with JavaScript's relative indexing. *)
Definition slice {A : Type} (start : Z) (l : list A) : list A :=
  let len := Z.of_nat (length l) in
  let k := if (start <? 0)%Z then Z.max (len + start) 0 else Z.min start len in
  skipn (Z.to_nat k) l.

End JS.

(** ** Node's [path.extname] (POSIX flavour) *)

Module path.

(** The last path component, trailing slashes ignored. *)
Definition base (p : string) : string :=
  last (JS.split "/"%char (JS.stripTrailingSlashes p)) EmptyString.

(** The tail of [s] from its last dot on, with the number of characters
    in front of that dot; [None] when [s] has no dot. *)
Fixpoint lastDot (s : string) : option (nat * string) :=
  match s with
  | EmptyString => None
  | String c r =>
      match lastDot r with
      | Some (i, e) => Some (S i, e)
      | None => if Ascii.eqb c "."%char then Some (0, s) else None
      end
  end.

Definition extname (p : string) : string :=
  let b := base p in
  match lastDot b with
  | None => EmptyString
  | Some (0, _) => EmptyString
  | Some (_, e) => if String.eqb b ".." then EmptyString else e
  end.

End path.

(** ** Dynamically typed values *)

(** A number is carried by its canonical rendering, the text [String(n)]
    yields; [JOid] is a Mongoose [ObjectId], carried by its hexadecimal
    text; the keys of an object are distinct. *)
Inductive jsval : Type :=
| JUndefined
| JNull
| JBool (b : bool)
| JNum (repr : string)
| JStr (s : string)
| JOid (hex : string)
| JArr (items : list jsval)
| JObj (fields : list (string * jsval)).

(** [!!v] *)
Definition truthy (v : jsval) : bool :=
  match v with
  | JUndefined | JNull => false
  | JBool b => b
  | JNum r => negb (String.eqb r "0" || String.eqb r "NaN")
  | JStr s => JS.nonEmpty s
  | JOid _ | JArr _ | JObj _ => true
  end.

(** [String(v)] *)
Fixpoint String_ (v : jsval) : string :=
  match v with
  | JUndefined => "undefined"
  | JNull => "null"
  | JBool true => "true"
  | JBool false => "false"
  | JNum r => r
  | JStr s => s
  | JOid h => h
  | JArr items =>
      (fix join (l : list jsval) : string :=
         match l with
         | [] => EmptyString
         | x :: r =>
             let e := match x with
                      | JUndefined | JNull => EmptyString
                      | _ => String_ x
                      end in
             match r with
             | [] => e
             | _ => (e ++ "," ++ join r)%string
             end
         end) items
  | JObj _ => "[object Object]"
  end.

(** [a || b] *)
Definition or_else (a b : jsval) : jsval := if truthy a then a else b.

(** [v?.key]: [undefined] unless [v] is an object that has the key. *)
Definition prop (key : string) (v : jsval) : jsval :=
  match v with
  | JObj fields =>
      match find (fun kv => String.eqb (fst kv) key) fields with
      | Some kv => snd kv
      | None => JUndefined
      end
  | _ => JUndefined
  end.

(** ** An insertion-ordered [Set] of strings *)

Module StringSet.

Definition t := list string.

Definition empty : t := [].

Definition has (s : t) (k : string) : bool := existsb (String.eqb k) s.

(** [s.add(k)]: a key already present keeps its place. *)
Definition add (k : string) (s : t) : t := if has s k then s else s ++ [k].

End StringSet.

(** ** Documents *)

Definition ObjectId := nat.

Module TempFile.
Record t := mk {
  originalname : option string;
  mimetype : string;
  size : nat;
  headText : string;
  bufferBase64 : option string
}.
(** [f && f.bufferBase64] *)
Definition retained (f : t) : bool :=
  match bufferBase64 f with
  | Some b => JS.nonEmpty b
  | None => false
  end.
End TempFile.

Module Message.
Record t := mk {
  _id : ObjectId;
  chat : ObjectId;
  sender : string;
  content : option string;
  selectedDatasets : list jsval;
  tempFiles : list TempFile.t
}.
End Message.

Module Dataset.
Record t := mk {
  _id : jsval;
  name : string;
  url : string
}.
End Dataset.

Module Team.
Record t := mk {
  organization : ObjectId;
  members : list ObjectId
}.
End Team.

Module Project.
Record t := mk {
  _id : ObjectId;
  team : option Team.t;
  chats : list ObjectId;
  datasets : list Dataset.t
}.
End Project.

Module Chat.
Record t := mk {
  _id : ObjectId;
  project : ObjectId;
  title : string;
  messages : list ObjectId
}.
End Chat.

(** ** Context aggregation of the reply operation *)

Record Turn := mkTurn { role : string; text : option string }.

Record DatasetRef := mkRef { ref_name : string; ref_url : string }.

(** [allMessages.forEach(msg => msg.selectedDatasets.forEach(
      dsId => allDatasetIds.add(String(dsId))))] *)
Definition allDatasetIds (allMessages : list Message.t) : StringSet.t :=
  fold_left
    (fun ids msg =>
       if 0 <? length (Message.selectedDatasets msg) then
         fold_left (fun ids' dsId => StringSet.add (String_ dsId) ids')
                   (Message.selectedDatasets msg) ids
       else ids)
    allMessages StringSet.empty.

(** [allMessages.slice(-5).map(msg => ({ role: ..., content: msg.content }))] *)
Definition recentHistory (allMessages : list Message.t) : list Turn :=
  map (fun msg =>
         {| role := if String.eqb (Message.sender msg) "user"
                    then "user" else "assistant";
            text := Message.content msg |})
      (JS.slice (-5) allMessages).

(** Every file with retained content of every user message, in history
    order. *)
Definition allUploadedFiles (allMessages : list Message.t) : list TempFile.t :=
  flat_map
    (fun msg =>
       if String.eqb (Message.sender msg) "user"
       then filter TempFile.retained (Message.tempFiles msg)
       else [])
    allMessages.

(** The upload descriptors pushed by
    [allUploadedFiles.forEach((file, index) => datasetsContext.push(...))];
    [index] is the position of the first file of [files]. *)
Fixpoint uploadRefs (index : nat) (files : list TempFile.t) : list DatasetRef :=
  match files with
  | [] => []
  | file :: rest =>
      {| ref_name := JS.orString (TempFile.originalname file)
                                 ("Upload " ++ JS.ofNat (index + 1))%string;
         ref_url := "Current Upload" |}
      :: uploadRefs (S index) rest
  end.

(** The registry part: the project's datasets whose id is in the set. *)
Definition resolvedRefs (datasets : list Dataset.t) (ids : StringSet.t)
  : list DatasetRef :=
  map (fun d => {| ref_name := Dataset.name d; ref_url := Dataset.url d |})
      (filter (fun d => StringSet.has ids (String_ (Dataset._id d))) datasets).

Definition datasetsContext (project : Project.t) (allMessages : list Message.t)
  : list DatasetRef :=
  resolvedRefs (Project.datasets project) (allDatasetIds allMessages)
  ++ uploadRefs 0 (allUploadedFiles allMessages).

(** ** The platform *)

Module URL.
(** A parsed URL; [toString] puts the parts back together. *)
Record t := mk {
  origin : string;
  pathname : string;
  search : string;
  hash : string
}.
Definition setPathname (p : string) (u : t) : t :=
  {| origin := origin u; pathname := p; search := search u; hash := hash u |}.
Definition toString (u : t) : string :=
  (origin u ++ pathname u ++ search u ++ hash u)%string.
End URL.

(** [JSON_parse] and [URL_parse] answer [None] where the JavaScript
    function throws. *)
Class Runtime := {
  JSON_parse : string -> option jsval;
  JSON_stringify : jsval -> string;
  URL_parse : string -> option URL.t;
  base64_encode : string -> string;
  base64_decode : string -> string
}.

(** ** Requests and responses *)

Module User.
Record t := mk {
  userId : ObjectId;
  organization : ObjectId;
  role : string
}.
End User.

(** A file as the upload middleware hands it over. *)
Module Upload.
Record t := mk {
  originalname : option string;
  mimetype : string;
  size : nat;
  buffer : option string
}.
End Upload.

Module Req.
Record t := mk {
  chatId : option ObjectId;
  projectId : option ObjectId;
  content : option string;
  selectedDatasets : jsval;
  files : list Upload.t
}.
End Req.

Inductive Body : Type :=
| ErrorBody (error : string)
| SavedBody (message : string) (chatId : ObjectId)
| AnalysisBody (analysis : jsval).

Record Response := mkResponse { status : nat; body : Body }.

(** [res.status(code).json({ error })] *)
Definition errorResponse (code : nat) (error : string) : Response :=
  {| status := code; body := ErrorBody error |}.

(** ** The outbound HTTP call *)

Inductive Part : Type :=
| Field (name value : string)
| FilePart (name data filename contentType : string).

Definition FormData := list Part.

(** The file parts of a form: field name, file name and content. *)
Definition attachments (form : FormData) : list (string * string * string) :=
  flat_map (fun part =>
              match part with
              | FilePart name data filename _ => [(name, filename, data)]
              | Field _ _ => []
              end)
           form.

(** What the analysis engine does with a request: it answers with a status
    and a body, or no answer arrives (refused connection, timeout). *)
Inductive Upstream : Type :=
| Answered (status : nat) (data : jsval)
| NoAnswer (message : string) (code : option string).

(** The engine sees the URL, the headers added to the multipart ones and
    the form. *)
Definition Engine := string -> list (string * string) -> FormData -> Upstream.

Module Axios.
Record response := mkResponse { status : nat; data : jsval }.
Record error := mkError {
  message : string;
  code : option string;
  response_ : option response
}.
Inductive result : Type :=
| Resolved (r : response)
| Rejected (e : error).

(** [axios.post] with the default [validateStatus]: only a status in
    200..299 resolves. *)
Definition post (engine : Engine) (url : string)
           (headers : list (string * string)) (form : FormData) : result :=
  match engine url headers form with
  | Answered st d =>
      if (200 <=? st) && (st <? 300) then Resolved {| status := st; data := d |}
      else Rejected
             {| message := ("Request failed with status code " ++ JS.ofNat st)%string;
                code := if (400 <=? st) && (st <? 500) then Some "ERR_BAD_REQUEST"
                        else if (500 <=? st) && (st <? 600) then Some "ERR_BAD_RESPONSE"
                        else None;
                response_ := Some {| status := st; data := d |} |}
  | NoAnswer m c => Rejected {| message := m; code := c; response_ := None |}
  end.
End Axios.

(** The dispatch fails: whatever is posted, [axios.post] rejects. *)
Definition dispatchFails (engine : Engine) : Prop :=
  forall url headers form,
    exists e, Axios.post engine url headers form = Axios.Rejected e.

(** ** The store *)

Record Store := mkStore {
  projects : list Project.t;
  chats : list Chat.t;
  messages : list Message.t;
  nextId : ObjectId
}.

Module Db.

(** [Project.findById(id)], team populated. *)
Definition Project_findById (id : ObjectId) (s : Store) : option Project.t :=
  find (fun p => Project._id p =? id) (projects s).

(** [project.save()] *)
Definition Project_save (p : Project.t) (s : Store) : Store :=
  {| projects := map (fun q => if Project._id q =? Project._id p then p else q)
                     (projects s);
     chats := chats s; messages := messages s; nextId := nextId s |}.

(** [Chat.findOne(query)] *)
Definition Chat_findOne (query : Chat.t -> bool) (s : Store) : option Chat.t :=
  find query (chats s).

(** [Chat.findById(id)] *)
Definition Chat_findById (id : ObjectId) (s : Store) : option Chat.t :=
  Chat_findOne (fun c => Chat._id c =? id) s.

(** [.populate("messages")]: the stored documents of the listed ids, in
    list order; an id without a document is left out. *)
Definition populate (c : Chat.t) (s : Store) : list Message.t :=
  flat_map
    (fun id =>
       match find (fun m => Message._id m =? id) (messages s) with
       | Some m => [m]
       | None => []
       end)
    (Chat.messages c).

(** [Chat.create({ project, title, messages })] *)
Definition Chat_create (project : ObjectId) (title : string)
           (msgs : list ObjectId) (s : Store) : Chat.t * Store :=
  let c := {| Chat._id := nextId s; Chat.project := project;
              Chat.title := title; Chat.messages := msgs |} in
  (c, {| projects := projects s; chats := chats s ++ [c];
         messages := messages s; nextId := S (nextId s) |}).

(** [chat.save()] *)
Definition Chat_save (c : Chat.t) (s : Store) : Store :=
  {| projects := projects s;
     chats := map (fun d => if Chat._id d =? Chat._id c then c else d) (chats s);
     messages := messages s; nextId := nextId s |}.

(** [Message.create({ chat, sender, content, selectedDatasets, tempFiles })] *)
Definition Message_create (chat : ObjectId) (sender : string)
           (content : option string) (selectedDatasets : list jsval)
           (tempFiles : list TempFile.t) (s : Store) : Message.t * Store :=
  let m := {| Message._id := nextId s; Message.chat := chat;
              Message.sender := sender; Message.content := content;
              Message.selectedDatasets := selectedDatasets;
              Message.tempFiles := tempFiles |} in
  (m, {| projects := projects s; chats := chats s;
         messages := messages s ++ [m]; nextId := S (nextId s) |}).

End Db.

(** The project [pid] has a chat in the store. *)
Definition hasChat (pid : ObjectId) (s : Store) : bool :=
  existsb (fun c => Chat.project c =? pid) (chats s).

(** ** Handlers: state passing with early return *)

(** A computation on the store that either has sent the response
    ([inl], the JavaScript [return res...]) or goes on with a value. *)
Definition Handler (A : Type) : Type := Store -> Store * (Response + A).

Definition ret {A : Type} (a : A) : Handler A := fun s => (s, inr a).

Definition bind {A B : Type} (m : Handler A) (k : A -> Handler B) : Handler B :=
  fun s =>
    match m s with
    | (s', inl r) => (s', inl r)
    | (s', inr a) => k a s'
    end.

Definition respond {A : Type} (r : Response) : Handler A := fun s => (s, inl r).

(** A read of the store. *)
Definition query {A : Type} (f : Store -> A) : Handler A := fun s => (s, inr (f s)).

(** A write that yields a value. *)
Definition perform {A : Type} (f : Store -> A * Store) : Handler A :=
  fun s => let (a, s') := f s in (s', inr a).

Definition update (f : Store -> Store) : Handler unit := fun s => (f s, inr tt).

(** [if (!x) return r;] *)
Definition orRespond {A : Type} (o : option A) (r : Response) : Handler A :=
  match o with
  | Some a => ret a
  | None => respond r
  end.

Declare Scope handler_scope.
Delimit Scope handler_scope with handler.
Notation "x <- m ;; k" := (bind m (fun x => k))
  (at level 61, m at next level, right associativity) : handler_scope.
Notation "m ;; k" := (bind m (fun _ => k))
  (at level 61, right associativity) : handler_scope.
Local Open Scope handler_scope.

(** The response a handler ends with, and the store it leaves. *)
Definition run (h : Handler Response) (s : Store) : Response * Store :=
  match h s with
  | (s', inl r) => (r, s')
  | (s', inr r) => (r, s')
  end.

(** ** [chatController.js] *)

Section Controller.

Context {rt : Runtime}.

(** Normalises the [selectedDatasets] input into an array. *)
Definition parseSelectedDatasets (input : jsval) : list jsval :=
  if negb (truthy input) then []
  else
    match input with
    | JArr items => items
    | JStr s =>
        match JSON_parse s with
        | Some (JArr items) => items
        | Some parsed => [parsed]
        | None =>
            if JS.includes ","%char s
            then map JStr (filter JS.nonEmpty (map JS.trim (JS.split ","%char s)))
            else [JStr (JS.trim s)]
        end
    | _ => [input]
    end.

(** The filter of step 1: only CSV files. *)
Definition isCsv (f : Upload.t) : bool :=
  let ext := JS.toLowerCase (path.extname (JS.orString (Upload.originalname f) EmptyString)) in
  String.eqb ext ".csv" || String.eqb (Upload.mimetype f) "text/csv".

(** The map of step 1; [bufferBase64] is
    [f.buffer?.toString("base64") || null]. *)
Definition toTempFile (f : Upload.t) : TempFile.t :=
  {| TempFile.originalname := Upload.originalname f;
     TempFile.mimetype := Upload.mimetype f;
     TempFile.size := Upload.size f;
     TempFile.headText := EmptyString;
     TempFile.bufferBase64 :=
       match Upload.buffer f with
       | Some b =>
           let e := base64_encode b in
           if JS.nonEmpty e then Some e else None
       | None => None
       end |}.

(** [content?.trim() || null] *)
Definition trimmedContent (content : option string) : option string :=
  match content with
  | Some c => if JS.nonEmpty (JS.trim c) then Some (JS.trim c) else None
  | None => None
  end.

(** The access check every handler repeats. *)
Definition accessCheck (user : User.t) (team : Team.t) : Handler unit :=
  if negb (String.eqb (User.role user) "superadmin") then
    if negb (Team.organization team =? User.organization user) then
      respond (errorResponse 403 "Not in this organization.")
    else
      match find (fun m => m =? User.userId user) (Team.members team) with
      | None => respond (errorResponse 403 "Not a member of this team.")
      | Some _ => ret tt
      end
  else ret tt.

(** Step 5 of [chatHandler]: get or create the chat. *)
Definition getOrCreateChat (project : Project.t) (chatId : option ObjectId)
           (projectId : ObjectId) : Handler (option Chat.t) :=
  match chatId with
  | Some id =>
      query (Db.Chat_findOne
               (fun c => (Chat._id c =? id) && (Chat.project c =? projectId)))
  | None =>
      found <- query (Db.Chat_findOne (fun c => Chat.project c =? projectId)) ;;
      match found with
      | Some c => ret (Some c)
      | None =>
          c <- perform (Db.Chat_create projectId "New chat" []) ;;
          update (Db.Project_save
                    {| Project._id := Project._id project;
                       Project.team := Project.team project;
                       Project.chats := Project.chats project ++ [Chat._id c];
                       Project.datasets := Project.datasets project |}) ;;
          ret (Some c)
      end
  end.

(** [chat.messages.push(id); await chat.save()] *)
Definition pushMessage (c : Chat.t) (id : ObjectId) : Handler unit :=
  update (Db.Chat_save
            {| Chat._id := Chat._id c; Chat.project := Chat.project c;
               Chat.title := Chat.title c;
               Chat.messages := Chat.messages c ++ [id] |}).

(** Steps 1 to 3 of [chatHandler]: the retained files, the normalised
    selection and the three tests of the validation. *)
Definition tempFilesOf (req : Req.t) : list TempFile.t :=
  map toTempFile (filter isCsv (Req.files req)).

Definition selectedDatasetsOf (req : Req.t) : list jsval :=
  parseSelectedDatasets (Req.selectedDatasets req).

Definition hasContent (req : Req.t) : bool :=
  match Req.content req with
  | Some c => JS.nonEmpty (JS.trim c)
  | None => false
  end.

Definition hasFiles (req : Req.t) : bool := 0 <? length (tempFilesOf req).

Definition hasDatasets (req : Req.t) : bool := 0 <? length (selectedDatasetsOf req).

Definition chatHandler (req : Req.t) (user : User.t) : Handler Response :=
  match Req.projectId req with
  | None =>
      respond (errorResponse 400
        "projectId and at least one of content, selectedDatasets, or files are required.")
  | Some projectId =>
      if negb (hasContent req) && negb (hasFiles req) && negb (hasDatasets req) then
        respond (errorResponse 400
          "projectId and at least one of content, selectedDatasets, or files are required.")
      else
        found <- query (Db.Project_findById projectId) ;;
        project <- orRespond found (errorResponse 404 "Project not found.") ;;
        team <- orRespond (Project.team project)
                          (errorResponse 404 "Team not found.") ;;
        accessCheck user team ;;
        resolved <- getOrCreateChat project (Req.chatId req) projectId ;;
        chat <- orRespond resolved
                  (errorResponse 404 "Chat not found or could not be created.") ;;
        userMsg <- perform (Db.Message_create (Chat._id chat) "user"
                              (trimmedContent (Req.content req))
                              (selectedDatasetsOf req) (tempFilesOf req)) ;;
        pushMessage chat (Message._id userMsg) ;;
        ret {| status := 200;
               body := SavedBody "User message saved." (Chat._id chat) |}
  end.

(** A caller's submissions, handled one after the other. *)
Definition submitAll (requests : list (Req.t * User.t)) (s : Store) : Store :=
  fold_left (fun st request =>
               snd (run (chatHandler (fst request) (snd request)) st))
            requests s.

(** *** The reply operation *)

Definition turnValue (t : Turn) : jsval :=
  JObj [("role", JStr (role t));
        ("content", match text t with Some c => JStr c | None => JNull end)].

Definition refValue (d : DatasetRef) : jsval :=
  JObj [("name", JStr (ref_name d)); ("url", JStr (ref_url d))].

(** [JSON.stringify({ messages: recentHistory, datasets: datasetsContext })] *)
Definition contextString (project : Project.t) (allMessages : list Message.t)
  : string :=
  JSON_stringify
    (JObj [("messages", JArr (map turnValue (recentHistory allMessages)));
           ("datasets", JArr (map refValue (datasetsContext project allMessages)))]).

(** One [files] part per uploaded file. *)
Definition fileParts (files : list TempFile.t) : list Part :=
  map (fun file =>
         FilePart "files"
           (base64_decode (match TempFile.bufferBase64 file with
                           | Some b => b
                           | None => EmptyString
                           end))
           (JS.orString (TempFile.originalname file) "dataset.csv")
           "text/csv")
      files.

Definition replyForm (userText : string) (project : Project.t)
           (allMessages : list Message.t) : FormData :=
  [Field "user_text" userText;
   Field "context" (contextString project allMessages)]
  ++ fileParts (allUploadedFiles allMessages).

(** [new URL(raw)], and on failure [new URL(`http://${raw}`)]. *)
Definition parseBase (raw : string) : option URL.t :=
  match URL_parse raw with
  | Some u => Some u
  | None => URL_parse ("http://" ++ raw)%string
  end.

(** The path rewrite of the reply operation: [/analyze] is appended unless
    the path already ends with it. *)
Definition ensureAnalyze (u : URL.t) : URL.t :=
  if negb (JS.endsWith (URL.pathname u) "/analyze")
  then URL.setPathname
         (JS.stripTrailingSlashes (URL.pathname u) ++ "/analyze")%string u
  else u.

Definition apiUrl (FASTAPI_URL : option string) : option string :=
  option_map (fun u => URL.toString (ensureAnalyze u))
             (parseBase (JS.orString FASTAPI_URL "http://localhost:8000")).

Definition aiReplyHandler (FASTAPI_URL : option string) (engine : Engine)
           (req : Req.t) (user : User.t) : Handler Response :=
  match Req.projectId req, Req.chatId req, trimmedContent (Req.content req) with
  | Some projectId, Some chatId, Some userText =>
      foundProject <- query (Db.Project_findById projectId) ;;
      project <- orRespond foundProject (errorResponse 404 "Project not found.") ;;
      foundChat <- query (Db.Chat_findById chatId) ;;
      chat <- orRespond foundChat (errorResponse 404 "Chat not found.") ;;
      allMessages <- query (Db.populate chat) ;;
      team <- orRespond (Project.team project)
                        (errorResponse 404 "Team not found.") ;;
      accessCheck user team ;;
      url <- orRespond (apiUrl FASTAPI_URL)
                       (errorResponse 500 "Internal server error.") ;;
      match Axios.post engine url [] (replyForm userText project allMessages) with
      | Axios.Rejected _ => respond (errorResponse 500 "Internal server error.")
      | Axios.Resolved response =>
          let analysis := Axios.data response in
          botMsg <- perform (Db.Message_create (Chat._id chat) "chatbot"
                               (Some (JSON_stringify analysis)) [] []) ;;
          pushMessage chat (Message._id botMsg) ;;
          ret {| status := 200; body := AnalysisBody analysis |}
      end
  | _, _, _ => respond (errorResponse 400 "projectId, chatId, and content required.")
  end.

(** *** The earlier revision of the reply operation

    The source file also holds the preceding revision of [aiReplyHandler];
    these are the steps in which it differs. *)

(** [[...allMessages].reverse().find(m => m.sender === "user")] *)
Definition lastUserMsg (allMessages : list Message.t) : option Message.t :=
  find (fun m => String.eqb (Message.sender m) "user") (rev allMessages).

(** [(lastUserMsg?.tempFiles || []).find(f => f.bufferBase64)] *)
Definition latestFile (allMessages : list Message.t) : option TempFile.t :=
  match lastUserMsg allMessages with
  | Some m => find TempFile.retained (Message.tempFiles m)
  | None => None
  end.

(** The path rewrite of the earlier revision: [/analyze] is always
    appended. *)
Definition appendAnalyze (u : URL.t) : URL.t :=
  URL.setPathname (JS.stripTrailingSlashes (URL.pathname u) ++ "/analyze")%string u.

Definition earlierApiUrl (FASTAPI_URL : option string) : option string :=
  option_map (fun u => URL.toString (appendAnalyze u))
             (parseBase (JS.orString FASTAPI_URL "http://localhost:8000")).

End Controller.

(** ** [fastApiClient.js] *)

Module FastApiClient.

(** The [Error] that [callFastAPIAnalyze] throws. *)
Record Thrown := mkThrown {
  message : string;
  status : option nat;
  code : option string
}.

Section Client.

Context {rt : Runtime}.

(** The path the client posts to: always the configured path without its
    trailing slashes, followed by [/analyze]. *)
Definition normalizedPath (u : URL.t) : string :=
  (JS.stripTrailingSlashes (URL.pathname u) ++ "/analyze")%string.

Definition analyzeUrl (FASTAPI_URL : option string) : Thrown + string :=
  let raw := JS.orString FASTAPI_URL "http://localhost:8000" in
  match parseBase raw with
  | Some u => inr (URL.toString (URL.setPathname (normalizedPath u) u))
  | None =>
      inl {| message := ("Invalid FASTAPI_URL: " ++ raw)%string;
             status := None; code := None |}
  end.

(** [err.response?.data?.detail || err.response?.data?.error
     || err.message || 'Error calling FastAPI'] *)
Definition clientMsg (err : Axios.error) : jsval :=
  let data := match Axios.response_ err with
              | Some r => Axios.data r
              | None => JUndefined
              end in
  or_else (prop "detail" data)
    (or_else (prop "error" data)
       (or_else (JStr (Axios.message err)) (JStr "Error calling FastAPI"))).

(** The translation in the [catch] block. *)
Definition translate (err : Axios.error) : Thrown :=
  {| message := String_ (clientMsg err);
     status := option_map Axios.status (Axios.response_ err);
     code := Axios.code err |}.

(** [fileBuffer] is [None] for a value that is neither a [Buffer] nor a
    readable stream. *)
Definition callFastAPIAnalyze (FASTAPI_URL : option string) (engine : Engine)
           (userQuery : string) (fileBuffer : option string)
           (fileName : option string) (sessionId : option string)
  : Thrown + jsval :=
  match analyzeUrl FASTAPI_URL with
  | inl e => inl e
  | inr url =>
      match fileBuffer with
      | None =>
          inl {| message := "fileBuffer must be a Buffer or readable stream";
                 status := None; code := None |}
      | Some buffer =>
          let name := JS.toLowerCase (JS.orString fileName "dataset.csv") in
          if negb (JS.endsWith name ".csv") then
            inl {| message := "fileName must have a .csv extension";
                   status := None; code := None |}
          else
            let form := [Field "user_query" userQuery;
                         FilePart "file" buffer
                                  (JS.orString fileName "dataset.csv") "text/csv"] in
            let headers := match sessionId with
                           | Some id => if JS.nonEmpty id then [("X-Session-ID", id)] else []
                           | None => []
                           end in
            match Axios.post engine url headers form with
            | Axios.Resolved resp => inr (Axios.data resp)
            | Axios.Rejected err => inl (translate err)
            end
      end
  end.

End Client.

End FastApiClient.

(** ** A reference runtime

    An executable instance of [Runtime], used to run the handlers on
    concrete requests: JSON text without escape sequences, fractions or
    exponents; URLs of the shape [scheme://authority/path?query#fragment];
    standard Base64 with padding. *)

Module Ref.

Definition isJsonSpace (c : ascii) : bool :=
  let n := nat_of_ascii c in
  (n =? 9) || (n =? 10) || (n =? 13) || (n =? 32).

Definition dquote : ascii := ascii_of_nat 34.

Definition isDigit (c : ascii) : bool :=
  let n := nat_of_ascii c in (48 <=? n) && (n <=? 57).

Fixpoint drop (n : nat) (s : string) : string :=
  match n, s with
  | S n', String _ r => drop n' r
  | _, _ => s
  end.

(** [expect lit s]: the rest of [s] after its prefix [lit]. *)
Definition expect (lit s : string) : option string :=
  if String.prefix lit s then Some (drop (String.length lit) s) else None.

(** The text of a string literal up to its closing quote. *)
Fixpoint stringBody (s : string) : option (string * string) :=
  match s with
  | EmptyString => None
  | String c r =>
      if Ascii.eqb c dquote then Some (EmptyString, r)
      else if Ascii.eqb c "\"%char then None
      else match stringBody r with
           | Some (t, rest) => Some (String c t, rest)
           | None => None
           end
  end.

Fixpoint digits (s : string) : string * string :=
  match s with
  | String c r =>
      if isDigit c then let (d, rest) := digits r in (String c d, rest)
      else (EmptyString, s)
  | EmptyString => (EmptyString, EmptyString)
  end.

(** An integer literal: no leading zero, and [-0] is [0]. *)
Definition number (s : string) : option (jsval * string) :=
  let (neg, s') := match s with
                   | String "-"%char r => (true, r)
                   | _ => (false, s)
                   end in
  match digits s' with
  | (EmptyString, _) => None
  | (String "0"%char EmptyString, rest) => Some (JNum "0", rest)
  | (String "0"%char _, _) => None
  | (d, rest) => Some (JNum (if neg then String "-"%char d else d), rest)
  end.

Fixpoint value (fuel : nat) (s : string) : option (jsval * string) :=
  match fuel with
  | 0 => None
  | S fuel' =>
      match JS.dropWhile isJsonSpace s with
      | EmptyString => None
      | String c r as s' =>
          if Ascii.eqb c dquote then
            match stringBody r with
            | Some (t, rest) => Some (JStr t, rest)
            | None => None
            end
          else if Ascii.eqb c "["%char then
            match JS.dropWhile isJsonSpace r with
            | String "]"%char rest => Some (JArr [], rest)
            | _ =>
                match elements fuel' r with
                | Some (items, rest) => Some (JArr items, rest)
                | None => None
                end
            end
          else if Ascii.eqb c "{"%char then
            match JS.dropWhile isJsonSpace r with
            | String "}"%char rest => Some (JObj [], rest)
            | _ =>
                match members fuel' r with
                | Some (fields, rest) => Some (JObj fields, rest)
                | None => None
                end
            end
          else if Ascii.eqb c "t"%char then
            option_map (fun rest => (JBool true, rest)) (expect "true" s')
          else if Ascii.eqb c "f"%char then
            option_map (fun rest => (JBool false, rest)) (expect "false" s')
          else if Ascii.eqb c "n"%char then
            option_map (fun rest => (JNull, rest)) (expect "null" s')
          else if Ascii.eqb c "-"%char || isDigit c then number s'
          else None
      end
  end
with elements (fuel : nat) (s : string) : option (list jsval * string) :=
  match fuel with
  | 0 => None
  | S fuel' =>
      match value fuel' s with
      | Some (v, rest) =>
          match JS.dropWhile isJsonSpace rest with
          | String "]"%char rest' => Some ([v], rest')
          | String ","%char rest' =>
              match elements fuel' rest' with
              | Some (vs, rest'') => Some (v :: vs, rest'')
              | None => None
              end
          | _ => None
          end
      | None => None
      end
  end
with members (fuel : nat) (s : string) : option (list (string * jsval) * string) :=
  match fuel with
  | 0 => None
  | S fuel' =>
      match JS.dropWhile isJsonSpace s with
      | String c r =>
          if negb (Ascii.eqb c dquote) then None else
          match stringBody r with
          | Some (k, rest) =>
              match JS.dropWhile isJsonSpace rest with
              | String ":"%char rest' =>
                  match value fuel' rest' with
                  | Some (v, rest'') =>
                      match JS.dropWhile isJsonSpace rest'' with
                      | String "}"%char rest3 => Some ([(k, v)], rest3)
                      | String ","%char rest3 =>
                          match members fuel' rest3 with
                          | Some (kvs, rest4) => Some ((k, v) :: kvs, rest4)
                          | None => None
                          end
                      | _ => None
                      end
                  | None => None
                  end
              | _ => None
              end
          | None => None
          end
      | _ => None
      end
  end.

(** One value, with nothing but white space after it. *)
Definition parse (s : string) : option jsval :=
  match value (S (String.length s)) s with
  | Some (v, rest) =>
      match JS.dropWhile isJsonSpace rest with
      | EmptyString => Some v
      | _ => None
      end
  | None => None
  end.

Definition quote (s : string) : string :=
  String dquote (s ++ String dquote EmptyString)%string.

Fixpoint stringify (v : jsval) : string :=
  match v with
  | JUndefined | JNull => "null"
  | JBool true => "true"
  | JBool false => "false"
  | JNum r => r
  | JStr s => quote s
  | JOid h => quote h
  | JArr items =>
      ("[" ++
       (fix go (l : list jsval) : string :=
          match l with
          | [] => EmptyString
          | x :: r =>
              match r with
              | [] => stringify x
              | _ => stringify x ++ "," ++ go r
              end
          end) items
       ++ "]")%string
  | JObj fields =>
      ("{" ++
       (fix go (l : list (string * jsval)) : string :=
          match l with
          | [] => EmptyString
          | (k, x) :: r =>
              match r with
              | [] => quote k ++ ":" ++ stringify x
              | _ => quote k ++ ":" ++ stringify x ++ "," ++ go r
              end
          end) fields
       ++ "}")%string
  end.

(** [break p s]: the longest prefix of [s] without a character satisfying
    [p], and the rest. *)
Fixpoint break (p : ascii -> bool) (s : string) : string * string :=
  match s with
  | EmptyString => (EmptyString, EmptyString)
  | String c r =>
      if p c then (EmptyString, s)
      else let (a, b) := break p r in (String c a, b)
  end.

Fixpoint splitScheme (s : string) : option (string * string) :=
  match s with
  | EmptyString => None
  | String c r =>
      if String.prefix "://" s then Some (EmptyString, drop 3 s)
      else match splitScheme r with
           | Some (a, b) => Some (String c a, b)
           | None => None
           end
  end.

Definition isOneOf (cs : string) (c : ascii) : bool := JS.includes c cs.

Definition parseUrl (raw : string) : option URL.t :=
  match splitScheme raw with
  | Some (scheme, rest) =>
      let (host, rest1) := break (isOneOf "/?#") rest in
      let (p, rest2) := break (isOneOf "?#") rest1 in
      let (q, h) := break (isOneOf "#") rest2 in
      if JS.nonEmpty scheme && JS.nonEmpty host then
        Some {| URL.origin := (scheme ++ "://" ++ host)%string;
                URL.pathname := if JS.nonEmpty p then p else "/";
                URL.search := q;
                URL.hash := h |}
      else None
  | None => None
  end.

Definition alphabet : string :=
  "ABCDEFGHIJKLMNOPQRSTUVWXYZabcdefghijklmnopqrstuvwxyz0123456789+/".

Definition sextet (n : nat) : ascii :=
  match String.get n alphabet with
  | Some c => c
  | None => "="%char
  end.

Fixpoint encode (s : string) : string :=
  match s with
  | EmptyString => EmptyString
  | String a EmptyString =>
      let x := nat_of_ascii a in
      String (sextet (x / 4)) (String (sextet (x mod 4 * 16)) "==")
  | String a (String b EmptyString) =>
      let x := nat_of_ascii a in
      let y := nat_of_ascii b in
      String (sextet (x / 4))
        (String (sextet (x mod 4 * 16 + y / 16))
           (String (sextet (y mod 16 * 4)) "="))
  | String a (String b (String c r)) =>
      let x := nat_of_ascii a in
      let y := nat_of_ascii b in
      let z := nat_of_ascii c in
      String (sextet (x / 4))
        (String (sextet (x mod 4 * 16 + y / 16))
           (String (sextet (y mod 16 * 4 + z / 64))
              (String (sextet (z mod 64)) (encode r))))
  end.

Fixpoint indexOf (c : ascii) (s : string) : option nat :=
  match s with
  | EmptyString => None
  | String d r => if Ascii.eqb c d then Some 0 else option_map S (indexOf c r)
  end.

Fixpoint decode (s : string) : string :=
  match s with
  | String a (String b (String c (String d r))) =>
      match indexOf a alphabet, indexOf b alphabet with
      | Some x, Some y =>
          String (ascii_of_nat (x * 4 + y / 16))
            match indexOf c alphabet with
            | Some z =>
                String (ascii_of_nat (y mod 16 * 16 + z / 4))
                  match indexOf d alphabet with
                  | Some w => String (ascii_of_nat (z mod 4 * 64 + w)) (decode r)
                  | None => EmptyString
                  end
            | None => EmptyString
            end
      | _, _ => EmptyString
      end
  | _ => EmptyString
  end.

Definition runtime : Runtime := {|
  JSON_parse := parse;
  JSON_stringify := stringify;
  URL_parse := parseUrl;
  base64_encode := encode;
  base64_decode := decode
|}.

End Ref.

(** ** The specification's wording, for comparison *)

Module Spec.

(** Every identifier selected in the history, string-normalised, in
    selection order and with repetitions. *)
Definition selectedKeys (allMessages : list Message.t) : list string :=
  map String_ (flat_map Message.selectedDatasets allMessages).

(** The distinct elements of [keys] that are not in [seen], each at its
    first occurrence. *)
Fixpoint firstSeen (seen keys : list string) : list string :=
  match keys with
  | [] => []
  | k :: rest =>
      if existsb (String.eqb k) seen then firstSeen seen rest
      else k :: firstSeen (seen ++ [k]) rest
  end.

Definition key (d : Dataset.t) : string := String_ (Dataset._id d).

Definition refOf (d : Dataset.t) : DatasetRef :=
  {| ref_name := Dataset.name d; ref_url := Dataset.url d |}.

(** "One entry per distinct identifier, in first-seen order": the registry
    entries are those of datasets [ds] that answer, one by one and in that
    order, to the first-seen identifiers. *)
Definition refsInFirstSeenOrder (project : Project.t)
           (allMessages : list Message.t) : Prop :=
  exists ds,
    Forall2 (fun k d => In d (Project.datasets project) /\ key d = k)
            (firstSeen [] (selectedKeys allMessages)) ds
    /\ resolvedRefs (Project.datasets project) (allDatasetIds allMessages)
       = map refOf ds.

(** The retained files of the most recent user message. *)
Definition latestUserFiles (allMessages : list Message.t) : list TempFile.t :=
  match lastUserMsg allMessages with
  | Some m => filter TempFile.retained (Message.tempFiles m)
  | None => []
  end.

(** "Only the files of the most recent user message travel." *)
Definition onlyLatestFilesAttached (allMessages : list Message.t) : Prop :=
  allUploadedFiles allMessages = latestUserFiles allMessages.

(** The chat most recently registered on the project. *)
Definition mostRecentlyAssociated (project : Project.t) : option ObjectId :=
  match rev (Project.chats project) with
  | id :: _ => Some id
  | [] => None
  end.

(** "Without a chat id, the most recently associated chat of the project
    is returned." *)
Definition resolvesToMostRecent (project : Project.t) (pid : ObjectId)
           (s : Store) : Prop :=
  forall s1 c,
    hasChat pid s = true ->
    getOrCreateChat project None pid s = (s1, inr (Some c)) ->
    Some (Chat._id c) = mostRecentlyAssociated project.

(** "sender is user or assistant" *)
Definition senderInSpec (m : Message.t) : Prop :=
  Message.sender m = "user" \/ Message.sender m = "assistant".

Definition sendersInSpec (s : Store) : Prop := Forall senderInSpec (messages s).

(** What the code stores: user or chatbot. *)
Definition senderStored (m : Message.t) : Prop :=
  Message.sender m = "user" \/ Message.sender m = "chatbot".

(** "The error surfaced to the caller carries the upstream status and
    detail." *)
Definition surfacesUpstream (r : Response) (upstreamStatus : nat)
           (detail : string) : Prop :=
  status r = upstreamStatus /\ body r = ErrorBody detail.

End Spec.

(** ** A small installation, for concrete runs *)

Module Demo.

Definition team : Team.t :=
  {| Team.organization := 1; Team.members := [100; 101] |}.

Definition dsA : Dataset.t :=
  {| Dataset._id := JOid "a"; Dataset.name := "A.csv"; Dataset.url := "/files/A.csv" |}.

Definition dsB : Dataset.t :=
  {| Dataset._id := JOid "b"; Dataset.name := "B.csv"; Dataset.url := "/files/B.csv" |}.

Definition project : Project.t :=
  {| Project._id := 1; Project.team := Some team;
     Project.chats := [10; 11]; Project.datasets := [dsB; dsA] |}.

Definition oldFile : TempFile.t :=
  {| TempFile.originalname := Some "old.csv"; TempFile.mimetype := "text/csv";
     TempFile.size := 3; TempFile.headText := EmptyString;
     TempFile.bufferBase64 := Some "YSxi" |}.

Definition newFile : TempFile.t :=
  {| TempFile.originalname := Some "new.csv"; TempFile.mimetype := "text/csv";
     TempFile.size := 3; TempFile.headText := EmptyString;
     TempFile.bufferBase64 := Some "Yyxk" |}.

(** Turn 1 selects A, turn 2 selects B, turn 3 selects A again. *)
Definition turn1 : Message.t :=
  {| Message._id := 20; Message.chat := 10; Message.sender := "user";
     Message.content := Some "load A";
     Message.selectedDatasets := [JStr "a"]; Message.tempFiles := [oldFile] |}.

Definition turn2 : Message.t :=
  {| Message._id := 21; Message.chat := 10; Message.sender := "user";
     Message.content := Some "and B";
     Message.selectedDatasets := [JOid "b"]; Message.tempFiles := [] |}.

Definition turn3 : Message.t :=
  {| Message._id := 22; Message.chat := 10; Message.sender := "user";
     Message.content := Some "A again";
     Message.selectedDatasets := [JOid "a"]; Message.tempFiles := [newFile] |}.

Definition history : list Message.t := [turn1; turn2; turn3].

(** Twelve messages, user and bot in turn, numbered from 1. *)
Definition numbered (n : nat) : Message.t :=
  {| Message._id := 40 + n; Message.chat := 11;
     Message.sender := if Nat.even n then "chatbot" else "user";
     Message.content := Some (JS.ofNat n);
     Message.selectedDatasets := []; Message.tempFiles := [] |}.

Definition twelve : list Message.t := map numbered (seq 1 12).

Definition firstChat : Chat.t :=
  {| Chat._id := 10; Chat.project := 1; Chat.title := "New chat";
     Chat.messages := [20; 21; 22] |}.

Definition secondChat : Chat.t :=
  {| Chat._id := 11; Chat.project := 1; Chat.title := "New chat";
     Chat.messages := [] |}.

Definition store : Store :=
  {| projects := [project]; chats := [firstChat; secondChat];
     messages := history; nextId := 30 |}.

(** A project that has no chat yet. *)
Definition freshProject : Project.t :=
  {| Project._id := 2; Project.team := Some team;
     Project.chats := []; Project.datasets := [] |}.

Definition freshStore : Store :=
  {| projects := [freshProject]; chats := []; messages := []; nextId := 30 |}.

Definition member : User.t :=
  {| User.userId := 100; User.organization := 1; User.role := "user" |}.

Definition outsider : User.t :=
  {| User.userId := 999; User.organization := 1; User.role := "user" |}.

Definition foreigner : User.t :=
  {| User.userId := 100; User.organization := 2; User.role := "user" |}.

Definition superadmin : User.t :=
  {| User.userId := 7; User.organization := 9; User.role := "superadmin" |}.

(** A submission of text to the project, without a chat id. *)
Definition submit : Req.t :=
  {| Req.chatId := None; Req.projectId := Some 1; Req.content := Some "hello";
     Req.selectedDatasets := JUndefined; Req.files := [] |}.

Definition submitFresh : Req.t :=
  {| Req.chatId := None; Req.projectId := Some 2; Req.content := Some "hello";
     Req.selectedDatasets := JUndefined; Req.files := [] |}.

(** The store once [member] has submitted "hello". *)
Definition afterSubmit : Store :=
  snd (run (chatHandler (rt := Ref.runtime) submit member) store).

(** A submission with a CSV file and a picture. *)
Definition withFiles : Req.t :=
  {| Req.chatId := Some 10; Req.projectId := Some 1; Req.content := None;
     Req.selectedDatasets := JUndefined;
     Req.files :=
       [ {| Upload.originalname := Some "Sales.CSV";
            Upload.mimetype := "application/octet-stream";
            Upload.size := 3; Upload.buffer := Some "a,b" |};
         {| Upload.originalname := Some "chart.png";
            Upload.mimetype := "image/png";
            Upload.size := 2; Upload.buffer := Some "PN" |} ] |}.

(** A submission that carries nothing but a blank selection. *)
Definition blankSelection : Req.t :=
  {| Req.chatId := None; Req.projectId := Some 1; Req.content := None;
     Req.selectedDatasets := JStr "  "; Req.files := [] |}.

Definition ask : Req.t :=
  {| Req.chatId := Some 10; Req.projectId := Some 1;
     Req.content := Some " what is in A? ";
     Req.selectedDatasets := JUndefined; Req.files := [] |}.

(** Engines: one that answers, one that rejects the upload, one that is
    down. *)
Definition answering : Engine :=
  fun _ _ _ => Answered 200 (JObj [("insights", JStr "fine")]).

Definition rejecting : Engine :=
  fun _ _ _ => Answered 422 (JObj [("detail", JStr "bad csv")]).

Definition down : Engine :=
  fun _ _ _ => NoAnswer "connect ECONNREFUSED" (Some "ECONNREFUSED").

End Demo.

(** ** The other handlers of [chatController.js] *)

(** A successful answer, [res.status(answered).json(json)]; the early
    returns of a handler remain error responses. *)
Record Success (A : Type) := mkSuccess { answered : nat; json : A }.

Module RenameReq.
Record t := mk {
  chatId : option ObjectId;
  projectId : option ObjectId;
  title : option string
}.
End RenameReq.

(** The first document that matches is replaced by its update. *)
Fixpoint updateFirst (query : Chat.t -> bool) (change : Chat.t -> Chat.t)
         (l : list Chat.t) : option Chat.t * list Chat.t :=
  match l with
  | [] => (None, [])
  | c :: rest =>
      if query c then (Some (change c), change c :: rest)
      else let (updated, rest') := updateFirst query change rest in
           (updated, c :: rest')
  end.

(** [Chat.findOneAndUpdate(query, update, { new: true })] *)
Definition Chat_findOneAndUpdate (query : Chat.t -> bool)
           (change : Chat.t -> Chat.t) (s : Store) : option Chat.t * Store :=
  let (updated, chats') := updateFirst query change (chats s) in
  (updated, {| projects := projects s; chats := chats';
               messages := messages s; nextId := nextId s |}).

Definition withTitle (title : string) (c : Chat.t) : Chat.t :=
  {| Chat._id := Chat._id c; Chat.project := Chat.project c;
     Chat.title := title; Chat.messages := Chat.messages c |}.

Definition renameChat (req : RenameReq.t) (user : User.t)
  : Handler (Success Chat.t) :=
  match RenameReq.chatId req, RenameReq.projectId req, RenameReq.title req with
  | Some chatId, Some projectId, Some title =>
      if negb (JS.nonEmpty title && JS.nonEmpty (JS.trim title)) then
        respond (errorResponse 400 "chatId, projectId and title are required.")
      else
        found <- query (Db.Project_findById projectId) ;;
        project <- orRespond found (errorResponse 404 "Project not found.") ;;
        team <- orRespond (Project.team project)
                          (errorResponse 404 "Team not found.") ;;
        accessCheck user team ;;
        updated <- perform (Chat_findOneAndUpdate
                              (fun c => (Chat._id c =? chatId)
                                        && (Chat.project c =? projectId))
                              (withTitle (JS.trim title))) ;;
        chat <- orRespond updated (errorResponse 404 "Chat not found.") ;;
        ret {| answered := 200; json := chat |}
  | _, _, _ =>
      respond (errorResponse 400 "chatId, projectId and title are required.")
  end.

(** The answer of [createChatManually]: a message and the new chat. *)
Definition createChatManually (projectId : option ObjectId) (user : User.t)
  : Handler (Success (string * Chat.t)) :=
  match projectId with
  | None => respond (errorResponse 400 "projectId is required.")
  | Some pid =>
      found <- query (Db.Project_findById pid) ;;
      project <- orRespond found (errorResponse 404 "Project not found.") ;;
      team <- orRespond (Project.team project)
                        (errorResponse 404 "Team not found.") ;;
      accessCheck user team ;;
      newChat <- perform (Db.Chat_create (Project._id project) "New chat" []) ;;
      update (Db.Project_save
                {| Project._id := Project._id project;
                   Project.team := Project.team project;
                   Project.chats := Project.chats project ++ [Chat._id newChat];
                   Project.datasets := Project.datasets project |}) ;;
      ret {| answered := 201;
             json := ("New chat created for project.", newChat) |}
  end.

Section History.

(** The store's ordering of populated messages by [createdAt]. *)
Variable sortByCreatedAt : list Message.t -> list Message.t.

(** The answer is the chat with its messages populated and sorted. *)
Definition getChatHistory (projectId chatId : ObjectId) (user : User.t)
  : Handler (Success (Chat.t * list Message.t)) :=
  found <- query (Db.Project_findById projectId) ;;
  project <- orRespond found (errorResponse 404 "Project not found.") ;;
  team <- orRespond (Project.team project)
                    (errorResponse 404 "Team not found.") ;;
  accessCheck user team ;;
  foundChat <- query (Db.Chat_findOne
                        (fun c => (Chat._id c =? chatId)
                                  && (Chat.project c =? Project._id project))) ;;
  chat <- orRespond foundChat (errorResponse 404 "Chat not found.") ;;
  populated <- query (fun s => sortByCreatedAt (Db.populate chat s)) ;;
  ret {| answered := 200; json := (chat, populated) |}.

End History.

(** ** More of [fastApiClient.js] *)

(** [truncateString(s, n)] on a string. *)
Definition truncateString (s : string) (n : nat) : string :=
  if n <? String.length s
  then (String.substring 0 n s ++ "... [truncated "
        ++ JS.ofNat (String.length s - n) ++ " chars]")%string
  else s.

(** ** The callers in the front end *)

Module Frontend.

(** A file picked in the browser. *)
Record File := mkFile { fileName : string; fileType : string; fileData : string }.

Record SendArgs := mkSend {
  send_projectId : option ObjectId;
  send_chatId : option ObjectId;
  send_content : option string;
  send_files : list File;
  send_selectedDatasetIds : jsval
}.

Record ReplyArgs := mkReply {
  reply_projectId : option ObjectId;
  reply_chatId : option ObjectId;
  reply_content : string
}.

(** [v && v.length] as a condition. *)
Definition hasLength (v : jsval) : bool :=
  match v with
  | JArr items => match items with [] => false | _ => true end
  | JStr s => JS.nonEmpty s
  | JObj _ => truthy (prop "length" v)
  | _ => false
  end.

(** The values of the text fields of a form that have the given name. *)
Definition fieldValues (name : string) (form : FormData) : list string :=
  flat_map (fun part =>
              match part with
              | Field n v => if String.eqb n name then [v] else []
              | FilePart _ _ _ _ => []
              end)
           form.

Section Api.

Context {rt : Runtime}.

(** [chatApi.sendUserMessage]: the multipart form that is posted. *)
Definition sendUserMessage (a : SendArgs) : FormData :=
  map (fun f => FilePart "files" (fileData f) (fileName f) (fileType f))
      (send_files a)
  ++ match send_content a with
     | Some c => if JS.nonEmpty c then [Field "content" c] else []
     | None => []
     end
  ++ match send_chatId a with
     | Some id => [Field "chatId" (JS.ofNat id)]
     | None => []
     end
  ++ match send_projectId a with
     | Some id => [Field "projectId" (JS.ofNat id)]
     | None => []
     end
  ++ (if hasLength (send_selectedDatasetIds a)
      then [Field "selectedDatasets" (JSON_stringify (send_selectedDatasetIds a))]
      else []).

(** What [handleSend] of the chat page works on: the selected project, the
    active chat, the typed text, the attached files and the selection kept
    in local storage for the chat. *)
Record Page := mkPage {
  selectedProjectId : option ObjectId;
  activeChat : option ObjectId;
  input : string;
  attachFiles : list File;
  stored : option string
}.

(** The selection read back from local storage; anything unreadable counts
    as no selection. *)
Definition storedSelection (stored : option string) : jsval :=
  match stored with
  | Some t =>
      if JS.nonEmpty t then
        match JSON_parse t with
        | Some v => v
        | None => JArr []
        end
      else JArr []
  | None => JArr []
  end.

(** [handleSend]: the two calls it makes, or none. *)
Definition handleSend (p : Page) : option (SendArgs * ReplyArgs) :=
  match selectedProjectId p, activeChat p with
  | Some projectId, Some chatId =>
      let typed := JS.trim (input p) in
      let hasFiles := match attachFiles p with [] => false | _ => true end in
      let selectedDatasetIds := storedSelection (stored p) in
      let hasSelection := match selectedDatasetIds with
                          | JArr (_ :: _) => true
                          | _ => false
                          end in
      if negb (JS.nonEmpty typed) && negb (hasSelection || hasFiles) then None
      else
        let currentText := if JS.nonEmpty typed then typed else "Analyze these" in
        Some ({| send_projectId := Some projectId; send_chatId := Some chatId;
                 send_content := Some currentText;
                 send_files := attachFiles p;
                 send_selectedDatasetIds := selectedDatasetIds |},
              {| reply_projectId := Some projectId; reply_chatId := Some chatId;
                 reply_content := currentText |})
  | _, _ => None
  end.

(** What the chat page shows. *)
Inductive Bubble : Type :=
| UserBubble (text : string)
| BotText (text : jsval)
| BotChart (chart : jsval).

(** The parts of an analysis that are shown: insights, chart, error. *)
Definition analysisParts (analysis : jsval) : list Bubble :=
  (if truthy (prop "insights" analysis)
   then [BotText (prop "insights" analysis)] else [])
  ++ (if truthy (prop "chartjs" analysis)
      then [BotChart (prop "chartjs" analysis)] else [])
  ++ (if truthy (prop "error" analysis)
      then [BotText (JStr ("Error: " ++ String_ (prop "error" analysis)))]
      else []).

(** The bubbles added for the answer of a reply request, in [handleSend]. *)
Definition liveBubbles (data : jsval) : list Bubble :=
  if truthy data then analysisParts data else [].

(** The bubbles of one stored message, in [openChat]. *)
Definition historyBubbles (m : Message.t) : list Bubble :=
  let shown := JS.orString (Message.content m) EmptyString in
  if String.eqb (Message.sender m) "chatbot" then
    match Message.content m with
    | Some c =>
        match JSON_parse c with
        | Some JNull | Some JUndefined | None => [BotText (JStr shown)]
        | Some analysis =>
            match analysisParts analysis with
            | [] => [BotText (JStr "No content.")]
            | parts => parts
            end
        end
    | None => [BotText (JStr shown)]
    end
  else [UserBubble shown].

End Api.

End Frontend.

(** ** Well-formed stores *)

(** Identifiers are distinct and below the next one, and every identifier
    listed in a chat is that of a stored message of the chat. *)
Record consistent (s : Store) : Prop := mkConsistent {
  chat_ids_distinct : NoDup (map Chat._id (chats s));
  message_ids_distinct : NoDup (map Message._id (messages s));
  chat_ids_below : forall c, In c (chats s) -> Chat._id c < nextId s;
  message_ids_below : forall m, In m (messages s) -> Message._id m < nextId s;
  listed_messages_stored :
    forall c id, In c (chats s) -> In id (Chat.messages c) ->
                 exists m, In m (messages s)
                           /\ Message._id m = id
                           /\ Message.chat m = Chat._id c
}.

(** [s'] extends [s]: the stored messages are still there, unchanged and in
    place, with new ones after them at most, and every chat is still there,
    in its project, its list of messages extended at most. *)
Definition extends (s s' : Store) : Prop :=
  (exists added, messages s' = messages s ++ added)
  /\ forall c, In c (chats s) ->
                exists c' added,
                  In c' (chats s')
                  /\ Chat._id c' = Chat._id c
                  /\ Chat.project c' = Chat.project c
                  /\ Chat.messages c' = Chat.messages c ++ added.

(** The store after a message has been created in a chat of the store and
    its id pushed on the chat. *)
Definition appended (chat : Chat.t) (sender : string) (content : option string)
           (selected : list jsval) (files : list TempFile.t) (s : Store) : Store :=
  Db.Chat_save
    {| Chat._id := Chat._id chat; Chat.project := Chat.project chat;
       Chat.title := Chat.title chat;
       Chat.messages := Chat.messages chat ++ [nextId s] |}
    (snd (Db.Message_create (Chat._id chat) sender content selected files s)).

(** ** More cases, for concrete runs *)

Module Cases.

(** A chat of another project, whose team [Demo.member] is not in. *)
Definition otherTeam : Team.t :=
  {| Team.organization := 1; Team.members := [200] |}.

Definition otherProject : Project.t :=
  {| Project._id := 3; Project.team := Some otherTeam;
     Project.chats := [12]; Project.datasets := [] |}.

Definition otherChat : Chat.t :=
  {| Chat._id := 12; Chat.project := 3; Chat.title := "Private";
     Chat.messages := [] |}.

Definition twoProjects : Store :=
  {| projects := [Demo.project; otherProject];
     chats := [Demo.firstChat; Demo.secondChat; otherChat];
     messages := Demo.history; nextId := 30 |}.

(** [Demo.member] names project 1 and the chat of project 3. *)
Definition crossAsk : Req.t :=
  {| Req.chatId := Some 12; Req.projectId := Some 1;
     Req.content := Some "what is here?";
     Req.selectedDatasets := JUndefined; Req.files := [] |}.

Definition rename : RenameReq.t :=
  {| RenameReq.chatId := Some 10; RenameReq.projectId := Some 1;
     RenameReq.title := Some "  Sales 2024 " |}.

(** A submission to the second chat of [Demo.project] that carries nothing
    but a blank selection. *)
Definition blankToChat : Req.t :=
  {| Req.chatId := Some 11; Req.projectId := Some 1; Req.content := None;
     Req.selectedDatasets := JStr "  "; Req.files := [] |}.

(** A submission of pictures only. *)
Definition picturesOnly : Req.t :=
  {| Req.chatId := Some 10; Req.projectId := Some 1; Req.content := Some "  ";
     Req.selectedDatasets := JStr "[]";
     Req.files :=
       [ {| Upload.originalname := Some "chart.png";
            Upload.mimetype := "image/png";
            Upload.size := 2; Upload.buffer := Some "PN" |} ] |}.

Definition page : Frontend.Page :=
  {| Frontend.selectedProjectId := Some 1; Frontend.activeChat := Some 10;
     Frontend.input := "  "; Frontend.attachFiles := [];
     Frontend.stored := Some (Ref.stringify (JArr [JStr "a"])) |}.

(** What [page] sends. *)
Definition sent : Frontend.SendArgs :=
  {| Frontend.send_projectId := Some 1; Frontend.send_chatId := Some 10;
     Frontend.send_content := Some "Analyze these"; Frontend.send_files := [];
     Frontend.send_selectedDatasetIds := JArr [JStr "a"] |}.

Definition asked : Frontend.ReplyArgs :=
  {| Frontend.reply_projectId := Some 1; Frontend.reply_chatId := Some 10;
     Frontend.reply_content := "Analyze these" |}.

(** The user message that [Demo.withFiles] leaves in the store. *)
Definition uploadTurn : Message.t :=
  {| Message._id := 30; Message.chat := 10; Message.sender := "user";
     Message.content := None; Message.selectedDatasets := [];
     Message.tempFiles := tempFilesOf (rt := Ref.runtime) Demo.withFiles |}.

End Cases.

(* ===================================================================== *)
(** * Part II: properties                                                 *)
(* ===================================================================== *)

Unset Implicit Arguments.

(** ** Strings *)

Lemma append_assoc : forall a b c : string,
  ((a ++ b) ++ c)%string = (a ++ (b ++ c))%string.
Proof.
  induction a as [|x a IH]; intros b c; simpl; [reflexivity|now rewrite IH].
Qed.

Lemma endsWith_refl : forall s, JS.endsWith s s = true.
Proof.
  destruct s; simpl; [reflexivity|].
  rewrite Ascii.eqb_refl, String.eqb_refl. reflexivity.
Qed.

Lemma endsWith_app : forall pre suffix, JS.endsWith (pre ++ suffix) suffix = true.
Proof.
  induction pre as [|c pre IH]; intros suffix; simpl.
  - apply endsWith_refl.
  - rewrite IH. apply orb_true_r.
Qed.

Lemma endsWith_split : forall s suffix,
  JS.endsWith s suffix = true -> exists pre, s = (pre ++ suffix)%string.
Proof.
  induction s as [|c s IH]; intros suffix H.
  - exists EmptyString. destruct suffix; [reflexivity|discriminate].
  - change (String.eqb (String c s) suffix || JS.endsWith s suffix = true) in H.
    apply orb_true_iff in H. destruct H as [H|H].
    + exists EmptyString. apply String.eqb_eq in H. now subst.
    + destruct (IH _ H) as [pre ->]. now exists (String c pre).
Qed.

(** Nothing is stripped from a string whose last character does not
    satisfy the predicate. *)
Lemma dropWhileEnd_app_keep : forall p pre c rest,
  p c = false ->
  JS.dropWhileEnd p (pre ++ String c rest)
  = (pre ++ String c (JS.dropWhileEnd p rest))%string.
Proof.
  intros p pre c rest Hc. induction pre as [|d pre IH]; simpl.
  - destruct (JS.dropWhileEnd p rest); [now rewrite Hc|reflexivity].
  - rewrite IH. destruct pre; reflexivity.
Qed.

Lemma stripTrailingSlashes_analyze : forall pre,
  JS.stripTrailingSlashes (pre ++ "/analyze") = (pre ++ "/analyze")%string.
Proof.
  intros pre. unfold JS.stripTrailingSlashes.
  change "/analyze" with ("/analyz" ++ String "e"%char EmptyString)%string.
  rewrite <- (append_assoc pre "/analyz").
  now rewrite (dropWhileEnd_app_keep _ (pre ++ "/analyz")%string "e"%char EmptyString).
Qed.

(** ** The insertion-ordered set *)

Lemma has_In : forall s k, StringSet.has s k = true <-> In k s.
Proof.
  intros s k. unfold StringSet.has. rewrite existsb_exists. split.
  - intros [x [Hx Hk]]. apply String.eqb_eq in Hk. now subst.
  - intros H. exists k. split; [assumption|apply String.eqb_refl].
Qed.

Lemma firstSeen_In : forall keys seen k,
  In k (Spec.firstSeen seen keys) <-> In k keys /\ ~ In k seen.
Proof.
  induction keys as [|x keys IH]; intros seen k; simpl.
  - tauto.
  - destruct (existsb (String.eqb x) seen) eqn:E.
    + rewrite IH. apply (has_In seen x) in E.
      split; [tauto|]. intros [[->|H] Hn]; tauto.
    + assert (Hx : ~ In x seen).
      { intros H. apply (has_In seen x) in H. unfold StringSet.has in H. congruence. }
      simpl. rewrite IH, in_app_iff. simpl.
      destruct (String.string_dec x k) as [->|Hne]; [tauto|].
      intuition congruence.
Qed.

Lemma firstSeen_NoDup : forall keys seen, NoDup (Spec.firstSeen seen keys).
Proof.
  induction keys as [|x keys IH]; intros seen; simpl.
  - constructor.
  - destruct (existsb (String.eqb x) seen); [apply IH|].
    constructor; [|apply IH].
    rewrite firstSeen_In, in_app_iff. simpl. tauto.
Qed.

Lemma firstSeen_app : forall k1 k2 seen,
  Spec.firstSeen seen (k1 ++ k2)
  = Spec.firstSeen seen k1 ++ Spec.firstSeen (seen ++ Spec.firstSeen seen k1) k2.
Proof.
  induction k1 as [|x k1 IH]; intros k2 seen; simpl.
  - now rewrite app_nil_r.
  - destruct (existsb (String.eqb x) seen).
    + apply IH.
    + simpl. rewrite IH. now rewrite <- app_assoc.
Qed.

Lemma add_all_firstSeen : forall (selected : list jsval) ids,
  fold_left (fun ids' dsId => StringSet.add (String_ dsId) ids') selected ids
  = ids ++ Spec.firstSeen ids (map String_ selected).
Proof.
  induction selected as [|x selected IH]; intros ids; simpl.
  - now rewrite app_nil_r.
  - rewrite IH. unfold StringSet.add, StringSet.has.
    destruct (existsb (String.eqb (String_ x)) ids); [reflexivity|].
    now rewrite <- app_assoc.
Qed.

Lemma collect_firstSeen : forall allMessages ids,
  fold_left
    (fun ids msg =>
       if 0 <? length (Message.selectedDatasets msg) then
         fold_left (fun ids' dsId => StringSet.add (String_ dsId) ids')
                   (Message.selectedDatasets msg) ids
       else ids)
    allMessages ids
  = ids ++ Spec.firstSeen ids (Spec.selectedKeys allMessages).
Proof.
  induction allMessages as [|m rest IH]; intros ids; simpl.
  - now rewrite app_nil_r.
  - rewrite IH. unfold Spec.selectedKeys. simpl. rewrite map_app, firstSeen_app.
    fold (Spec.selectedKeys rest).
    assert (E : (if 0 <? length (Message.selectedDatasets m)
                 then fold_left (fun ids' dsId => StringSet.add (String_ dsId) ids')
                                (Message.selectedDatasets m) ids
                 else ids)
                = ids ++ Spec.firstSeen ids (map String_ (Message.selectedDatasets m))).
    { destruct (Message.selectedDatasets m) as [|d l] eqn:El.
      - simpl. now rewrite app_nil_r.
      - replace (0 <? length (d :: l)) with true by reflexivity.
        now rewrite <- add_all_firstSeen. }
    rewrite E. now rewrite app_assoc.
Qed.

Lemma allDatasetIds_firstSeen : forall allMessages,
  allDatasetIds allMessages = Spec.firstSeen [] (Spec.selectedKeys allMessages).
Proof.
  intros. unfold allDatasetIds, StringSet.empty. now rewrite collect_firstSeen.
Qed.

Lemma allDatasetIds_In : forall allMessages k,
  In k (allDatasetIds allMessages) <-> In k (Spec.selectedKeys allMessages).
Proof.
  intros. rewrite allDatasetIds_firstSeen, firstSeen_In. simpl. tauto.
Qed.

Lemma allDatasetIds_has : forall allMessages k,
  StringSet.has (allDatasetIds allMessages) k
  = existsb (String.eqb k) (Spec.selectedKeys allMessages).
Proof.
  intros. apply eq_true_iff_eq.
  rewrite has_In, allDatasetIds_In.
  change (existsb (String.eqb k) (Spec.selectedKeys allMessages))
    with (StringSet.has (Spec.selectedKeys allMessages) k).
  now rewrite has_In.
Qed.

(** ** Context aggregation *)

(** On the demo history the set of identifiers is [a, b], in first-seen
    order. *)
Example allDatasetIds_demo : allDatasetIds Demo.history = ["a"; "b"].
Proof. reflexivity. Qed.

(** C1, as stated, fails on the demo history: the registry entries come
    out in the order of the project's datasets, B before A, although A was
    selected first. *)
Lemma datasetRefs_not_first_seen :
  datasetsContext Demo.project Demo.history
  = [Spec.refOf Demo.dsB; Spec.refOf Demo.dsA;
     {| ref_name := "old.csv"; ref_url := "Current Upload" |};
     {| ref_name := "new.csv"; ref_url := "Current Upload" |}]
  /\ ~ Spec.refsInFirstSeenOrder Demo.project Demo.history.
Proof.
  split; [reflexivity|].
  intros [ds [HF Heq]].
  replace (Spec.firstSeen [] (Spec.selectedKeys Demo.history))
    with ["a"; "b"] in HF by reflexivity.
  inversion HF as [|k1 d1 ks1 ds1 [Hin1 Hk1] HF1]; subst.
  inversion HF1 as [|k2 d2 ks2 ds2 [Hin2 Hk2] HF2]; subst.
  inversion HF2; subst.
  assert (E1 : d1 = Demo.dsA).
  { destruct Hin1 as [<-|[<-|[]]]; [discriminate Hk1|reflexivity]. }
  assert (E2 : d2 = Demo.dsB).
  { destruct Hin2 as [<-|[<-|[]]]; [reflexivity|discriminate Hk2]. }
  subst. discriminate Heq.
Qed.

(** C1 (amended).  The set of identifiers collected from the history holds
    each distinct string-normalised identifier once, in first-seen order.
    The registry entries of [datasetRefs] are those of the project's
    datasets whose identifier is in that set, one per such dataset and in
    the order of the project's dataset list; the upload entries follow. *)
Theorem datasetRefs_follow_registry_order :
  forall (project : Project.t) (allMessages : list Message.t),
    allDatasetIds allMessages = Spec.firstSeen [] (Spec.selectedKeys allMessages)
    /\ NoDup (allDatasetIds allMessages)
    /\ (forall k, In k (allDatasetIds allMessages)
                  <-> In k (Spec.selectedKeys allMessages))
    /\ exists ds,
         ds = filter (fun d => existsb (String.eqb (Spec.key d))
                                       (Spec.selectedKeys allMessages))
                     (Project.datasets project)
         /\ (forall d, In d ds <-> In d (Project.datasets project)
                                   /\ In (Spec.key d) (Spec.selectedKeys allMessages))
         /\ datasetsContext project allMessages
            = map Spec.refOf ds ++ uploadRefs 0 (allUploadedFiles allMessages).
Proof.
  intros project allMessages.
  split; [apply allDatasetIds_firstSeen|].
  split; [rewrite allDatasetIds_firstSeen; apply firstSeen_NoDup|].
  split; [apply allDatasetIds_In|].
  eexists. split; [reflexivity|]. split.
  - intros d. rewrite filter_In.
    change (existsb (String.eqb (Spec.key d)) (Spec.selectedKeys allMessages))
      with (StringSet.has (Spec.selectedKeys allMessages) (Spec.key d)).
    now rewrite has_In.
  - unfold datasetsContext, resolvedRefs. f_equal. f_equal.
    apply filter_ext. intros d. apply allDatasetIds_has.
Qed.

(** When the project's datasets have distinct identifiers, so have the
    resolved ones: an identifier contributes at most one entry. *)
Lemma resolved_identifiers_distinct : forall (p : Dataset.t -> bool) datasets,
  NoDup (map Spec.key datasets) ->
  NoDup (map Spec.key (filter p datasets)).
Proof.
  intros p. induction datasets as [|d l IH]; simpl; intros H; [constructor|].
  inversion H as [|k ks Hnotin Hrest]; subst.
  destruct (p d); [|now apply IH].
  simpl. constructor; [|now apply IH].
  intros Hin. apply Hnotin.
  apply in_map_iff in Hin. destruct Hin as [d' [Hk Hd']].
  apply filter_In in Hd'. apply in_map_iff. exists d'. tauto.
Qed.

(** C2, as stated, fails on the demo history: the file of the first user
    turn travels again with the file of the third. *)
Lemma earlier_files_are_resent :
  allUploadedFiles Demo.history = [Demo.oldFile; Demo.newFile]
  /\ Spec.latestUserFiles Demo.history = [Demo.newFile]
  /\ ~ Spec.onlyLatestFilesAttached Demo.history.
Proof.
  split; [reflexivity|]. split; [reflexivity|].
  unfold Spec.onlyLatestFilesAttached. discriminate.
Qed.

Lemma allUploadedFiles_app : forall h1 h2,
  allUploadedFiles (h1 ++ h2) = allUploadedFiles h1 ++ allUploadedFiles h2.
Proof. intros. unfold allUploadedFiles. apply flat_map_app. Qed.

Lemma latestUserFiles_suffix : forall allMessages,
  exists earlier,
    allUploadedFiles allMessages = earlier ++ Spec.latestUserFiles allMessages.
Proof.
  induction allMessages as [|m h IH] using rev_ind.
  - now exists [].
  - rewrite allUploadedFiles_app.
    unfold Spec.latestUserFiles, lastUserMsg. rewrite rev_app_distr. simpl.
    destruct (String.eqb (Message.sender m) "user") eqn:E.
    + exists (allUploadedFiles h). now rewrite app_nil_r.
    + destruct IH as [earlier IH]. exists earlier.
      rewrite app_nil_r. exact IH.
Qed.

(** The earlier revision attached one file: the first retained file of
    the most recent user message. *)
Lemma latestFile_first_of_latest : forall allMessages,
  latestFile allMessages = hd_error (Spec.latestUserFiles allMessages).
Proof.
  intros allMessages. unfold latestFile, Spec.latestUserFiles.
  destruct (lastUserMsg allMessages) as [m|]; [|reflexivity].
  induction (Message.tempFiles m) as [|f l IH]; simpl; [reflexivity|].
  destruct (TempFile.retained f); [reflexivity|exact IH].
Qed.

(** Of a CSV file and a picture only the CSV file is kept, with its
    content in Base64. *)
Example only_csv_is_kept :
  tempFilesOf (rt := Ref.runtime) Demo.withFiles
  = [ {| TempFile.originalname := Some "Sales.CSV";
         TempFile.mimetype := "application/octet-stream";
         TempFile.size := 3; TempFile.headText := EmptyString;
         TempFile.bufferBase64 := Some "YSxi" |} ].
Proof. reflexivity. Qed.

Section Attachments.

Context {rt : Runtime}.

(** C2 (amended).  The reply operation attaches the retained files of every
    user message of the history, in history order: those of the most recent
    user message come last, after those of the earlier user turns, which are
    sent again.  Files of other senders and files without raw content are
    not attached. *)
Theorem reply_attaches_all_retained_user_files :
  forall (userText : string) (project : Project.t) (allMessages : list Message.t),
    attachments (replyForm userText project allMessages)
    = map (fun f => ("files",
                     JS.orString (TempFile.originalname f) "dataset.csv",
                     base64_decode match TempFile.bufferBase64 f with
                                   | Some b => b
                                   | None => EmptyString
                                   end))
          (allUploadedFiles allMessages)
    /\ (forall f, In f (allUploadedFiles allMessages)
                  <-> exists m, In m allMessages
                                /\ Message.sender m = "user"
                                /\ In f (Message.tempFiles m)
                                /\ TempFile.retained f = true)
    /\ exists earlier,
         allUploadedFiles allMessages
         = earlier ++ Spec.latestUserFiles allMessages.
Proof.
  intros userText project allMessages. split; [|split].
  - unfold replyForm, fileParts. simpl.
    induction (allUploadedFiles allMessages) as [|f l IH]; simpl; [reflexivity|].
    now rewrite IH.
  - intros f. unfold allUploadedFiles. rewrite in_flat_map. split.
    + intros [m [Hm Hf]].
      destruct (String.eqb (Message.sender m) "user") eqn:E; [|destruct Hf].
      apply filter_In in Hf. apply String.eqb_eq in E.
      exists m. tauto.
    + intros [m [Hm [Hs [Hf Hr]]]]. exists m. split; [assumption|].
      rewrite Hs. simpl. apply filter_In. tauto.
  - apply latestUserFiles_suffix.
Qed.

End Attachments.

(** [slice(-5)] of a list of at least five elements splits it before its
    last five. *)
Lemma slice_last_five : forall (A : Type) (l : list A),
  5 <= length l ->
  exists older, l = older ++ JS.slice (-5) l /\ length (JS.slice (-5) l) = 5.
Proof.
  intros A l H. unfold JS.slice. simpl.
  replace (Z.to_nat (Z.max (Z.of_nat (length l) + -5) 0)) with (length l - 5) by lia.
  exists (firstn (length l - 5) l). split.
  - symmetry. apply firstn_skipn.
  - rewrite length_skipn. lia.
Qed.

(** C3.  For a history of at least five messages the window has exactly
    five entries: the last five messages in creation order, each with its
    text unchanged, under role "user" when the sender is "user" and under
    role "assistant" otherwise. *)
Theorem recentHistory_last_five :
  forall allMessages : list Message.t,
    5 <= length allMessages ->
    length (recentHistory allMessages) = 5
    /\ exists older recent,
         allMessages = older ++ recent
         /\ length recent = 5
         /\ Forall2 (fun msg turn =>
                       text turn = Message.content msg
                       /\ (Message.sender msg = "user" -> role turn = "user")
                       /\ (Message.sender msg <> "user" -> role turn = "assistant"))
                    recent (recentHistory allMessages).
Proof.
  intros allMessages H.
  destruct (slice_last_five _ allMessages H) as [older [Hsplit Hlen]].
  unfold recentHistory. split; [now rewrite length_map|].
  exists older, (JS.slice (-5) allMessages).
  split; [assumption|]. split; [assumption|].
  clear H Hsplit Hlen.
  induction (JS.slice (-5) allMessages) as [|m l IH]; simpl; constructor; [|exact IH].
  simpl. split; [reflexivity|]. split.
  - intros ->. reflexivity.
  - intros Hne. apply String.eqb_neq in Hne. now rewrite Hne.
Qed.

Lemma recentHistory_last_five_witness :
  5 <= length Demo.twelve
  /\ length (recentHistory Demo.twelve) = 5.
Proof.
  split; [simpl; lia|].
  apply (recentHistory_last_five Demo.twelve). simpl; lia.
Defined.

(** Of twelve messages the window holds the eighth to the twelfth. *)
Example recentHistory_twelve :
  recentHistory Demo.twelve
  = [ {| role := "assistant"; text := Some "8" |};
      {| role := "user"; text := Some "9" |};
      {| role := "assistant"; text := Some "10" |};
      {| role := "user"; text := Some "11" |};
      {| role := "assistant"; text := Some "12" |} ].
Proof. reflexivity. Qed.

(** ** The access check *)

Ltac unfold_handler :=
  unfold run, bind, query, perform, update, orRespond, respond, ret, pushMessage.

Lemma accessCheck_store : forall user team s, fst (accessCheck user team s) = s.
Proof.
  intros. unfold accessCheck.
  destruct (negb (String.eqb (User.role user) "superadmin")); [|reflexivity].
  destruct (negb (Team.organization team =? User.organization user)); [reflexivity|].
  destruct (find _ _); reflexivity.
Qed.

Lemma accessCheck_superadmin : forall user team s,
  User.role user = "superadmin" -> accessCheck user team s = (s, inr tt).
Proof. intros user team s H. unfold accessCheck. rewrite H. reflexivity. Qed.

Lemma accessCheck_member : forall user team s,
  Team.organization team = User.organization user ->
  In (User.userId user) (Team.members team) ->
  accessCheck user team s = (s, inr tt).
Proof.
  intros user team s Horg Hin. unfold accessCheck.
  destruct (negb (String.eqb (User.role user) "superadmin")); [|reflexivity].
  rewrite Horg, Nat.eqb_refl. simpl.
  destruct (find _ _) eqn:E; [reflexivity|].
  apply (find_none _ _ E) in Hin. now rewrite Nat.eqb_refl in Hin.
Qed.

Lemma accessCheck_wrong_organization : forall user team s,
  User.role user <> "superadmin" ->
  Team.organization team <> User.organization user ->
  accessCheck user team s
  = (s, inl (errorResponse 403 "Not in this organization.")).
Proof.
  intros user team s Hrole Horg. unfold accessCheck.
  apply String.eqb_neq in Hrole. apply Nat.eqb_neq in Horg.
  now rewrite Hrole, Horg.
Qed.

Lemma accessCheck_not_a_member : forall user team s,
  User.role user <> "superadmin" ->
  Team.organization team = User.organization user ->
  ~ In (User.userId user) (Team.members team) ->
  accessCheck user team s
  = (s, inl (errorResponse 403 "Not a member of this team.")).
Proof.
  intros user team s Hrole Horg Hin. unfold accessCheck.
  apply String.eqb_neq in Hrole. rewrite Hrole, Horg, Nat.eqb_refl. simpl.
  destruct (find _ _) eqn:E; [|reflexivity].
  apply find_some in E. destruct E as [E1 E2].
  apply Nat.eqb_eq in E2. now subst.
Qed.

Section Guard.

Context {rt : Runtime}.

(** A refusal of the access check ends the submit operation: the refusal
    is the response when the request passes the validation, and the store
    is left as it was in any case. *)
Lemma chatHandler_refused : forall req user s pid project team r,
  Req.projectId req = Some pid ->
  Db.Project_findById pid s = Some project ->
  Project.team project = Some team ->
  accessCheck user team s = (s, inl r) ->
  snd (run (chatHandler req user) s) = s
  /\ (hasContent req || hasFiles req || hasDatasets req = true ->
      fst (run (chatHandler req user) s) = r).
Proof.
  intros req user s pid project team r Hpid Hproj Hteam Hacc.
  unfold chatHandler. rewrite Hpid.
  destruct (hasContent req), (hasFiles req), (hasDatasets req); simpl;
    unfold_handler; rewrite ?Hproj, ?Hteam, ?Hacc; simpl; split; auto;
    discriminate.
Qed.

(** The same for the reply operation, whose refusal is the response once
    the request is complete and the chat exists. *)
Lemma aiReplyHandler_refused :
  forall FASTAPI_URL engine req user s pid project team r,
  Req.projectId req = Some pid ->
  Db.Project_findById pid s = Some project ->
  Project.team project = Some team ->
  accessCheck user team s = (s, inl r) ->
  snd (run (aiReplyHandler FASTAPI_URL engine req user) s) = s
  /\ (forall cid userText chat,
        Req.chatId req = Some cid ->
        trimmedContent (Req.content req) = Some userText ->
        Db.Chat_findById cid s = Some chat ->
        fst (run (aiReplyHandler FASTAPI_URL engine req user) s) = r).
Proof.
  intros FASTAPI_URL engine req user s pid project team r Hpid Hproj Hteam Hacc.
  unfold aiReplyHandler. rewrite Hpid. split.
  - destruct (Req.chatId req) as [cid|]; [|reflexivity].
    destruct (trimmedContent (Req.content req)) as [userText|]; [|reflexivity].
    unfold_handler. rewrite Hproj.
    destruct (Db.Chat_findById cid s); [|reflexivity].
    now rewrite Hteam, Hacc.
  - intros cid userText chat Hcid Htext Hchat. rewrite Hcid, Htext.
    unfold_handler. now rewrite Hproj, Hchat, Hteam, Hacc.
Qed.

(** A superadmin is never answered 403. *)
Lemma superadmin_not_refused : forall FASTAPI_URL engine req user s,
  User.role user = "superadmin" ->
  status (fst (run (chatHandler req user) s)) <> 403
  /\ status (fst (run (aiReplyHandler FASTAPI_URL engine req user) s)) <> 403.
Proof.
  intros FASTAPI_URL engine req user s Hrole. split.
  - unfold chatHandler.
    destruct (Req.projectId req) as [pid|]; [|simpl; discriminate].
    destruct (negb (hasContent req) && negb (hasFiles req) && negb (hasDatasets req));
      [simpl; discriminate|].
    unfold_handler.
    destruct (Db.Project_findById pid s) as [project|]; [|simpl; discriminate].
    destruct (Project.team project) as [team|]; [|simpl; discriminate].
    rewrite (accessCheck_superadmin user team s Hrole).
    unfold getOrCreateChat. destruct (Req.chatId req) as [cid|].
    + unfold_handler. destruct (Db.Chat_findOne _ s); simpl; discriminate.
    + unfold_handler. destruct (Db.Chat_findOne _ s); simpl; discriminate.
  - unfold aiReplyHandler.
    destruct (Req.projectId req) as [pid|]; [|simpl; discriminate].
    destruct (Req.chatId req) as [cid|]; [|simpl; discriminate].
    destruct (trimmedContent (Req.content req)) as [userText|]; [|simpl; discriminate].
    unfold_handler.
    destruct (Db.Project_findById pid s) as [project|]; [|simpl; discriminate].
    destruct (Db.Chat_findById cid s) as [chat|]; [|simpl; discriminate].
    destruct (Project.team project) as [team|]; [|simpl; discriminate].
    rewrite (accessCheck_superadmin user team s Hrole).
    destruct (apiUrl FASTAPI_URL); [|simpl; discriminate].
    destruct (Axios.post _ _ _ _); simpl; discriminate.
Qed.

(** C6.  For a submit or reply request on a project whose team is loaded:
    a superadmin passes the access check whatever the team, and is never
    answered 403; for any other caller of another organisation the check
    refuses with 403 "Not in this organization.", and for one of the team's
    organisation who is not among its members with 403 "Not a member of
    this team.".  The refusal is the response of either operation as soon
    as the request is complete, and whether it is or not, the store is left
    as it was: no chat and no message is created. *)
Theorem access_refusal_precedes_persistence :
  forall FASTAPI_URL engine (req : Req.t) (user : User.t) (s : Store)
         pid project team,
    Req.projectId req = Some pid ->
    Db.Project_findById pid s = Some project ->
    Project.team project = Some team ->
    let submit := run (chatHandler req user) s in
    let reply := run (aiReplyHandler FASTAPI_URL engine req user) s in
    let refusedWith r :=
      accessCheck user team s = (s, inl r)
      /\ snd submit = s /\ snd reply = s
      /\ (hasContent req || hasFiles req || hasDatasets req = true ->
          fst submit = r)
      /\ (forall cid userText chat,
            Req.chatId req = Some cid ->
            trimmedContent (Req.content req) = Some userText ->
            Db.Chat_findById cid s = Some chat ->
            fst reply = r) in
    (User.role user = "superadmin" ->
       accessCheck user team s = (s, inr tt)
       /\ status (fst submit) <> 403 /\ status (fst reply) <> 403)
    /\ (User.role user <> "superadmin" ->
        Team.organization team <> User.organization user ->
        refusedWith (errorResponse 403 "Not in this organization."))
    /\ (User.role user <> "superadmin" ->
        Team.organization team = User.organization user ->
        ~ In (User.userId user) (Team.members team) ->
        refusedWith (errorResponse 403 "Not a member of this team.")).
Proof.
  intros FASTAPI_URL engine req user s pid project team Hpid Hproj Hteam.
  cbv zeta. split; [|split].
  - intros Hrole. split; [now apply accessCheck_superadmin|].
    now apply superadmin_not_refused.
  - intros Hrole Horg.
    pose proof (accessCheck_wrong_organization user team s Hrole Horg) as Hacc.
    destruct (chatHandler_refused req user s pid project team _ Hpid Hproj Hteam Hacc)
      as [A B].
    destruct (aiReplyHandler_refused FASTAPI_URL engine req user s pid project team _
                Hpid Hproj Hteam Hacc) as [C D].
    repeat split; assumption.
  - intros Hrole Horg Hin.
    pose proof (accessCheck_not_a_member user team s Hrole Horg Hin) as Hacc.
    destruct (chatHandler_refused req user s pid project team _ Hpid Hproj Hteam Hacc)
      as [A B].
    destruct (aiReplyHandler_refused FASTAPI_URL engine req user s pid project team _
                Hpid Hproj Hteam Hacc) as [C D].
    repeat split; assumption.
Qed.

End Guard.

(** ** The reply operation and the store *)

Section Reply.

Context {rt : Runtime}.

(** The reply operation, step by step, for a request that reaches the
    dispatch. *)
Lemma aiReplyHandler_dispatch :
  forall FASTAPI_URL engine req user s pid cid userText project chat team url,
  Req.projectId req = Some pid ->
  Req.chatId req = Some cid ->
  trimmedContent (Req.content req) = Some userText ->
  Db.Project_findById pid s = Some project ->
  Db.Chat_findById cid s = Some chat ->
  Project.team project = Some team ->
  accessCheck user team s = (s, inr tt) ->
  apiUrl FASTAPI_URL = Some url ->
  run (aiReplyHandler FASTAPI_URL engine req user) s
  = match Axios.post engine url [] (replyForm userText project (Db.populate chat s)) with
    | Axios.Rejected _ => (errorResponse 500 "Internal server error.", s)
    | Axios.Resolved response =>
        ({| status := 200; body := AnalysisBody (Axios.data response) |},
         Db.Chat_save
           {| Chat._id := Chat._id chat; Chat.project := Chat.project chat;
              Chat.title := Chat.title chat;
              Chat.messages := Chat.messages chat ++ [nextId s] |}
           (snd (Db.Message_create (Chat._id chat) "chatbot"
                   (Some (JSON_stringify (Axios.data response))) [] [] s)))
    end.
Proof.
  intros FASTAPI_URL engine req user s pid cid userText project chat team url
         Hpid Hcid Htext Hproj Hchat Hteam Hacc Hurl.
  unfold aiReplyHandler. rewrite Hpid, Hcid, Htext.
  unfold_handler. rewrite Hproj, Hchat, Hteam, Hacc, Hurl.
  destruct (Axios.post _ _ _ _); reflexivity.
Qed.

(** C5.  When the dispatch to the analysis engine fails, the reply operation
    leaves the store exactly as it found it: the user message saved before
    is still there, unchanged, and no assistant message is created or
    appended.  The response is an error, 500 "Internal server error." when
    the request had reached the dispatch. *)
Theorem failed_dispatch_persists_nothing :
  forall FASTAPI_URL (engine : Engine) (req : Req.t) (user : User.t) (s : Store),
    dispatchFails engine ->
    let reply := run (aiReplyHandler FASTAPI_URL engine req user) s in
    snd reply = s
    /\ (exists error, body (fst reply) = ErrorBody error)
    /\ (forall pid cid userText project chat team url,
          Req.projectId req = Some pid ->
          Req.chatId req = Some cid ->
          trimmedContent (Req.content req) = Some userText ->
          Db.Project_findById pid s = Some project ->
          Db.Chat_findById cid s = Some chat ->
          Project.team project = Some team ->
          accessCheck user team s = (s, inr tt) ->
          apiUrl FASTAPI_URL = Some url ->
          fst reply = errorResponse 500 "Internal server error.").
Proof.
  intros FASTAPI_URL engine req user s Hfail. cbv zeta.
  assert (H : snd (run (aiReplyHandler FASTAPI_URL engine req user) s) = s
              /\ exists error,
                   body (fst (run (aiReplyHandler FASTAPI_URL engine req user) s))
                   = ErrorBody error).
  { unfold aiReplyHandler.
    destruct (Req.projectId req) as [pid|]; [|simpl; eauto].
    destruct (Req.chatId req) as [cid|]; [|simpl; eauto].
    destruct (trimmedContent (Req.content req)) as [userText|]; [|simpl; eauto].
    unfold_handler.
    destruct (Db.Project_findById pid s) as [project|]; [|simpl; eauto].
    destruct (Db.Chat_findById cid s) as [chat|]; [|simpl; eauto].
    destruct (Project.team project) as [team|]; [|simpl; eauto].
    pose proof (accessCheck_store user team s) as Hs.
    destruct (accessCheck user team s) as [s' [r|[]]] eqn:Hacc; simpl in Hs; subst s'.
    - unfold accessCheck in Hacc.
      destruct (negb (String.eqb (User.role user) "superadmin")); [|discriminate].
      destruct (negb (Team.organization team =? User.organization user)).
      + injection Hacc as <-. simpl; eauto.
      + destruct (find _ _); [discriminate|]. injection Hacc as <-. simpl; eauto.
    - destruct (apiUrl FASTAPI_URL) as [url|]; [|simpl; eauto].
      destruct (Hfail url [] (replyForm userText project (Db.populate chat s)))
        as [e ->].
      simpl; eauto. }
  destruct H as [H1 H2]. split; [assumption|]. split; [assumption|].
  intros pid cid userText project chat team url
         Hpid Hcid Htext Hproj Hchat Hteam Hacc Hurl.
  rewrite (aiReplyHandler_dispatch FASTAPI_URL engine req user s pid cid userText
             project chat team url Hpid Hcid Htext Hproj Hchat Hteam Hacc Hurl).
  destruct (Hfail url [] (replyForm userText project (Db.populate chat s))) as [e ->].
  reflexivity.
Qed.

End Reply.

(** ** Chat resolution and the submit operation *)

Lemma find_existsb : forall (A : Type) (p : A -> bool) (l : list A),
  existsb p l = match find p l with Some _ => true | None => false end.
Proof.
  induction l as [|x l IH]; simpl; [reflexivity|].
  destruct (p x); [reflexivity|exact IH].
Qed.

Lemma existsb_save : forall (c : Chat.t) (pid : ObjectId) (l : list Chat.t),
  Chat.project c = pid ->
  existsb (fun d => Chat.project d =? pid) l = true ->
  existsb (fun d => Chat.project d =? pid)
          (map (fun d => if Chat._id d =? Chat._id c then c else d) l) = true.
Proof.
  intros c pid l Hc. induction l as [|d l IH]; simpl; [trivial|].
  intros H. apply orb_true_iff in H. apply orb_true_iff.
  destruct H as [H|H]; [left|right; now apply IH].
  destruct (Chat._id d =? Chat._id c); [|exact H].
  rewrite Hc. apply Nat.eqb_refl.
Qed.

Section Submit.

Context {rt : Runtime}.

(** With a chat id the resolution is a lookup; the store is not touched. *)
Lemma getOrCreateChat_given : forall project id pid s,
  getOrCreateChat project (Some id) pid s
  = (s, inr (find (fun c => (Chat._id c =? id) && (Chat.project c =? pid))
                  (chats s))).
Proof. reflexivity. Qed.

(** Without a chat id, the first chat of the project in the store is
    taken. *)
Lemma getOrCreateChat_existing : forall project pid s c,
  find (fun c => Chat.project c =? pid) (chats s) = Some c ->
  getOrCreateChat project None pid s = (s, inr (Some c)).
Proof.
  intros project pid s c H. unfold getOrCreateChat. unfold_handler.
  unfold Db.Chat_findOne. now rewrite H.
Qed.

(** Only when the project has no chat is one created. *)
Lemma getOrCreateChat_created : forall project pid s,
  find (fun c => Chat.project c =? pid) (chats s) = None ->
  let c := {| Chat._id := nextId s; Chat.project := pid;
              Chat.title := "New chat"; Chat.messages := [] |} in
  getOrCreateChat project None pid s
  = ({| projects :=
          map (fun q =>
                 if Project._id q =? Project._id project
                 then {| Project._id := Project._id project;
                         Project.team := Project.team project;
                         Project.chats := Project.chats project ++ [nextId s];
                         Project.datasets := Project.datasets project |}
                 else q)
              (projects s);
        chats := chats s ++ [c];
        messages := messages s;
        nextId := S (nextId s) |},
     inr (Some c)).
Proof.
  intros project pid s H. unfold getOrCreateChat. unfold_handler.
  unfold Db.Chat_findOne. now rewrite H.
Qed.

(** What the resolution does to the store, in all cases. *)
Lemma getOrCreateChat_effect : forall project chatId pid s,
  exists s1 resolved,
    getOrCreateChat project chatId pid s = (s1, inr resolved)
    /\ messages s1 = messages s
    /\ (forall c, resolved = Some c -> Chat.project c = pid /\ In c (chats s1))
    /\ (s1 = s
        \/ (chatId = None /\ hasChat pid s = false
            /\ exists c, resolved = Some c /\ chats s1 = chats s ++ [c])).
Proof.
  intros project [id|] pid s.
  - rewrite getOrCreateChat_given. do 2 eexists. split; [reflexivity|].
    split; [reflexivity|]. split; [|left; reflexivity].
    intros c Hc. apply find_some in Hc. destruct Hc as [Hin Hc].
    apply andb_true_iff in Hc. destruct Hc as [_ Hc]. apply Nat.eqb_eq in Hc. tauto.
  - destruct (find (fun c => Chat.project c =? pid) (chats s)) as [c|] eqn:E.
    + rewrite (getOrCreateChat_existing project pid s c E).
      do 2 eexists. split; [reflexivity|]. split; [reflexivity|].
      split; [|left; reflexivity].
      intros c' Hc'. injection Hc' as <-. apply find_some in E.
      destruct E as [Hin Hc]. apply Nat.eqb_eq in Hc. tauto.
    + rewrite (getOrCreateChat_created project pid s E).
      do 2 eexists. split; [reflexivity|]. split; [reflexivity|]. split.
      * intros c' Hc'. injection Hc' as <-. simpl. split; [reflexivity|].
        apply in_or_app. right. now left.
      * right. split; [reflexivity|]. split.
        -- unfold hasChat. now rewrite find_existsb, E.
        -- eexists. split; reflexivity.
Qed.

(** The submit operation, step by step, for a request that passes the
    validation and the access check. *)
Lemma chatHandler_resolved : forall req user s pid project team,
  Req.projectId req = Some pid ->
  hasContent req || hasFiles req || hasDatasets req = true ->
  Db.Project_findById pid s = Some project ->
  Project.team project = Some team ->
  accessCheck user team s = (s, inr tt) ->
  run (chatHandler req user) s
  = match getOrCreateChat project (Req.chatId req) pid s with
    | (s1, inr (Some chat)) =>
        ({| status := 200;
            body := SavedBody "User message saved." (Chat._id chat) |},
         Db.Chat_save
           {| Chat._id := Chat._id chat; Chat.project := Chat.project chat;
              Chat.title := Chat.title chat;
              Chat.messages := Chat.messages chat ++ [nextId s1] |}
           (snd (Db.Message_create (Chat._id chat) "user"
                   (trimmedContent (Req.content req))
                   (selectedDatasetsOf req) (tempFilesOf req) s1)))
    | (s1, inr None) =>
        (errorResponse 404 "Chat not found or could not be created.", s1)
    | (s1, inl r) => (r, s1)
    end.
Proof.
  intros req user s pid project team Hpid Hvalid Hproj Hteam Hacc.
  unfold chatHandler. rewrite Hpid.
  replace (negb (hasContent req) && negb (hasFiles req) && negb (hasDatasets req))
    with false
    by (destruct (hasContent req), (hasFiles req), (hasDatasets req);
        simpl in *; congruence).
  unfold_handler. rewrite Hproj, Hteam, Hacc.
  destruct (getOrCreateChat project (Req.chatId req) pid s) as [s1 [r|[chat|]]];
    reflexivity.
Qed.

(** What the submit operation does to the store, in all cases: nothing, or
    one user message saved in the resolved chat. *)
Lemma chatHandler_effect : forall req user s,
  snd (run (chatHandler req user) s) = s
  \/ exists pid project s1 chat,
       Req.projectId req = Some pid
       /\ getOrCreateChat project (Req.chatId req) pid s = (s1, inr (Some chat))
       /\ run (chatHandler req user) s
          = ({| status := 200;
                body := SavedBody "User message saved." (Chat._id chat) |},
             Db.Chat_save
               {| Chat._id := Chat._id chat; Chat.project := Chat.project chat;
                  Chat.title := Chat.title chat;
                  Chat.messages := Chat.messages chat ++ [nextId s1] |}
               (snd (Db.Message_create (Chat._id chat) "user"
                       (trimmedContent (Req.content req))
                       (selectedDatasetsOf req) (tempFilesOf req) s1))).
Proof.
  intros req user s.
  destruct (Req.projectId req) as [pid|] eqn:Hpid;
    [|left; unfold chatHandler; now rewrite Hpid].
  destruct (hasContent req || hasFiles req || hasDatasets req) eqn:Hvalid.
  2:{ left. unfold chatHandler. rewrite Hpid.
      destruct (hasContent req), (hasFiles req), (hasDatasets req);
        simpl in *; congruence. }
  destruct (Db.Project_findById pid s) as [project|] eqn:Hproj.
  2:{ left. unfold chatHandler. rewrite Hpid.
      destruct (negb (hasContent req) && negb (hasFiles req) && negb (hasDatasets req));
        [reflexivity|].
      unfold_handler. now rewrite Hproj. }
  destruct (Project.team project) as [team|] eqn:Hteam.
  2:{ left. unfold chatHandler. rewrite Hpid.
      destruct (negb (hasContent req) && negb (hasFiles req) && negb (hasDatasets req));
        [reflexivity|].
      unfold_handler. now rewrite Hproj, Hteam. }
  pose proof (accessCheck_store user team s) as Hs.
  destruct (accessCheck user team s) as [s' [r|[]]] eqn:Hacc; simpl in Hs; subst s'.
  - left. now apply (chatHandler_refused req user s pid project team r).
  - rewrite (chatHandler_resolved req user s pid project team
               Hpid Hvalid Hproj Hteam Hacc).
    destruct (getOrCreateChat_effect project (Req.chatId req) pid s)
      as [s1 [resolved [Hres [Hmsg [Hc Hcases]]]]].
    rewrite Hres. destruct resolved as [chat|].
    + right. exists pid, project, s1, chat. auto.
    + left. simpl. destruct Hcases as [H1|[_ [_ [c [Hc' _]]]]]; [assumption|discriminate].
Qed.

End Submit.

Lemma findById_save : forall (p p' : Project.t) (l : list Project.t),
  Project._id p' = Project._id p ->
  find (fun q => Project._id q =? Project._id p) l = Some p ->
  find (fun q => Project._id q =? Project._id p)
       (map (fun q => if Project._id q =? Project._id p then p' else q) l)
  = Some p'.
Proof.
  intros p p' l Hid. induction l as [|q l IH]; simpl; [discriminate|].
  destruct (Project._id q =? Project._id p) eqn:E.
  - intros _. now rewrite Hid, Nat.eqb_refl.
  - rewrite E. exact IH.
Qed.

Lemma find_app_none : forall (A : Type) (p : A -> bool) (l : list A) (x : A),
  find p l = None -> p x = true -> find p (l ++ [x]) = Some x.
Proof.
  induction l as [|y l IH]; intros x Hn Hx; simpl in *.
  - now rewrite Hx.
  - destruct (p y); [discriminate|]. now apply IH.
Qed.

Section Resolution.

Context {rt : Runtime}.

(** One submission adds at most one chat, and none to a project that has
    one. *)
Lemma chatHandler_chats : forall req user s pid,
  Req.projectId req = Some pid ->
  (hasChat pid s = true ->
   length (chats (snd (run (chatHandler req user) s))) = length (chats s)
   /\ hasChat pid (snd (run (chatHandler req user) s)) = true)
  /\ (length (chats (snd (run (chatHandler req user) s))) = length (chats s)
      \/ (length (chats (snd (run (chatHandler req user) s))) = S (length (chats s))
          /\ hasChat pid (snd (run (chatHandler req user) s)) = true)).
Proof.
  intros req user s pid Hpid.
  destruct (chatHandler_effect req user s)
    as [->|[pid' [project [s1 [chat [Hpid' [Hres ->]]]]]]]; [tauto|].
  rewrite Hpid in Hpid'. injection Hpid' as <-.
  destruct (getOrCreateChat_effect project (Req.chatId req) pid s)
    as [s1' [resolved [Hres' [_ [Hc Hcases]]]]].
  rewrite Hres in Hres'. injection Hres' as <- <-.
  destruct (Hc chat eq_refl) as [Hproj Hin].
  assert (Hhas : hasChat pid s1 = true).
  { unfold hasChat. apply existsb_exists. exists chat. split; [assumption|].
    rewrite Hproj. apply Nat.eqb_refl. }
  simpl. unfold hasChat. simpl. rewrite length_map.
  assert (Hafter :
            existsb (fun c => Chat.project c =? pid)
              (map (fun d =>
                      if Chat._id d =? Chat._id chat
                      then {| Chat._id := Chat._id chat;
                              Chat.project := Chat.project chat;
                              Chat.title := Chat.title chat;
                              Chat.messages := Chat.messages chat ++ [nextId s1] |}
                      else d) (chats s1)) = true).
  { apply (existsb_save
             {| Chat._id := Chat._id chat; Chat.project := Chat.project chat;
                Chat.title := Chat.title chat;
                Chat.messages := Chat.messages chat ++ [nextId s1] |});
      assumption. }
  destruct Hcases as [->|[_ [Hno [c [_ Hchats]]]]].
  - tauto.
  - split.
    + intros H. unfold hasChat in Hno. congruence.
    + right. rewrite Hchats, length_app. simpl. split; [lia|].
      rewrite <- Hchats. exact Hafter.
Qed.

Lemma submitAll_chats : forall requests s pid,
  (forall r, In r requests -> Req.projectId (fst r) = Some pid) ->
  (hasChat pid s = true -> length (chats (submitAll requests s)) = length (chats s))
  /\ length (chats (submitAll requests s)) <= S (length (chats s)).
Proof.
  induction requests as [|r requests IH]; intros s pid Hall; simpl.
  - split; [reflexivity|lia].
  - assert (Hr : Req.projectId (fst r) = Some pid) by (apply Hall; now left).
    assert (Hrest : forall r', In r' requests -> Req.projectId (fst r') = Some pid)
      by (intros r' Hr'; apply Hall; now right).
    destruct (chatHandler_chats (fst r) (snd r) s pid Hr) as [Hkeep Hstep].
    destruct (IH (snd (run (chatHandler (fst r) (snd r)) s)) pid Hrest) as [IH1 IH2].
    fold (submitAll requests (snd (run (chatHandler (fst r) (snd r)) s))).
    split.
    + intros Hhas. destruct (Hkeep Hhas) as [Hlen Hhas']. rewrite (IH1 Hhas'). exact Hlen.
    + destruct Hstep as [Hlen|[Hlen Hhas']].
      * rewrite <- Hlen. exact IH2.
      * rewrite (IH1 Hhas'). lia.
Qed.

(** C8 (amended).  With a chat id, the chat of that id in that project is
    looked up and nothing is created, so resolving twice gives the same
    chat.  Without a chat id, an existing chat of the project is returned:
    the first one the store finds, which need not be the one most recently
    associated.  Only when the project has no chat is one created, titled
    "New chat", with no messages, and registered on the project; the next
    resolution finds that chat, and a caller's successive submissions to one
    project create at most one chat. *)
Theorem chat_resolution :
  forall (project : Project.t) (pid : ObjectId) (s : Store),
    (forall id,
       getOrCreateChat project (Some id) pid s
       = (s, inr (find (fun c => (Chat._id c =? id) && (Chat.project c =? pid))
                       (chats s)))
       /\ forall c,
            find (fun c => (Chat._id c =? id) && (Chat.project c =? pid)) (chats s)
            = Some c ->
            Chat._id c = id /\ Chat.project c = pid)
    /\ (forall c,
          find (fun c => Chat.project c =? pid) (chats s) = Some c ->
          getOrCreateChat project None pid s = (s, inr (Some c)))
    /\ (find (fun c => Chat.project c =? pid) (chats s) = None ->
        exists s1 c,
          getOrCreateChat project None pid s = (s1, inr (Some c))
          /\ Chat.project c = pid
          /\ Chat.title c = "New chat"
          /\ Chat.messages c = []
          /\ chats s1 = chats s ++ [c]
          /\ messages s1 = messages s
          /\ (Db.Project_findById (Project._id project) s = Some project ->
              exists p,
                Db.Project_findById (Project._id project) s1 = Some p
                /\ Project.chats p = Project.chats project ++ [Chat._id c])
          /\ forall project',
               getOrCreateChat project' None pid s1 = (s1, inr (Some c)))
    /\ (forall requests,
          (forall r, In r requests -> Req.projectId (fst r) = Some pid) ->
          length (chats (submitAll requests s)) <= S (length (chats s))).
Proof.
  intros project pid s. split; [|split; [|split]].
  - intros id. split; [apply getOrCreateChat_given|].
    intros c Hc. apply find_some in Hc. destruct Hc as [_ Hc].
    apply andb_true_iff in Hc. destruct Hc as [H1 H2].
    apply Nat.eqb_eq in H1, H2. tauto.
  - intros c Hc. now apply getOrCreateChat_existing.
  - intros Hnone. rewrite (getOrCreateChat_created project pid s Hnone).
    do 2 eexists. split; [reflexivity|]. simpl.
    repeat (split; [reflexivity|]). split.
    + intros Hfind. eexists. split.
      * unfold Db.Project_findById in *. simpl.
        apply (findById_save project); [reflexivity|exact Hfind].
      * reflexivity.
    + intros project'. apply getOrCreateChat_existing. simpl.
      apply find_app_none; [exact Hnone|]. simpl. apply Nat.eqb_refl.
  - intros requests Hall. now apply (submitAll_chats requests s pid).
Qed.

(** C8, as stated, fails on the demo store: chat 11 is the one most
    recently registered on the project, and a submission without a chat id
    goes to chat 10. *)
Lemma first_chat_not_most_recent :
  Spec.mostRecentlyAssociated Demo.project = Some 11
  /\ fst (run (chatHandler (rt := Ref.runtime) Demo.submit Demo.member) Demo.store)
     = {| status := 200; body := SavedBody "User message saved." 10 |}
  /\ ~ Spec.resolvesToMostRecent Demo.project 1 Demo.store.
Proof.
  split; [reflexivity|]. split; [reflexivity|].
  intros H. specialize (H Demo.store Demo.firstChat eq_refl eq_refl). discriminate H.
Qed.

End Resolution.

(** ** Senders *)

Section Senders.

Context {rt : Runtime}.

(** What the reply operation does to the store, in all cases: nothing, or
    one chatbot message saved in the chat. *)
Lemma aiReplyHandler_effect : forall FASTAPI_URL engine req user s,
  snd (run (aiReplyHandler FASTAPI_URL engine req user) s) = s
  \/ exists chat analysis,
       run (aiReplyHandler FASTAPI_URL engine req user) s
       = ({| status := 200; body := AnalysisBody analysis |},
          Db.Chat_save
            {| Chat._id := Chat._id chat; Chat.project := Chat.project chat;
               Chat.title := Chat.title chat;
               Chat.messages := Chat.messages chat ++ [nextId s] |}
            (snd (Db.Message_create (Chat._id chat) "chatbot"
                    (Some (JSON_stringify analysis)) [] [] s))).
Proof.
  intros FASTAPI_URL engine req user s.
  destruct (Req.projectId req) as [pid|] eqn:Hpid;
    [|left; unfold aiReplyHandler; now rewrite Hpid].
  destruct (Req.chatId req) as [cid|] eqn:Hcid;
    [|left; unfold aiReplyHandler; now rewrite Hpid, Hcid].
  destruct (trimmedContent (Req.content req)) as [userText|] eqn:Htext;
    [|left; unfold aiReplyHandler; now rewrite Hpid, Hcid, Htext].
  destruct (Db.Project_findById pid s) as [project|] eqn:Hproj;
    [|left; unfold aiReplyHandler; rewrite Hpid, Hcid, Htext;
      unfold_handler; now rewrite Hproj].
  destruct (Db.Chat_findById cid s) as [chat|] eqn:Hchat;
    [|left; unfold aiReplyHandler; rewrite Hpid, Hcid, Htext;
      unfold_handler; now rewrite Hproj, Hchat].
  destruct (Project.team project) as [team|] eqn:Hteam;
    [|left; unfold aiReplyHandler; rewrite Hpid, Hcid, Htext;
      unfold_handler; now rewrite Hproj, Hchat, Hteam].
  pose proof (accessCheck_store user team s) as Hs.
  destruct (accessCheck user team s) as [s' [r|[]]] eqn:Hacc; simpl in Hs; subst s'.
  - left. now apply (aiReplyHandler_refused FASTAPI_URL engine req user s
                       pid project team r).
  - destruct (apiUrl FASTAPI_URL) as [url|] eqn:Hurl;
      [|left; unfold aiReplyHandler; rewrite Hpid, Hcid, Htext;
        unfold_handler; now rewrite Hproj, Hchat, Hteam, Hacc, Hurl].
    rewrite (aiReplyHandler_dispatch FASTAPI_URL engine req user s pid cid userText
               project chat team url Hpid Hcid Htext Hproj Hchat Hteam Hacc Hurl).
    destruct (Axios.post _ _ _ _) as [response|e]; [right|left; reflexivity].
    now exists chat, (Axios.data response).
Qed.

(** The window of a history that ends with [m] ends with the turn of
    [m]. *)
Lemma recentHistory_snoc : forall h m,
  exists turns,
    recentHistory (h ++ [m])
    = turns ++ [{| role := if String.eqb (Message.sender m) "user"
                           then "user" else "assistant";
                   text := Message.content m |}].
Proof.
  intros h m. unfold recentHistory, JS.slice. simpl.
  rewrite length_app. simpl.
  set (k := Z.to_nat (Z.max (Z.of_nat (length h + 1) + -5) 0)).
  assert (Hk : k <= length h) by (unfold k; lia).
  rewrite skipn_app. replace (k - length h) with 0 by lia. simpl.
  rewrite map_app. simpl. eexists. reflexivity.
Qed.

(** C9 (amended).  Every message the two operations persist has sender
    "user" or "chatbot": the submit operation appends at most one message,
    with sender "user"; the reply operation appends at most one, with
    sender "chatbot" and the serialised analysis as its text.  In the
    context sent to the engine every turn has role "user" or "assistant",
    and a "chatbot" message appears there under role "assistant": each
    message of the window with its own text, under "assistant" when its
    sender is "chatbot" and under "user" when it is "user"; every
    "assistant" turn is that of a message whose sender is not "user"; and a
    history that ends with a "chatbot" message has it as its last turn,
    under "assistant". *)
Theorem persisted_senders :
  forall FASTAPI_URL (engine : Engine) (req : Req.t) (user : User.t) (s : Store),
    let submitted := snd (run (chatHandler req user) s) in
    let reply := run (aiReplyHandler FASTAPI_URL engine req user) s in
    (messages submitted = messages s
     \/ exists m, messages submitted = messages s ++ [m]
                  /\ Message.sender m = "user")
    /\ (messages (snd reply) = messages s
        \/ exists m analysis,
             messages (snd reply) = messages s ++ [m]
             /\ Message.sender m = "chatbot"
             /\ Message.content m = Some (JSON_stringify analysis)
             /\ fst reply = {| status := 200; body := AnalysisBody analysis |}
             /\ forall older, exists turns,
                  recentHistory (older ++ [m])
                  = turns ++ [{| role := "assistant";
                                 text := Some (JSON_stringify analysis) |}])
    /\ (Forall Spec.senderStored (messages s) ->
        Forall Spec.senderStored (messages submitted)
        /\ Forall Spec.senderStored (messages (snd reply)))
    /\ (forall allMessages,
          Forall (fun turn => role turn = "user" \/ role turn = "assistant")
                 (recentHistory allMessages))
    /\ (forall allMessages m,
          In m (JS.slice (-5) allMessages) ->
          (Message.sender m = "chatbot" ->
           In {| role := "assistant"; text := Message.content m |}
              (recentHistory allMessages))
          /\ (Message.sender m = "user" ->
              In {| role := "user"; text := Message.content m |}
                 (recentHistory allMessages)))
    /\ (forall allMessages turn,
          In turn (recentHistory allMessages) ->
          role turn = "assistant" ->
          exists m, In m (JS.slice (-5) allMessages)
                    /\ Message.sender m <> "user"
                    /\ text turn = Message.content m)
    /\ forall older m,
         Message.sender m = "chatbot" ->
         exists turns,
           recentHistory (older ++ [m])
           = turns ++ [{| role := "assistant"; text := Message.content m |}].
Proof.
  intros FASTAPI_URL engine req user s. cbv zeta.
  assert (Hlast : forall older m,
            Message.sender m = "chatbot" ->
            exists turns,
              recentHistory (older ++ [m])
              = turns ++ [{| role := "assistant"; text := Message.content m |}]).
  { intros older m Hm. destruct (recentHistory_snoc older m) as [turns Hturns].
    rewrite Hm in Hturns. now exists turns. }
  assert (A : messages (snd (run (chatHandler req user) s)) = messages s
              \/ exists m, messages (snd (run (chatHandler req user) s))
                           = messages s ++ [m]
                           /\ Message.sender m = "user").
  { destruct (chatHandler_effect req user s)
      as [->|[pid [project [s1 [chat [Hpid [Hres ->]]]]]]]; [now left|].
    destruct (getOrCreateChat_effect project (Req.chatId req) pid s)
      as [s1' [resolved [Hres' [Hmsg _]]]].
    rewrite Hres in Hres'. injection Hres' as <- <-.
    right. simpl. rewrite Hmsg. eexists. split; reflexivity. }
  assert (B : messages (snd (run (aiReplyHandler FASTAPI_URL engine req user) s))
              = messages s
              \/ exists m analysis,
                   messages (snd (run (aiReplyHandler FASTAPI_URL engine req user) s))
                   = messages s ++ [m]
                   /\ Message.sender m = "chatbot"
                   /\ Message.content m = Some (JSON_stringify analysis)
                   /\ fst (run (aiReplyHandler FASTAPI_URL engine req user) s)
                      = {| status := 200; body := AnalysisBody analysis |}
                   /\ forall older, exists turns,
                        recentHistory (older ++ [m])
                        = turns ++ [{| role := "assistant";
                                       text := Some (JSON_stringify analysis) |}]).
  { destruct (aiReplyHandler_effect FASTAPI_URL engine req user s)
      as [->|[chat [analysis ->]]]; [now left|].
    right. simpl. do 2 eexists.
    split; [reflexivity|]. split; [reflexivity|]. split; [reflexivity|].
    split; [reflexivity|].
    intros older. apply (Hlast older
                           {| Message._id := nextId s; Message.chat := Chat._id chat;
                              Message.sender := "chatbot";
                              Message.content := Some (JSON_stringify analysis);
                              Message.selectedDatasets := [];
                              Message.tempFiles := [] |} eq_refl). }
  split; [exact A|]. split; [exact B|]. split; [|split; [|split; [|split]]].
  - intros Hall. split.
    + destruct A as [->|[m [-> Hm]]]; [assumption|].
      apply Forall_app. split; [assumption|]. constructor; [now left|constructor].
    + destruct B as [->|[m [analysis [-> [Hm _]]]]]; [assumption|].
      apply Forall_app. split; [assumption|]. constructor; [now right|constructor].
  - intros allMessages. unfold recentHistory. apply Forall_map.
    apply Forall_forall. intros m _. simpl.
    destruct (String.eqb (Message.sender m) "user"); tauto.
  - intros allMessages m Hin. unfold recentHistory. split; intros Hm;
      apply in_map_iff; exists m; rewrite Hm; split; [reflexivity|exact Hin
                                                     |reflexivity|exact Hin].
  - intros allMessages turn Hin Hrole. unfold recentHistory in Hin.
    apply in_map_iff in Hin. destruct Hin as [m [<- Hin]].
    exists m. split; [exact Hin|]. split; [|reflexivity].
    intros Hm. simpl in Hrole. rewrite Hm in Hrole. discriminate Hrole.
  - exact Hlast.
Qed.

End Senders.

(** C9, as stated, fails on the demo store: the message saved by a reply
    has sender "chatbot", not "assistant". *)
Lemma bot_sender_is_chatbot :
  Spec.sendersInSpec Demo.store
  /\ (exists m,
        messages (snd (run (aiReplyHandler (rt := Ref.runtime) None Demo.answering
                              Demo.ask Demo.member) Demo.store))
        = messages Demo.store ++ [m]
        /\ Message.sender m = "chatbot")
  /\ ~ Spec.sendersInSpec
         (snd (run (aiReplyHandler (rt := Ref.runtime) None Demo.answering
                      Demo.ask Demo.member) Demo.store)).
Proof.
  split; [|split].
  - unfold Spec.sendersInSpec. simpl.
    repeat (constructor; [now left|]). constructor.
  - eexists. split; reflexivity.
  - unfold Spec.sendersInSpec. intros H.
    rewrite Forall_forall in H.
    specialize (H {| Message._id := 30; Message.chat := 10;
                     Message.sender := "chatbot";
                     Message.content := Some (Ref.stringify (JObj [("insights", JStr "fine")]));
                     Message.selectedDatasets := []; Message.tempFiles := [] |}).
    destruct H as [H|H]; [|discriminate H|discriminate H].
    simpl. tauto.
Qed.

(** ** A selection of white space *)

Lemma allWhiteSpace_dropWhile : forall s,
  JS.allWhiteSpace s = true -> JS.dropWhile JS.isWhiteSpace s = EmptyString.
Proof.
  induction s as [|c s IH]; simpl; [reflexivity|].
  intros H. apply andb_true_iff in H. destruct H as [Hc Hs].
  rewrite Hc. now apply IH.
Qed.

Lemma allWhiteSpace_trim : forall s,
  JS.allWhiteSpace s = true -> JS.trim s = EmptyString.
Proof.
  intros s H. unfold JS.trim. now rewrite (allWhiteSpace_dropWhile s H).
Qed.

Lemma allWhiteSpace_no_comma : forall s,
  JS.allWhiteSpace s = true -> JS.includes ","%char s = false.
Proof.
  induction s as [|c s IH]; simpl; [reflexivity|].
  intros H. apply andb_true_iff in H. destruct H as [Hc Hs].
  rewrite (IH Hs). destruct (Ascii.eqb_spec c ","%char) as [->|_]; [discriminate Hc|].
  reflexivity.
Qed.

Section BlankSelection.

Context {rt : Runtime}.

(** [JSON.parse] throws on a text of white space only. *)
Hypothesis JSON_parse_blank :
  forall t, JS.allWhiteSpace t = true -> JSON_parse t = None.

Lemma parseSelectedDatasets_blank : forall blank,
  blank <> EmptyString ->
  JS.allWhiteSpace blank = true ->
  parseSelectedDatasets (JStr blank) = [JStr EmptyString].
Proof.
  intros blank Hne Hws. unfold parseSelectedDatasets.
  replace (truthy (JStr blank)) with true by (destruct blank; [congruence|reflexivity]).
  simpl. rewrite (JSON_parse_blank blank Hws).
  now rewrite (allWhiteSpace_no_comma blank Hws), (allWhiteSpace_trim blank Hws).
Qed.

(** C10.  A selection that is a non-empty string of white space only is
    normalised to the one-element list of the empty string, not to the
    empty list.  A submission that carries nothing else (no text, no file)
    therefore passes the validation on the strength of its selection alone:
    whatever the store and the caller, it is not answered 400.  When the
    project is found and the caller admitted, and the submission names no
    chat or names a chat of the project, a user message whose selected
    identifiers are that one empty string is persisted, in the chat the
    submission names when it names one. *)
Theorem blank_selection_is_persisted :
  forall blank : string,
    blank <> EmptyString ->
    JS.allWhiteSpace blank = true ->
    parseSelectedDatasets (JStr blank) = [JStr EmptyString]
    /\ forall (req : Req.t) (user : User.t) (s : Store) pid,
         Req.selectedDatasets req = JStr blank ->
         Req.files req = [] ->
         trimmedContent (Req.content req) = None ->
         Req.projectId req = Some pid ->
         hasContent req = false /\ hasFiles req = false /\ hasDatasets req = true
         /\ status (fst (run (chatHandler req user) s)) <> 400
         /\ forall project team,
              Db.Project_findById pid s = Some project ->
              Project.team project = Some team ->
              accessCheck user team s = (s, inr tt) ->
              Req.chatId req = None
              \/ (exists id c,
                    Req.chatId req = Some id
                    /\ In c (chats s)
                    /\ Chat._id c = id
                    /\ Chat.project c = pid) ->
              exists chat m,
                fst (run (chatHandler req user) s)
                = {| status := 200;
                     body := SavedBody "User message saved." (Chat._id chat) |}
                /\ (forall id, Req.chatId req = Some id -> Chat._id chat = id)
                /\ messages (snd (run (chatHandler req user) s)) = messages s ++ [m]
                /\ Message.chat m = Chat._id chat
                /\ Message.sender m = "user"
                /\ Message.content m = None
                /\ Message.selectedDatasets m = [JStr EmptyString]
                /\ Message.tempFiles m = [].
Proof.
  intros blank Hne Hws.
  pose proof (parseSelectedDatasets_blank blank Hne Hws) as Hparse.
  split; [exact Hparse|].
  intros req user s pid Hsel Hfiles Htext Hpid.
  assert (Hc : hasContent req = false).
  { unfold hasContent. unfold trimmedContent in Htext.
    destruct (Req.content req) as [c|]; [|reflexivity].
    destruct (JS.nonEmpty (JS.trim c)); [discriminate|reflexivity]. }
  assert (Hf : tempFilesOf req = []) by (unfold tempFilesOf; now rewrite Hfiles).
  assert (Hd : selectedDatasetsOf req = [JStr EmptyString])
    by (unfold selectedDatasetsOf; now rewrite Hsel).
  assert (Hhf : hasFiles req = false) by (unfold hasFiles; now rewrite Hf).
  assert (Hhd : hasDatasets req = true) by (unfold hasDatasets; now rewrite Hd).
  split; [exact Hc|]. split; [exact Hhf|]. split; [exact Hhd|].
  assert (Hvalid : hasContent req || hasFiles req || hasDatasets req = true)
    by (rewrite Hhd; apply orb_true_r).
  split.
  - destruct (Db.Project_findById pid s) as [project|] eqn:Hproj;
      [|unfold chatHandler; rewrite Hpid, Hc, Hhf, Hhd; cbn [negb andb];
        unfold_handler; rewrite Hproj; simpl; discriminate].
    destruct (Project.team project) as [team|] eqn:Hteam;
      [|unfold chatHandler; rewrite Hpid, Hc, Hhf, Hhd; cbn [negb andb];
        unfold_handler; rewrite Hproj, Hteam; simpl; discriminate].
    pose proof (accessCheck_store user team s) as Hs.
    destruct (accessCheck user team s) as [s0 [r|[]]] eqn:Hacc; simpl in Hs; subst s0.
    + destruct (chatHandler_refused req user s pid project team r
                  Hpid Hproj Hteam Hacc) as [_ Hr].
      rewrite (Hr Hvalid). unfold accessCheck in Hacc.
      destruct (negb (String.eqb (User.role user) "superadmin")); [|discriminate].
      destruct (negb (Team.organization team =? User.organization user)).
      * injection Hacc as <-. discriminate.
      * destruct (find _ _); [discriminate|]. injection Hacc as <-. discriminate.
    + rewrite (chatHandler_resolved req user s pid project team
                 Hpid Hvalid Hproj Hteam Hacc).
      destruct (getOrCreateChat_effect project (Req.chatId req) pid s)
        as [s1 [resolved [Hres _]]].
      rewrite Hres. destruct resolved; simpl; discriminate.
  - intros project team Hproj Hteam Hacc Hnamed.
    rewrite (chatHandler_resolved req user s pid project team
               Hpid Hvalid Hproj Hteam Hacc).
    rewrite Htext, Hf, Hd.
    destruct (getOrCreateChat_effect project (Req.chatId req) pid s)
      as [s1 [resolved [Hres [Hmsg [_ Hcases]]]]].
    assert (Hsome : exists chat,
               resolved = Some chat
               /\ forall id, Req.chatId req = Some id -> Chat._id chat = id).
    { destruct Hnamed as [Hcid|[id [c [Hcid [Hin [Hid Hp]]]]]].
      - rewrite Hcid in Hres.
        destruct Hcases as [->|[_ [_ [c [Hc' _]]]]];
          [|exists c; split; [exact Hc'|intros id E; congruence]].
        unfold getOrCreateChat in Hres.
        unfold bind, query, perform, update, ret in Hres.
        destruct (Db.Chat_findOne _ s) as [c|]; simpl in Hres.
        + injection Hres as <-. exists c. split; [reflexivity|].
          intros id E. congruence.
        + injection Hres as _ <-. eexists. split; [reflexivity|].
          intros id E. congruence.
      - rewrite Hcid, getOrCreateChat_given in Hres. injection Hres as _ <-.
        destruct (find (fun c0 => (Chat._id c0 =? id) && (Chat.project c0 =? pid))
                       (chats s)) as [found|] eqn:E.
        + exists found. split; [reflexivity|]. intros id' E'.
          rewrite Hcid in E'. injection E' as <-.
          apply find_some in E. destruct E as [_ E].
          apply andb_true_iff in E. destruct E as [E _]. now apply Nat.eqb_eq in E.
        + pose proof (find_none _ _ E c Hin) as Hno. simpl in Hno.
          rewrite Hid, Hp, !Nat.eqb_refl in Hno. discriminate Hno. }
    destruct Hsome as [chat [-> Hnames]]. rewrite Hres.
    exists chat. eexists. simpl. rewrite Hmsg.
    split; [reflexivity|]. split; [exact Hnames|].
    split; [reflexivity|]. repeat split; reflexivity.
Qed.

End BlankSelection.

(** The empty string itself is falsy, and gives the empty list. *)
Example parseSelectedDatasets_empty :
  forall rt : Runtime, parseSelectedDatasets (JStr EmptyString) = [].
Proof. reflexivity. Qed.

(** ** The analysis URL *)

(** The reply operation appends [/analyze] once: a path that ends with it
    is kept, any other path loses its trailing slashes and gains it. *)
Lemma ensureAnalyze_once : forall u : URL.t,
  JS.endsWith (URL.pathname (ensureAnalyze u)) "/analyze" = true
  /\ (JS.endsWith (URL.pathname u) "/analyze" = true -> ensureAnalyze u = u)
  /\ (JS.endsWith (URL.pathname u) "/analyze" = false ->
      URL.pathname (ensureAnalyze u)
      = (JS.stripTrailingSlashes (URL.pathname u) ++ "/analyze")%string).
Proof.
  intros u. unfold ensureAnalyze.
  destruct (JS.endsWith (URL.pathname u) "/analyze") eqn:E; simpl.
  - repeat split; [assumption|discriminate].
  - split; [apply endsWith_app|]. split; [discriminate|reflexivity].
Qed.

Lemma normalizedPath_doubles : forall u : URL.t,
  JS.endsWith (URL.pathname u) "/analyze" = true ->
  FastApiClient.normalizedPath u = (URL.pathname u ++ "/analyze")%string
  /\ JS.endsWith (FastApiClient.normalizedPath u) "/analyze/analyze" = true.
Proof.
  intros u H. destruct (endsWith_split _ _ H) as [pre Hpre].
  unfold FastApiClient.normalizedPath. rewrite Hpre, stripTrailingSlashes_analyze.
  split; [reflexivity|].
  rewrite append_assoc. apply endsWith_app.
Qed.

Section AnalyzeUrl.

Context {rt : Runtime}.

(** C4.  For a configured base location whose path already ends with
    [/analyze], [callFastAPIAnalyze] posts to a path that ends with
    [/analyze/analyze], and so does the earlier revision of the reply
    operation; the current reply operation keeps the path as it is. *)
Theorem client_appends_analyze_twice :
  forall (FASTAPI_URL : option string) (u : URL.t),
    parseBase (JS.orString FASTAPI_URL "http://localhost:8000") = Some u ->
    JS.endsWith (URL.pathname u) "/analyze" = true ->
    FastApiClient.analyzeUrl FASTAPI_URL
    = inr (URL.origin u ++ (URL.pathname u ++ "/analyze")
           ++ URL.search u ++ URL.hash u)%string
    /\ JS.endsWith (FastApiClient.normalizedPath u) "/analyze/analyze" = true
    /\ earlierApiUrl FASTAPI_URL
       = Some (URL.origin u ++ (URL.pathname u ++ "/analyze")
               ++ URL.search u ++ URL.hash u)%string
    /\ apiUrl FASTAPI_URL = Some (URL.toString u).
Proof.
  intros FASTAPI_URL u Hparse Hends.
  destruct (normalizedPath_doubles u Hends) as [Hpath Hdouble].
  unfold FastApiClient.analyzeUrl, earlierApiUrl, apiUrl, appendAnalyze.
  rewrite Hparse. simpl.
  fold (FastApiClient.normalizedPath u). rewrite Hpath.
  destruct (ensureAnalyze_once u) as [_ [Hkeep _]]. rewrite (Hkeep Hends).
  rewrite Hpath in Hdouble.
  repeat split; try reflexivity. exact Hdouble.
Qed.

End AnalyzeUrl.

(** ** Upstream errors *)

Section UpstreamErrors.

Context {rt : Runtime}.

(** C7 (amended).  When the engine answers with a status outside 200..299,
    the error thrown by [callFastAPIAnalyze] carries the upstream status,
    and as its message the upstream [detail] when that is present and
    truthy, else the upstream [error] field, else the transport message.
    The reply operation does not pass any of this on: a request that
    reaches the dispatch is answered 500 "Internal server error." whatever
    the upstream status and detail, and the store is left unchanged. *)
Theorem upstream_error_translation :
  forall (FASTAPI_URL : option string) (engine : Engine)
         (upstreamStatus : nat) (data : jsval),
    (forall url headers form, engine url headers form = Answered upstreamStatus data) ->
    upstreamStatus < 200 \/ 300 <= upstreamStatus ->
    (forall userQuery buffer fileName sessionId url,
       FastApiClient.analyzeUrl FASTAPI_URL = inr url ->
       JS.endsWith (JS.toLowerCase (JS.orString fileName "dataset.csv")) ".csv" = true ->
       exists thrown,
         FastApiClient.callFastAPIAnalyze FASTAPI_URL engine userQuery
           (Some buffer) fileName sessionId = inl thrown
         /\ FastApiClient.status thrown = Some upstreamStatus
         /\ (truthy (prop "detail" data) = true ->
             FastApiClient.message thrown = String_ (prop "detail" data))
         /\ (truthy (prop "detail" data) = false ->
             truthy (prop "error" data) = true ->
             FastApiClient.message thrown = String_ (prop "error" data))
         /\ (truthy (prop "detail" data) = false ->
             truthy (prop "error" data) = false ->
             FastApiClient.message thrown
             = ("Request failed with status code " ++ JS.ofNat upstreamStatus)%string))
    /\ (forall req user s pid cid userText project chat team url,
          Req.projectId req = Some pid ->
          Req.chatId req = Some cid ->
          trimmedContent (Req.content req) = Some userText ->
          Db.Project_findById pid s = Some project ->
          Db.Chat_findById cid s = Some chat ->
          Project.team project = Some team ->
          accessCheck user team s = (s, inr tt) ->
          apiUrl FASTAPI_URL = Some url ->
          run (aiReplyHandler FASTAPI_URL engine req user) s
          = (errorResponse 500 "Internal server error.", s)).
Proof.
  intros FASTAPI_URL engine st data Hengine Hst.
  assert (Hpost : forall url headers form,
            Axios.post engine url headers form
            = Axios.Rejected
                {| Axios.message := ("Request failed with status code " ++ JS.ofNat st)%string;
                   Axios.code := if (400 <=? st) && (st <? 500) then Some "ERR_BAD_REQUEST"
                                 else if (500 <=? st) && (st <? 600)
                                      then Some "ERR_BAD_RESPONSE" else None;
                   Axios.response_ := Some {| Axios.status := st; Axios.data := data |} |}).
  { intros url headers form. unfold Axios.post. rewrite Hengine.
    replace ((200 <=? st) && (st <? 300)) with false; [reflexivity|].
    symmetry. apply andb_false_iff.
    destruct Hst as [H|H]; [left; apply Nat.leb_gt; lia|right; apply Nat.ltb_ge; lia]. }
  split.
  - intros userQuery buffer fileName sessionId url Hurl Hcsv.
    unfold FastApiClient.callFastAPIAnalyze. rewrite Hurl, Hcsv. simpl.
    rewrite Hpost. eexists. split; [reflexivity|].
    unfold FastApiClient.translate, FastApiClient.clientMsg. simpl.
    split; [reflexivity|]. unfold or_else. split; [|split].
    + intros ->. reflexivity.
    + intros -> ->. reflexivity.
    + intros -> ->. reflexivity.
  - intros req user s pid cid userText project chat team url
           Hpid Hcid Htext Hproj Hchat Hteam Hacc Hurl.
    rewrite (aiReplyHandler_dispatch FASTAPI_URL engine req user s pid cid userText
               project chat team url Hpid Hcid Htext Hproj Hchat Hteam Hacc Hurl).
    now rewrite Hpost.
Qed.

End UpstreamErrors.

(** C7, as stated, fails on the demo store: the engine rejects the upload
    with 422 and a detail, and the caller of the reply operation sees
    neither. *)
Lemma reply_hides_upstream_error :
  fst (run (aiReplyHandler (rt := Ref.runtime) None Demo.rejecting
              Demo.ask Demo.member) Demo.store)
  = errorResponse 500 "Internal server error."
  /\ ~ Spec.surfacesUpstream
         (fst (run (aiReplyHandler (rt := Ref.runtime) None Demo.rejecting
                      Demo.ask Demo.member) Demo.store))
         422 "bad csv".
Proof.
  split; [reflexivity|].
  intros [H _]. discriminate H.
Qed.

(** ** The reference runtime *)

Lemma allWhiteSpace_rest : forall p t,
  JS.allWhiteSpace t = true -> JS.allWhiteSpace (JS.dropWhile p t) = true.
Proof.
  induction t as [|c t IH]; simpl; [trivial|].
  intros H. destruct (p c); [|exact H].
  apply andb_true_iff in H. now apply IH.
Qed.

(** No JSON value starts with a white-space character. *)
Lemma whiteSpace_starts_no_value : forall c,
  JS.isWhiteSpace c = true ->
  Ascii.eqb c Ref.dquote = false
  /\ Ascii.eqb c "["%char = false
  /\ Ascii.eqb c "{"%char = false
  /\ Ascii.eqb c "t"%char = false
  /\ Ascii.eqb c "f"%char = false
  /\ Ascii.eqb c "n"%char = false
  /\ Ascii.eqb c "-"%char = false
  /\ Ref.isDigit c = false.
Proof.
  intros [[] [] [] [] [] [] [] []] H; try discriminate H; repeat split; reflexivity.
Qed.

Lemma Ref_value_blank : forall fuel t,
  JS.allWhiteSpace t = true -> Ref.value fuel t = None.
Proof.
  intros [|fuel] t H; [reflexivity|].
  pose proof (allWhiteSpace_rest Ref.isJsonSpace t H) as Hrest.
  cbn [Ref.value].
  destruct (JS.dropWhile Ref.isJsonSpace t) as [|c r]; [reflexivity|].
  cbn [JS.allWhiteSpace] in Hrest. apply andb_true_iff in Hrest.
  destruct Hrest as [Hc _].
  destruct (whiteSpace_starts_no_value c Hc)
    as [H1 [H2 [H3 [H4 [H5 [H6 [H7 H8]]]]]]].
  now rewrite H1, H2, H3, H4, H5, H6, H7, H8.
Qed.

(** The reference [JSON.parse] rejects a text of white space only. *)
Lemma Ref_parse_blank : forall t,
  JS.allWhiteSpace t = true -> JSON_parse (Runtime := Ref.runtime) t = None.
Proof.
  intros t H. simpl. unfold Ref.parse. now rewrite (Ref_value_blank _ t H).
Qed.

(** ** Concrete runs *)

(** The engine is down while [member] asks about the message just saved:
    the store stays as the submission left it. *)
Lemma failed_dispatch_witness :
  dispatchFails Demo.down
  /\ snd (run (aiReplyHandler (rt := Ref.runtime) None Demo.down
                 Demo.ask Demo.member) Demo.afterSubmit)
     = Demo.afterSubmit.
Proof.
  assert (H : dispatchFails Demo.down)
    by (intros url headers form; eexists; reflexivity).
  split; [exact H|].
  exact (proj1 (failed_dispatch_persists_nothing (rt := Ref.runtime)
                  None Demo.down Demo.ask Demo.member Demo.afterSubmit H)).
Defined.

(** [outsider] belongs to the organisation but not to the team. *)
Lemma access_refusal_witness :
  fst (run (chatHandler (rt := Ref.runtime) Demo.submit Demo.outsider) Demo.store)
  = errorResponse 403 "Not a member of this team."
  /\ snd (run (chatHandler (rt := Ref.runtime) Demo.submit Demo.outsider) Demo.store)
     = Demo.store.
Proof.
  pose proof (access_refusal_precedes_persistence (rt := Ref.runtime)
                None Demo.down Demo.submit Demo.outsider Demo.store
                1 Demo.project Demo.team eq_refl eq_refl eq_refl) as H.
  cbv zeta in H. destruct H as [_ [_ H]].
  assert (Hrole : User.role Demo.outsider <> "superadmin") by discriminate.
  assert (Hin : ~ In (User.userId Demo.outsider) (Team.members Demo.team))
    by (simpl; intros [E|[E|[]]]; discriminate E).
  destruct (H Hrole eq_refl Hin) as [_ [A [_ [C _]]]].
  split; [apply C; reflexivity|exact A].
Defined.

(** The engine answers 422 with a detail. *)
Lemma upstream_error_witness :
  exists thrown,
    FastApiClient.callFastAPIAnalyze (rt := Ref.runtime) None Demo.rejecting
      "what is in A?" (Some "a,b") (Some "A.csv") None = inl thrown
    /\ FastApiClient.status thrown = Some 422
    /\ FastApiClient.message thrown = "bad csv".
Proof.
  assert (Hstatus : 422 < 200 \/ 300 <= 422) by (right; lia).
  destruct (upstream_error_translation (rt := Ref.runtime) None Demo.rejecting
              422 (JObj [("detail", JStr "bad csv")])
              (fun _ _ _ => eq_refl) Hstatus)
    as [H _].
  destruct (H "what is in A?" "a,b" (Some "A.csv") None
              "http://localhost:8000/analyze" eq_refl eq_refl)
    as [thrown [H1 [H2 [H3 _]]]].
  exists thrown. split; [exact H1|]. split; [exact H2|]. exact (H3 eq_refl).
Defined.

(** Two spaces as the selection. *)
Lemma blank_selection_witness :
  parseSelectedDatasets (rt := Ref.runtime) (JStr "  ") = [JStr EmptyString]
  /\ (exists m,
        messages (snd (run (chatHandler (rt := Ref.runtime)
                              Demo.blankSelection Demo.member) Demo.store))
        = messages Demo.store ++ [m]
        /\ Message.selectedDatasets m = [JStr EmptyString])
  /\ exists m,
       messages (snd (run (chatHandler (rt := Ref.runtime)
                             Cases.blankToChat Demo.member) Demo.store))
       = messages Demo.store ++ [m]
       /\ Message.chat m = 11
       /\ Message.selectedDatasets m = [JStr EmptyString].
Proof.
  assert (Hne : "  " <> EmptyString) by discriminate.
  destruct (blank_selection_is_persisted (rt := Ref.runtime) Ref_parse_blank
              "  " Hne eq_refl) as [H1 H2].
  split; [exact H1|]. split.
  - destruct (H2 Demo.blankSelection Demo.member Demo.store 1
                eq_refl eq_refl eq_refl eq_refl)
      as [_ [_ [_ [_ H]]]].
    destruct (H Demo.project Demo.team eq_refl eq_refl eq_refl
                (or_introl eq_refl))
      as [chat [m [_ [_ [Hm [_ [_ [_ [Hsel _]]]]]]]]].
    exists m. split; [exact Hm|exact Hsel].
  - destruct (H2 Cases.blankToChat Demo.member Demo.store 1
                eq_refl eq_refl eq_refl eq_refl)
      as [_ [_ [_ [_ H]]]].
    assert (Hnamed : Req.chatId Cases.blankToChat = None
                     \/ (exists id c,
                           Req.chatId Cases.blankToChat = Some id
                           /\ In c (chats Demo.store)
                           /\ Chat._id c = id
                           /\ Chat.project c = 1)).
    { right. exists 11, Demo.secondChat.
      split; [reflexivity|]. split; [right; left; reflexivity|].
      split; reflexivity. }
    destruct (H Demo.project Demo.team eq_refl eq_refl eq_refl Hnamed)
      as [chat [m [_ [Hid [Hm [Hchat [_ [_ [Hsel _]]]]]]]]].
    exists m. split; [exact Hm|]. split; [|exact Hsel].
    rewrite Hchat. exact (Hid 11 eq_refl).
Defined.

(** The configured location already names the route. *)
Lemma client_appends_analyze_twice_witness :
  FastApiClient.analyzeUrl (rt := Ref.runtime) (Some "http://localhost:8000/analyze")
  = inr "http://localhost:8000/analyze/analyze"
  /\ apiUrl (rt := Ref.runtime) (Some "http://localhost:8000/analyze")
     = Some "http://localhost:8000/analyze".
Proof.
  destruct (client_appends_analyze_twice (rt := Ref.runtime)
              (Some "http://localhost:8000/analyze")
              {| URL.origin := "http://localhost:8000"; URL.pathname := "/analyze";
                 URL.search := EmptyString; URL.hash := EmptyString |}
              eq_refl eq_refl) as [H1 [_ [_ H4]]].
  split; [exact H1|exact H4].
Defined.

(** A first submission to a project without a chat creates one; the
    second submission finds it. *)
Lemma chat_resolution_witness :
  exists s1 c,
    getOrCreateChat Demo.freshProject None 2 Demo.freshStore = (s1, inr (Some c))
    /\ Chat.title c = "New chat"
    /\ length (chats (submitAll (rt := Ref.runtime)
                        [(Demo.submitFresh, Demo.member);
                         (Demo.submitFresh, Demo.member)] Demo.freshStore)) <= 1.
Proof.
  destruct (chat_resolution (rt := Ref.runtime) Demo.freshProject 2 Demo.freshStore)
    as [_ [_ [H3 H4]]].
  destruct (H3 eq_refl) as [s1 [c [Hres [_ [Htitle _]]]]].
  exists s1, c. split; [exact Hres|]. split; [exact Htitle|].
  apply (H4 [(Demo.submitFresh, Demo.member); (Demo.submitFresh, Demo.member)]).
  intros r [<-|[<-|[]]]; reflexivity.
Defined.

(* ===================================================================== *)
(** * Part III: further properties of the code                            *)
(* ===================================================================== *)

(** ** Lists of documents *)

Lemma NoDup_map_eq : forall (A B : Type) (f : A -> B) (l : list A) (a b : A),
  NoDup (map f l) -> In a l -> In b l -> f a = f b -> a = b.
Proof.
  induction l as [|x l IH]; intros a b Hnd Ha Hb Hf; [destruct Ha|].
  simpl in Hnd. inversion Hnd as [|y ys Hnotin Hrest]; subst.
  destruct Ha as [<-|Ha], Hb as [<-|Hb]; [reflexivity| | |now apply IH].
  - exfalso. apply Hnotin. rewrite Hf. now apply in_map.
  - exfalso. apply Hnotin. rewrite <- Hf. now apply in_map.
Qed.

Lemma find_app_some : forall (A : Type) (p : A -> bool) (l l' : list A) (x : A),
  find p l = Some x -> find p (l ++ l') = Some x.
Proof.
  induction l as [|y l IH]; intros l' x H; simpl in *; [discriminate|].
  destruct (p y); [exact H|now apply IH].
Qed.

Lemma find_replaced : forall (c c' : Chat.t) (l : list Chat.t),
  Chat._id c' = Chat._id c ->
  In c l ->
  find (fun d => Chat._id d =? Chat._id c)
       (map (fun d => if Chat._id d =? Chat._id c then c' else d) l)
  = Some c'.
Proof.
  intros c c' l Hid. induction l as [|d l IH]; intros Hin; [destruct Hin|].
  simpl. destruct (Chat._id d =? Chat._id c) eqn:E.
  - now rewrite Hid, Nat.eqb_refl.
  - rewrite E. apply IH. destruct Hin as [->|Hin]; [|exact Hin].
    now rewrite Nat.eqb_refl in E.
Qed.

Lemma map_replaced : forall (B : Type) (f : Chat.t -> B) (c c' : Chat.t) l,
  f c' = f c ->
  (forall d, Chat._id d = Chat._id c -> In d l -> f d = f c) ->
  map f (map (fun d => if Chat._id d =? Chat._id c then c' else d) l) = map f l.
Proof.
  intros B f c c' l Hf. induction l as [|d l IH]; intros Hsame; [reflexivity|].
  simpl. rewrite IH by (intros x Hx Hin; apply Hsame; [exact Hx|now right]).
  f_equal. destruct (Chat._id d =? Chat._id c) eqn:E; [|reflexivity].
  apply Nat.eqb_eq in E. rewrite Hf. symmetry. apply Hsame; [exact E|now left].
Qed.

(** What [updateFirst] does: nothing when no document matches; otherwise
    the first match, and only it, is replaced. *)
Lemma updateFirst_spec : forall query change l,
  match updateFirst query change l with
  | (None, l') => l' = l /\ find query l = None
  | (Some u, l') =>
      exists before c after,
        l = before ++ c :: after
        /\ find query l = Some c
        /\ u = change c
        /\ l' = before ++ change c :: after
  end.
Proof.
  intros query change. induction l as [|c l IH]; simpl; [auto|].
  destruct (query c) eqn:E.
  - exists [], c, l. auto.
  - destruct (updateFirst query change l) as [[u|] l'].
    + destruct IH as [before [c0 [after [H1 [H2 [H3 H4]]]]]].
      exists (c :: before), c0, after. subst. auto.
    + destruct IH as [-> H]. auto.
Qed.

(** ** Renaming a chat *)

(** X1.  A rename that fails leaves the store as it was.  One that succeeds
    answers 200 with the chat of the given id in the given project under
    its new title, the trimmed and non-empty title of the request; in the
    store that chat has been replaced by it and nothing else has changed:
    not the projects, not the messages, not the identifiers, projects and
    message lists of the chats. *)
Theorem renameChat_changes_only_the_title :
  forall (req : RenameReq.t) (user : User.t) (s : Store),
    match renameChat req user s with
    | (s', inl r) => s' = s
    | (s', inr ok) =>
        answered ok = 200
        /\ exists c title before after,
             RenameReq.title req = Some title
             /\ RenameReq.chatId req = Some (Chat._id c)
             /\ RenameReq.projectId req = Some (Chat.project c)
             /\ json ok = withTitle (JS.trim title) c
             /\ JS.nonEmpty (Chat.title (json ok)) = true
             /\ chats s = before ++ c :: after
             /\ chats s' = before ++ json ok :: after
             /\ projects s' = projects s
             /\ messages s' = messages s
             /\ nextId s' = nextId s
    end.
Proof.
  intros req user s. unfold renameChat.
  destruct (RenameReq.chatId req) as [cid|]; [|reflexivity].
  destruct (RenameReq.projectId req) as [pid|]; [|reflexivity].
  destruct (RenameReq.title req) as [title|]; [|reflexivity].
  destruct (JS.nonEmpty title && JS.nonEmpty (JS.trim title)) eqn:Htitle;
    [|reflexivity].
  simpl. unfold_handler.
  destruct (Db.Project_findById pid s) as [project|]; [|reflexivity].
  destruct (Project.team project) as [team|]; [|reflexivity].
  pose proof (accessCheck_store user team s) as Hs.
  destruct (accessCheck user team s) as [s0 [r|[]]]; simpl in Hs; subst s0;
    [reflexivity|].
  unfold Chat_findOneAndUpdate.
  pose proof (updateFirst_spec
                (fun c => (Chat._id c =? cid) && (Chat.project c =? pid))
                (withTitle (JS.trim title)) (chats s)) as Hupd.
  destruct (updateFirst _ _ (chats s)) as [[u|] l'].
  - destruct Hupd as [before [c [after [H1 [H2 [H3 H4]]]]]].
    apply find_some in H2. destruct H2 as [_ H2].
    apply andb_true_iff in H2. destruct H2 as [Hc Hp].
    apply Nat.eqb_eq in Hc, Hp. apply andb_true_iff in Htitle.
    simpl. split; [reflexivity|].
    exists c, title, before, after. subst. simpl. tauto.
  - destruct Hupd as [-> _]. simpl. now destruct s.
Qed.

(** ** Creating a chat *)

(** X2.  [createChatManually] leaves the store as it was when it fails.
    When it succeeds it answers 201 and has created a chat, whether or not
    the project had one: the chat is new, titled "New chat", without
    messages, last in the store, and its id is the last of the project's
    chats, the one most recently associated. *)
Theorem createChatManually_always_creates :
  forall (projectId : option ObjectId) (user : User.t) (s : Store),
    match createChatManually projectId user s with
    | (s', inl r) => s' = s
    | (s', inr ok) =>
        answered ok = 201
        /\ exists pid project,
             projectId = Some pid
             /\ Db.Project_findById pid s = Some project
             /\ snd (json ok)
                = {| Chat._id := nextId s; Chat.project := pid;
                     Chat.title := "New chat"; Chat.messages := [] |}
             /\ chats s' = chats s ++ [snd (json ok)]
             /\ messages s' = messages s
             /\ exists project',
                  Db.Project_findById pid s' = Some project'
                  /\ Project.chats project' = Project.chats project ++ [nextId s]
                  /\ Spec.mostRecentlyAssociated project' = Some (nextId s)
    end.
Proof.
  intros [pid|] user s; unfold createChatManually; [|reflexivity].
  unfold_handler.
  destruct (Db.Project_findById pid s) as [project|] eqn:Hproj; [|reflexivity].
  destruct (Project.team project) as [team|]; [|reflexivity].
  pose proof (accessCheck_store user team s) as Hs.
  destruct (accessCheck user team s) as [s0 [r|[]]]; simpl in Hs; subst s0;
    [reflexivity|].
  simpl. split; [reflexivity|].
  assert (Hid : Project._id project = pid).
  { unfold Db.Project_findById in Hproj. apply find_some in Hproj.
    destruct Hproj as [_ H]. now apply Nat.eqb_eq in H. }
  exists pid, project. rewrite Hid.
  split; [reflexivity|]. split; [exact Hproj|]. split; [reflexivity|].
  split; [reflexivity|]. split; [reflexivity|].
  eexists. split.
  - unfold Db.Project_findById in *. simpl. rewrite <- Hid.
    apply (findById_save project); [reflexivity|]. now rewrite Hid.
  - simpl. split; [reflexivity|].
    unfold Spec.mostRecentlyAssociated. simpl. now rewrite rev_app_distr.
Qed.

(** A chat created by hand is put last in the store. *)
Lemma createChatManually_chats : forall pid user s s1 ok,
  createChatManually (Some pid) user s = (s1, inr ok) ->
  chats s1 = chats s ++ [snd (json ok)]
  /\ Chat.project (snd (json ok)) = pid.
Proof.
  intros pid user s s1 ok. unfold createChatManually. unfold_handler.
  destruct (Db.Project_findById pid s) as [project|] eqn:Hproj; [|discriminate].
  destruct (Project.team project) as [team|]; [|discriminate].
  pose proof (accessCheck_store user team s) as Hs.
  destruct (accessCheck user team s) as [s0 [r|[]]]; simpl in Hs; subst s0;
    [discriminate|].
  simpl. intros H. injection H as <- <-. simpl. split; [reflexivity|].
  unfold Db.Project_findById in Hproj. apply find_some in Hproj.
  destruct Hproj as [_ H]. now apply Nat.eqb_eq in H.
Qed.

(** X3.  After a chat has been created by hand, a submission without a chat
    id still goes to the first chat of the project: the older one when the
    project had a chat, the new one only when it had none. *)
Theorem created_chat_is_not_the_default :
  forall (pid : ObjectId) (user : User.t) (s s1 : Store) ok,
    createChatManually (Some pid) user s = (s1, inr ok) ->
    forall project : Project.t,
      match find (fun c => Chat.project c =? pid) (chats s) with
      | Some older => getOrCreateChat project None pid s1 = (s1, inr (Some older))
      | None => getOrCreateChat project None pid s1 = (s1, inr (Some (snd (json ok))))
      end.
Proof.
  intros pid user s s1 ok Hrun project.
  destruct (createChatManually_chats pid user s s1 ok Hrun) as [Hchats Hnew].
  destruct (find (fun c => Chat.project c =? pid) (chats s)) as [older|] eqn:E.
  - apply getOrCreateChat_existing. rewrite Hchats. now apply find_app_some.
  - apply getOrCreateChat_existing. rewrite Hchats.
    apply find_app_none; [exact E|]. rewrite Hnew. apply Nat.eqb_refl.
Qed.

(** ** The access check in the other handlers *)

Lemma trim_nonEmpty : forall t,
  JS.nonEmpty (JS.trim t) = true -> JS.nonEmpty t = true.
Proof. intros [|c t] H; [discriminate H|reflexivity]. Qed.

(** X4.  A caller who is not a superadmin and is of another organisation,
    or not among the members of the team, is answered 403 by a rename, by a
    manual chat creation and by a history request alike, and the store is
    left as it was. *)
Theorem other_handlers_refuse_before_persistence :
  forall (sortByCreatedAt : list Message.t -> list Message.t)
         (req : RenameReq.t) (user : User.t) (s : Store)
         pid cid title project team,
    RenameReq.projectId req = Some pid ->
    RenameReq.chatId req = Some cid ->
    RenameReq.title req = Some title ->
    JS.nonEmpty (JS.trim title) = true ->
    Db.Project_findById pid s = Some project ->
    Project.team project = Some team ->
    User.role user <> "superadmin" ->
    Team.organization team <> User.organization user
    \/ ~ In (User.userId user) (Team.members team) ->
    exists r,
      status r = 403
      /\ renameChat req user s = (s, inl r)
      /\ createChatManually (Some pid) user s = (s, inl r)
      /\ getChatHistory sortByCreatedAt pid cid user s = (s, inl r).
Proof.
  intros sortByCreatedAt req user s pid cid title project team
         Hpid Hcid Htitle Htrim Hproj Hteam Hrole Hout.
  assert (Hacc : exists r, status r = 403 /\ accessCheck user team s = (s, inl r)).
  { destruct (Nat.eq_dec (Team.organization team) (User.organization user)) as [E|E].
    - destruct Hout as [Hout|Hout]; [contradiction|].
      eexists. split; [|now apply accessCheck_not_a_member]. reflexivity.
    - eexists. split; [|now apply accessCheck_wrong_organization]. reflexivity. }
  destruct Hacc as [r [Hr Hacc]]. exists r. split; [exact Hr|].
  split; [|split].
  - unfold renameChat. rewrite Hpid, Hcid, Htitle, Htrim, (trim_nonEmpty title Htrim).
    simpl. unfold_handler. now rewrite Hproj, Hteam, Hacc.
  - unfold createChatManually. unfold_handler. now rewrite Hproj, Hteam, Hacc.
  - unfold getChatHistory. unfold_handler. now rewrite Hproj, Hteam, Hacc.
Qed.

(** ** Chats and their projects *)

(** A chat of another project is not found by a lookup scoped to the
    project. *)
Lemma scoped_lookup_fails : forall s cid pid chat,
  NoDup (map Chat._id (chats s)) ->
  Db.Chat_findById cid s = Some chat ->
  Chat.project chat <> pid ->
  find (fun c => (Chat._id c =? cid) && (Chat.project c =? pid)) (chats s) = None.
Proof.
  intros s cid pid chat Hnd Hchat Hother.
  destruct (find _ (chats s)) as [c|] eqn:E; [|reflexivity].
  apply find_some in E. destruct E as [Hin Hc].
  apply andb_true_iff in Hc. destruct Hc as [Hid Hp].
  apply Nat.eqb_eq in Hid, Hp.
  unfold Db.Chat_findById, Db.Chat_findOne in Hchat. apply find_some in Hchat.
  destruct Hchat as [Hin' Hid']. apply Nat.eqb_eq in Hid'.
  assert (c = chat) by (apply (NoDup_map_eq _ _ Chat._id (chats s)); congruence).
  subst c. contradiction.
Qed.

Section Scope.

Context {rt : Runtime}.

(** X5.  The reply operation looks the chat up by its id alone.  For a
    caller admitted to the project named in the request and a chat that
    belongs to another project, the submit operation, the rename and the
    history request answer 404 and change nothing, whereas the reply
    operation is carried out on that chat: its history goes to the engine
    and the answer is appended to it. *)
Theorem only_reply_ignores_the_project_of_a_chat :
  forall (sortByCreatedAt : list Message.t -> list Message.t)
         FASTAPI_URL (engine : Engine) (req : Req.t) (user : User.t) (s : Store)
         pid cid userText project team chat url response,
    NoDup (map Chat._id (chats s)) ->
    Req.projectId req = Some pid ->
    Req.chatId req = Some cid ->
    trimmedContent (Req.content req) = Some userText ->
    Db.Project_findById pid s = Some project ->
    Project.team project = Some team ->
    accessCheck user team s = (s, inr tt) ->
    Db.Chat_findById cid s = Some chat ->
    Chat.project chat <> pid ->
    apiUrl FASTAPI_URL = Some url ->
    Axios.post engine url [] (replyForm userText project (Db.populate chat s))
    = Axios.Resolved response ->
    run (chatHandler req user) s
    = (errorResponse 404 "Chat not found or could not be created.", s)
    /\ (forall title,
          JS.nonEmpty (JS.trim title) = true ->
          renameChat {| RenameReq.chatId := Some cid;
                        RenameReq.projectId := Some pid;
                        RenameReq.title := Some title |} user s
          = (s, inl (errorResponse 404 "Chat not found.")))
    /\ getChatHistory sortByCreatedAt pid cid user s
       = (s, inl (errorResponse 404 "Chat not found."))
    /\ exists s' m,
         run (aiReplyHandler FASTAPI_URL engine req user) s
         = ({| status := 200; body := AnalysisBody (Axios.data response) |}, s')
         /\ Db.Chat_findById cid s'
            = Some {| Chat._id := cid; Chat.project := Chat.project chat;
                      Chat.title := Chat.title chat;
                      Chat.messages := Chat.messages chat ++ [Message._id m] |}
         /\ messages s' = messages s ++ [m]
         /\ Message.chat m = cid
         /\ Message.sender m = "chatbot".
Proof.
  intros sortByCreatedAt FASTAPI_URL engine req user s pid cid userText project
         team chat url response Hnd Hpid Hcid Htext Hproj Hteam Hacc Hchat Hother
         Hurl Hpost.
  pose proof (scoped_lookup_fails s cid pid chat Hnd Hchat Hother) as Hnone.
  assert (Hid : Project._id project = pid).
  { unfold Db.Project_findById in Hproj. apply find_some in Hproj.
    destruct Hproj as [_ H]. now apply Nat.eqb_eq in H. }
  split; [|split; [|split]].
  - assert (Hvalid : hasContent req || hasFiles req || hasDatasets req = true).
    { unfold hasContent. unfold trimmedContent in Htext.
      destruct (Req.content req) as [c|]; [|discriminate].
      destruct (JS.nonEmpty (JS.trim c)); [reflexivity|discriminate]. }
    rewrite (chatHandler_resolved req user s pid project team
               Hpid Hvalid Hproj Hteam Hacc).
    rewrite Hcid, getOrCreateChat_given, Hnone. reflexivity.
  - intros title Htrim. unfold renameChat. simpl.
    rewrite Htrim, (trim_nonEmpty title Htrim). simpl. unfold_handler.
    rewrite Hproj, Hteam, Hacc. unfold Chat_findOneAndUpdate.
    pose proof (updateFirst_spec
                  (fun c => (Chat._id c =? cid) && (Chat.project c =? pid))
                  (withTitle (JS.trim title)) (chats s)) as Hupd.
    destruct (updateFirst _ _ (chats s)) as [[u|] l'].
    + destruct Hupd as [before [c [after [_ [H _]]]]]. congruence.
    + destruct Hupd as [-> _]. now destruct s.
  - unfold getChatHistory. unfold_handler. rewrite Hproj, Hteam, Hacc.
    unfold Db.Chat_findOne. rewrite Hid, Hnone. reflexivity.
  - rewrite (aiReplyHandler_dispatch FASTAPI_URL engine req user s pid cid userText
               project chat team url Hpid Hcid Htext Hproj Hchat Hteam Hacc Hurl).
    rewrite Hpost. eexists.
    exists {| Message._id := nextId s; Message.chat := Chat._id chat;
              Message.sender := "chatbot";
              Message.content := Some (JSON_stringify (Axios.data response));
              Message.selectedDatasets := []; Message.tempFiles := [] |}.
    split; [reflexivity|].
    unfold Db.Chat_findById, Db.Chat_findOne in *.
    pose proof (find_some _ _ Hchat) as [Hin Hc]. apply Nat.eqb_eq in Hc.
    simpl. rewrite <- Hc. split.
    + apply (find_replaced chat); [reflexivity|exact Hin].
    + repeat split; reflexivity.
Qed.

(** X6.  A submission without text, without a CSV file and without a
    selection is rejected with 400 and nothing is stored; files that are
    not CSV files do not count as content. *)
Theorem empty_turn_is_rejected :
  forall (req : Req.t) (user : User.t) (s : Store),
    hasContent req = false ->
    (forall f, In f (Req.files req) -> isCsv f = false) ->
    selectedDatasetsOf req = [] ->
    run (chatHandler req user) s
    = (errorResponse 400
         "projectId and at least one of content, selectedDatasets, or files are required.",
       s).
Proof.
  intros req user s Hc Hf Hd.
  assert (Hfiles : tempFilesOf req = []).
  { unfold tempFilesOf. induction (Req.files req) as [|f l IH]; [reflexivity|].
    simpl. rewrite (Hf f) by now left. apply IH. intros g Hg. apply Hf. now right. }
  unfold chatHandler, hasFiles, hasDatasets.
  rewrite Hc, Hfiles, Hd. simpl.
  destruct (Req.projectId req); reflexivity.
Qed.

End Scope.

(** ** Consistent stores *)

Lemma find_present : forall (A : Type) (p : A -> bool) (l : list A) (x : A),
  In x l -> p x = true -> exists y, find p l = Some y.
Proof.
  induction l as [|a l IH]; intros x Hin Hp; [destruct Hin|].
  simpl. destruct (p a) eqn:E; [now exists a|].
  destruct Hin as [->|Hin]; [congruence|]. now apply (IH x).
Qed.

Lemma flat_map_same : forall (A B : Type) (f g : A -> list B) (l : list A),
  (forall a, In a l -> f a = g a) -> flat_map f l = flat_map g l.
Proof.
  induction l as [|a l IH]; intros H; [reflexivity|].
  simpl. rewrite (H a) by now left. f_equal. apply IH.
  intros b Hb. apply H. now right.
Qed.

Lemma map_id_replaced : forall (c' : Chat.t) (id : ObjectId) (l : list Chat.t),
  Chat._id c' = id ->
  map Chat._id (map (fun d => if Chat._id d =? id then c' else d) l)
  = map Chat._id l.
Proof.
  intros c' id l Hid. induction l as [|d l IH]; [reflexivity|].
  simpl. rewrite IH. f_equal.
  destruct (Chat._id d =? id) eqn:E; [|reflexivity].
  apply Nat.eqb_eq in E. congruence.
Qed.

Lemma NoDup_snoc_fresh : forall (l : list nat) (n : nat),
  NoDup l -> (forall x, In x l -> x < n) -> NoDup (l ++ [n]).
Proof.
  induction l as [|a l IH]; intros n Hnd Hlt; simpl.
  - constructor; [intros []|constructor].
  - inversion Hnd as [|y ys Hnotin Hrest]; subst. constructor.
    + rewrite in_app_iff. intros [H|[H|[]]]; [contradiction|].
      specialize (Hlt a (or_introl eq_refl)). lia.
    + apply IH; [assumption|]. intros x Hx. apply Hlt. now right.
Qed.

Lemma appended_consistent : forall chat sender content selected files s,
  consistent s ->
  In chat (chats s) ->
  consistent (appended chat sender content selected files s).
Proof.
  intros chat sender content selected files s [Hc Hm Hcb Hmb Hl] Hin.
  unfold appended. constructor; simpl.
  - now rewrite map_id_replaced.
  - rewrite map_app. simpl. apply NoDup_snoc_fresh; [assumption|].
    intros x Hx. apply in_map_iff in Hx. destruct Hx as [m [<- Hm']]. now apply Hmb.
  - intros c Hc'. apply in_map_iff in Hc'. destruct Hc' as [d [Hd Hind]].
    destruct (Chat._id d =? Chat._id chat); subst c; simpl.
    + specialize (Hcb chat Hin). lia.
    + specialize (Hcb d Hind). lia.
  - intros m Hm'. apply in_app_iff in Hm'. destruct Hm' as [Hm'|[<-|[]]]; simpl.
    + specialize (Hmb m Hm'). lia.
    + lia.
  - intros c id Hc' Hid. apply in_map_iff in Hc'. destruct Hc' as [d [Hd Hind]].
    destruct (Chat._id d =? Chat._id chat); subst c; simpl in *.
    + apply in_app_iff in Hid. destruct Hid as [Hid|[<-|[]]].
      * destruct (Hl chat id Hin Hid) as [m [H1 [H2 H3]]].
        exists m. rewrite in_app_iff. tauto.
      * eexists. rewrite in_app_iff. split; [right; left; reflexivity|].
        split; reflexivity.
    + destruct (Hl d id Hind Hid) as [m [H1 [H2 H3]]].
      exists m. rewrite in_app_iff. tauto.
Qed.

(** The history of the chat after the append is its history before,
    followed by the new message. *)
Lemma appended_history : forall chat sender content selected files s,
  consistent s ->
  In chat (chats s) ->
  exists chat' m,
    Db.Chat_findById (Chat._id chat) (appended chat sender content selected files s)
    = Some chat'
    /\ Db.populate chat' (appended chat sender content selected files s)
       = Db.populate chat s ++ [m]
    /\ m = {| Message._id := nextId s; Message.chat := Chat._id chat;
              Message.sender := sender; Message.content := content;
              Message.selectedDatasets := selected; Message.tempFiles := files |}.
Proof.
  intros chat sender content selected files s [Hc Hm Hcb Hmb Hl] Hin.
  do 2 eexists. split; [|split; [|reflexivity]].
  - unfold Db.Chat_findById, Db.Chat_findOne, appended. simpl.
    apply (find_replaced chat); [reflexivity|exact Hin].
  - unfold Db.populate, appended. simpl. rewrite flat_map_app. simpl.
    rewrite app_nil_r. f_equal.
    + apply flat_map_same. intros id Hid.
      destruct (Hl chat id Hin Hid) as [m [H1 [H2 _]]].
      destruct (find_present _ (fun m0 => Message._id m0 =? id) (messages s) m H1)
        as [y Hy]; [now apply Nat.eqb_eq|].
      now rewrite (find_app_some _ _ _ _ _ Hy), Hy.
    + rewrite find_app_none; [reflexivity| |simpl; apply Nat.eqb_refl].
      destruct (find _ (messages s)) as [y|] eqn:E; [|reflexivity].
      apply find_some in E. destruct E as [Hy Hid]. apply Nat.eqb_eq in Hid.
      specialize (Hmb y Hy). lia.
Qed.

Section Consistency.

Context {rt : Runtime}.

(** The chat resolution keeps the store consistent, keeps its chats and
    messages, and gives a chat of the store. *)
Lemma getOrCreateChat_consistent : forall project chatId pid s s1 chat,
  consistent s ->
  getOrCreateChat project chatId pid s = (s1, inr (Some chat)) ->
  consistent s1
  /\ In chat (chats s1)
  /\ messages s1 = messages s
  /\ (exists created, chats s1 = chats s ++ created).
Proof.
  intros project chatId pid s s1 chat Hs Hres.
  destruct chatId as [id|].
  - rewrite getOrCreateChat_given in Hres. injection Hres as <- Hfind.
    apply find_some in Hfind. split; [assumption|]. split; [tauto|].
    split; [reflexivity|]. exists []. now rewrite app_nil_r.
  - destruct (find (fun c => Chat.project c =? pid) (chats s)) as [c|] eqn:E.
    + rewrite (getOrCreateChat_existing project pid s c E) in Hres.
      injection Hres as <- <-. apply find_some in E.
      split; [assumption|]. split; [tauto|]. split; [reflexivity|].
      exists []. now rewrite app_nil_r.
    + rewrite (getOrCreateChat_created project pid s E) in Hres.
      injection Hres as <- <-. destruct Hs as [Hc Hm Hcb Hmb Hl].
      split; [|split; [|split]]; simpl.
      * constructor; simpl.
        -- rewrite map_app. simpl. apply NoDup_snoc_fresh; [assumption|].
           intros x Hx. apply in_map_iff in Hx. destruct Hx as [c [<- Hc']].
           now apply Hcb.
        -- assumption.
        -- intros c Hc'. apply in_app_iff in Hc'. destruct Hc' as [Hc'|[<-|[]]]; simpl.
           ++ specialize (Hcb c Hc'). lia.
           ++ lia.
        -- intros m Hm'. specialize (Hmb m Hm'). lia.
        -- intros c id Hc' Hid. apply in_app_iff in Hc'.
           destruct Hc' as [Hc'|[<-|[]]]; [now apply (Hl c id)|destruct Hid].
      * apply in_or_app. right. now left.
      * reflexivity.
      * eexists. reflexivity.
Qed.

(** A submission that is answered 200 has resolved a chat and appended its
    message to it. *)
Lemma chatHandler_saved : forall req user s notice cid s',
  run (chatHandler req user) s
  = ({| status := 200; body := SavedBody notice cid |}, s') ->
  exists pid project s1 chat,
    Req.projectId req = Some pid
    /\ getOrCreateChat project (Req.chatId req) pid s = (s1, inr (Some chat))
    /\ Chat._id chat = cid
    /\ s' = appended chat "user" (trimmedContent (Req.content req))
              (selectedDatasetsOf req) (tempFilesOf req) s1.
Proof.
  intros req user s notice cid s' Hrun.
  destruct (Req.projectId req) as [pid|] eqn:Hpid;
    [|unfold chatHandler in Hrun; rewrite Hpid in Hrun; discriminate Hrun].
  destruct (hasContent req || hasFiles req || hasDatasets req) eqn:Hvalid.
  2:{ unfold chatHandler in Hrun. rewrite Hpid in Hrun.
      destruct (hasContent req), (hasFiles req), (hasDatasets req);
        simpl in *; try discriminate Hvalid; discriminate Hrun. }
  destruct (Db.Project_findById pid s) as [project|] eqn:Hproj.
  2:{ unfold chatHandler in Hrun. rewrite Hpid in Hrun.
      destruct (negb (hasContent req) && negb (hasFiles req) && negb (hasDatasets req));
        [discriminate Hrun|].
      revert Hrun. unfold_handler. now rewrite Hproj. }
  destruct (Project.team project) as [team|] eqn:Hteam.
  2:{ unfold chatHandler in Hrun. rewrite Hpid in Hrun.
      destruct (negb (hasContent req) && negb (hasFiles req) && negb (hasDatasets req));
        [discriminate Hrun|].
      revert Hrun. unfold_handler. now rewrite Hproj, Hteam. }
  pose proof (accessCheck_store user team s) as Hs.
  destruct (accessCheck user team s) as [s0 [r|[]]] eqn:Hacc; simpl in Hs; subst s0.
  - exfalso. destruct (chatHandler_refused req user s pid project team r
                         Hpid Hproj Hteam Hacc) as [_ H].
    specialize (H Hvalid). rewrite Hrun in H. simpl in H. subst r.
    unfold accessCheck in Hacc.
    destruct (negb (String.eqb (User.role user) "superadmin")); [|discriminate].
    destruct (negb (Team.organization team =? User.organization user));
      [discriminate|].
    destruct (find _ _); discriminate.
  - rewrite (chatHandler_resolved req user s pid project team
               Hpid Hvalid Hproj Hteam Hacc) in Hrun.
    destruct (getOrCreateChat project (Req.chatId req) pid s)
      as [s1 [r|[chat|]]] eqn:Hres.
    + exfalso. destruct (getOrCreateChat_effect project (Req.chatId req) pid s)
        as [s1' [resolved [Hres' _]]]. congruence.
    + injection Hrun as <- <-. exists pid, project, s1, chat. auto.
    + discriminate Hrun.
Qed.

(** A reply that is answered 200 has appended its message to the chat of
    the request. *)
Lemma aiReplyHandler_saved : forall FASTAPI_URL engine req user s analysis s',
  run (aiReplyHandler FASTAPI_URL engine req user) s
  = ({| status := 200; body := AnalysisBody analysis |}, s') ->
  exists cid chat,
    Req.chatId req = Some cid
    /\ Db.Chat_findById cid s = Some chat
    /\ s' = appended chat "chatbot" (Some (JSON_stringify analysis)) [] [] s.
Proof.
  intros FASTAPI_URL engine req user s analysis s' Hrun.
  revert Hrun. unfold aiReplyHandler.
  destruct (Req.projectId req) as [pid|]; [|discriminate].
  destruct (Req.chatId req) as [cid|]; [|discriminate].
  destruct (trimmedContent (Req.content req)) as [userText|]; [|discriminate].
  unfold_handler.
  destruct (Db.Project_findById pid s) as [project|]; [|discriminate].
  destruct (Db.Chat_findById cid s) as [chat|] eqn:Hchat; [|discriminate].
  destruct (Project.team project) as [team|]; [|discriminate].
  pose proof (accessCheck_store user team s) as Hs.
  destruct (accessCheck user team s) as [s0 [r|[]]] eqn:Hacc; simpl in Hs; subst s0.
  - unfold accessCheck in Hacc.
    destruct (negb (String.eqb (User.role user) "superadmin")); [|discriminate].
    destruct (negb (Team.organization team =? User.organization user)).
    + injection Hacc as <-. discriminate.
    + destruct (find _ _); [discriminate|]. injection Hacc as <-. discriminate.
  - destruct (apiUrl FASTAPI_URL) as [url|]; [|discriminate].
    destruct (Axios.post _ _ _ _) as [response|e]; [|discriminate].
    intros H. injection H as <- <-. exists cid, chat. auto.
Qed.

End Consistency.

Lemma extends_refl : forall s, extends s s.
Proof.
  intros s. split.
  - exists []. now rewrite app_nil_r.
  - intros c Hc. exists c, []. rewrite app_nil_r. tauto.
Qed.

Lemma extends_trans : forall s1 s2 s3,
  extends s1 s2 -> extends s2 s3 -> extends s1 s3.
Proof.
  intros s1 s2 s3 [[a Ha] Hc] [[b Hb] Hd]. split.
  - exists (a ++ b). now rewrite Hb, Ha, app_assoc.
  - intros c Hin. destruct (Hc c Hin) as [c' [x [H1 [H2 [H3 H4]]]]].
    destruct (Hd c' H1) as [c'' [y [G1 [G2 [G3 G4]]]]].
    exists c'', (x ++ y). rewrite G4, H4, app_assoc.
    repeat split; congruence.
Qed.

Lemma appended_extends : forall chat sender content selected files s,
  consistent s ->
  In chat (chats s) ->
  extends s (appended chat sender content selected files s).
Proof.
  intros chat sender content selected files s Hs Hin. split.
  - eexists. reflexivity.
  - intros c Hc. unfold appended. simpl.
    destruct (Nat.eq_dec (Chat._id c) (Chat._id chat)) as [E|E].
    + assert (c = chat)
        by (apply (NoDup_map_eq _ _ Chat._id (chats s));
            [apply (chat_ids_distinct Hs)|assumption|assumption|assumption]).
      subst c. do 2 eexists. split.
      * apply in_map_iff. exists chat. rewrite Nat.eqb_refl. split; [reflexivity|assumption].
      * simpl. repeat split; reflexivity.
    + exists c, []. rewrite app_nil_r. split; [|tauto].
      apply in_map_iff. exists c. apply Nat.eqb_neq in E. rewrite E. tauto.
Qed.

(** The store a rename leaves: the one it found, or that store with one
    chat under a new title. *)
Lemma renameChat_store : forall req user s,
  fst (renameChat req user s) = s
  \/ exists before c after title,
       chats s = before ++ c :: after
       /\ fst (renameChat req user s)
          = {| projects := projects s;
               chats := before ++ withTitle title c :: after;
               messages := messages s; nextId := nextId s |}.
Proof.
  intros req user s. unfold renameChat.
  destruct (RenameReq.chatId req) as [cid|]; [|now left].
  destruct (RenameReq.projectId req) as [pid|]; [|now left].
  destruct (RenameReq.title req) as [title|]; [|now left].
  destruct (JS.nonEmpty title && JS.nonEmpty (JS.trim title)); [|now left].
  simpl. unfold_handler.
  destruct (Db.Project_findById pid s) as [project|]; [|now left].
  destruct (Project.team project) as [team|]; [|now left].
  pose proof (accessCheck_store user team s) as Hs.
  destruct (accessCheck user team s) as [s0 [r|[]]]; simpl in Hs; subst s0;
    [now left|].
  unfold Chat_findOneAndUpdate.
  pose proof (updateFirst_spec
                (fun c => (Chat._id c =? cid) && (Chat.project c =? pid))
                (withTitle (JS.trim title)) (chats s)) as Hupd.
  destruct (updateFirst _ _ (chats s)) as [[u|] l'].
  - destruct Hupd as [before [c [after [H1 [_ [_ H4]]]]]].
    right. exists before, c, after, (JS.trim title). subst l'. simpl. tauto.
  - destruct Hupd as [-> _]. left. simpl. now destruct s.
Qed.

(** The store a manual creation leaves: the one it found, or that store
    with one chat more. *)
Lemma createChatManually_store : forall projectId user s,
  fst (createChatManually projectId user s) = s
  \/ exists pid projects',
       fst (createChatManually projectId user s)
       = {| projects := projects';
            chats := chats s ++ [{| Chat._id := nextId s; Chat.project := pid;
                                    Chat.title := "New chat"; Chat.messages := [] |}];
            messages := messages s; nextId := S (nextId s) |}.
Proof.
  intros [pid|] user s; unfold createChatManually; [|now left].
  unfold_handler.
  destruct (Db.Project_findById pid s) as [project|]; [|now left].
  destruct (Project.team project) as [team|]; [|now left].
  pose proof (accessCheck_store user team s) as Hs.
  destruct (accessCheck user team s) as [s0 [r|[]]]; simpl in Hs; subst s0;
    [now left|].
  right. simpl. do 2 eexists. reflexivity.
Qed.

Lemma created_consistent : forall pid projects' s,
  consistent s ->
  consistent {| projects := projects';
                chats := chats s ++ [{| Chat._id := nextId s; Chat.project := pid;
                                        Chat.title := "New chat";
                                        Chat.messages := [] |}];
                messages := messages s; nextId := S (nextId s) |}.
Proof.
  intros pid projects' s [Hc Hm Hcb Hmb Hl]. constructor; simpl.
  - rewrite map_app. simpl. apply NoDup_snoc_fresh; [assumption|].
    intros x Hx. apply in_map_iff in Hx. destruct Hx as [c [<- Hc']]. now apply Hcb.
  - assumption.
  - intros c Hc'. apply in_app_iff in Hc'. destruct Hc' as [Hc'|[<-|[]]]; simpl.
    + specialize (Hcb c Hc'). lia.
    + lia.
  - intros m Hm'. specialize (Hmb m Hm'). lia.
  - intros c id Hc' Hid. apply in_app_iff in Hc'.
    destruct Hc' as [Hc'|[<-|[]]]; [now apply (Hl c id)|destruct Hid].
Qed.

Lemma renamed_consistent : forall before c after title s,
  consistent s ->
  chats s = before ++ c :: after ->
  consistent {| projects := projects s;
                chats := before ++ withTitle title c :: after;
                messages := messages s; nextId := nextId s |}.
Proof.
  intros before c after title s [Hc Hm Hcb Hmb Hl] Hchats.
  rewrite Hchats in Hc, Hcb, Hl. constructor; simpl.
  - rewrite map_app in *. exact Hc.
  - assumption.
  - intros d Hd. apply in_app_iff in Hd. destruct Hd as [Hd|[<-|Hd]].
    + apply Hcb. apply in_or_app. now left.
    + apply (Hcb c). apply in_or_app. right. now left.
    + apply Hcb. apply in_or_app. right. now right.
  - assumption.
  - intros d id Hd Hid. apply in_app_iff in Hd. destruct Hd as [Hd|[<-|Hd]].
    + apply (Hl d id); [|assumption]. apply in_or_app. now left.
    + apply (Hl c id); [|assumption]. apply in_or_app. right. now left.
    + apply (Hl d id); [|assumption]. apply in_or_app. right. now right.
Qed.

Lemma renamed_extends : forall before c after title s,
  chats s = before ++ c :: after ->
  extends s {| projects := projects s;
               chats := before ++ withTitle title c :: after;
               messages := messages s; nextId := nextId s |}.
Proof.
  intros before c after title s Hchats. split; simpl.
  - exists []. now rewrite app_nil_r.
  - intros d Hd. rewrite Hchats in Hd. apply in_app_iff in Hd.
    destruct Hd as [Hd|[<-|Hd]].
    + exists d, []. rewrite app_nil_r, in_app_iff. tauto.
    + exists (withTitle title c), []. rewrite app_nil_r, in_app_iff. simpl. tauto.
    + exists d, []. rewrite app_nil_r, in_app_iff. simpl. tauto.
Qed.

Section Invariants.

Context {rt : Runtime}.

(** X7.  The handlers that write keep the store consistent: identifiers
    stay distinct, and every identifier listed in a chat stays that of a
    stored message of that chat. *)
Theorem handlers_keep_the_store_consistent :
  forall FASTAPI_URL (engine : Engine) (req : Req.t) (renameReq : RenameReq.t)
         (projectId : option ObjectId) (user : User.t) (s : Store),
    consistent s ->
    consistent (snd (run (chatHandler req user) s))
    /\ consistent (snd (run (aiReplyHandler FASTAPI_URL engine req user) s))
    /\ consistent (fst (renameChat renameReq user s))
    /\ consistent (fst (createChatManually projectId user s)).
Proof.
  intros FASTAPI_URL engine req renameReq projectId user s Hs.
  split; [|split; [|split]].
  - destruct (chatHandler_effect req user s)
      as [->|[pid [project [s1 [chat [_ [Hres ->]]]]]]]; [assumption|].
    destruct (getOrCreateChat_consistent project (Req.chatId req) pid s s1 chat
                Hs Hres) as [Hs1 [Hin _]].
    now apply (appended_consistent chat).
  - destruct (aiReplyHandler_effect FASTAPI_URL engine req user s)
      as [->|[chat [analysis Hrun]]]; [assumption|].
    destruct (aiReplyHandler_saved FASTAPI_URL engine req user s analysis _ Hrun)
      as [cid [chat0 [_ [Hchat He]]]].
    rewrite Hrun. cbn [snd]. rewrite He. apply find_some in Hchat.
    apply (appended_consistent chat0); tauto.
  - destruct (renameChat_store renameReq user s)
      as [->|[before [c [after [title [Hchats ->]]]]]]; [assumption|].
    now apply renamed_consistent.
  - destruct (createChatManually_store projectId user s)
      as [->|[pid [projects' ->]]]; [assumption|].
    now apply created_consistent.
Qed.

(** X8.  The handlers that write only append: on a consistent store, each
    of them leaves every stored message unchanged and in place, adding new
    ones after them at most, and leaves every chat in its project with its
    list of messages extended at most. *)
Theorem handlers_only_append :
  forall FASTAPI_URL (engine : Engine) (req : Req.t) (renameReq : RenameReq.t)
         (projectId : option ObjectId) (user : User.t) (s : Store),
    consistent s ->
    extends s (snd (run (chatHandler req user) s))
    /\ extends s (snd (run (aiReplyHandler FASTAPI_URL engine req user) s))
    /\ extends s (fst (renameChat renameReq user s))
    /\ extends s (fst (createChatManually projectId user s)).
Proof.
  intros FASTAPI_URL engine req renameReq projectId user s Hs.
  split; [|split; [|split]].
  - destruct (chatHandler_effect req user s)
      as [->|[pid [project [s1 [chat [_ [Hres ->]]]]]]]; [apply extends_refl|].
    destruct (getOrCreateChat_consistent project (Req.chatId req) pid s s1 chat
                Hs Hres) as [Hs1 [Hin [Hmsg [created Hchats]]]].
    apply (extends_trans s s1).
    + split.
      * exists []. now rewrite app_nil_r.
      * intros c Hc. exists c, []. rewrite app_nil_r, Hchats, in_app_iff. tauto.
    + now apply (appended_extends chat).
  - destruct (aiReplyHandler_effect FASTAPI_URL engine req user s)
      as [->|[chat [analysis Hrun]]]; [apply extends_refl|].
    destruct (aiReplyHandler_saved FASTAPI_URL engine req user s analysis _ Hrun)
      as [cid [chat0 [_ [Hchat He]]]].
    rewrite Hrun. cbn [snd]. rewrite He. apply find_some in Hchat.
    apply (appended_extends chat0); tauto.
  - destruct (renameChat_store renameReq user s)
      as [->|[before [c [after [title [Hchats ->]]]]]]; [apply extends_refl|].
    now apply renamed_extends.
  - destruct (createChatManually_store projectId user s)
      as [->|[pid [projects' ->]]]; [apply extends_refl|].
    split; simpl.
    + exists []. now rewrite app_nil_r.
    + intros c Hc. exists c, []. rewrite app_nil_r, in_app_iff. tauto.
Qed.

End Invariants.

(** ** A message and the history loaded next *)

Lemma selected_in_allDatasetIds : forall h m k,
  In k (map String_ (Message.selectedDatasets m)) ->
  In k (allDatasetIds (h ++ [m])).
Proof.
  intros h m k Hk. apply allDatasetIds_In. unfold Spec.selectedKeys.
  rewrite flat_map_app, map_app, in_app_iff. right. simpl. now rewrite app_nil_r.
Qed.

Section NextHistory.

Context {rt : Runtime}.

(** X9.  On a consistent store, after a submission answered 200 the history
    of the chat named in the answer is the history that chat had, followed
    by the new message: sender "user", the trimmed text, the normalised
    selection and the CSV files of the request.  The context of the next
    reply therefore ends with that text under role "user", and its dataset
    identifiers include the selection. *)
Theorem submitted_message_ends_the_history :
  forall (req : Req.t) (user : User.t) (s s' : Store) notice cid,
    consistent s ->
    run (chatHandler req user) s
    = ({| status := 200; body := SavedBody notice cid |}, s') ->
    exists chat' older m,
      Db.Chat_findById cid s' = Some chat'
      /\ Db.populate chat' s' = older ++ [m]
      /\ (forall chat, Db.Chat_findById cid s = Some chat ->
                       older = Db.populate chat s)
      /\ Message.sender m = "user"
      /\ Message.content m = trimmedContent (Req.content req)
      /\ Message.selectedDatasets m = selectedDatasetsOf req
      /\ Message.tempFiles m = tempFilesOf req
      /\ (exists turns,
            recentHistory (Db.populate chat' s')
            = turns ++ [{| role := "user";
                           text := trimmedContent (Req.content req) |}])
      /\ forall k, In k (map String_ (selectedDatasetsOf req)) ->
                   In k (allDatasetIds (Db.populate chat' s')).
Proof.
  intros req user s s' notice cid Hs Hrun.
  destruct (chatHandler_saved req user s notice cid s' Hrun)
    as [pid [project [s1 [chat [_ [Hres [Hcid ->]]]]]]].
  destruct (getOrCreateChat_consistent project (Req.chatId req) pid s s1 chat
              Hs Hres) as [Hs1 [Hin [Hmsg [created Hchats]]]].
  destruct (appended_history chat "user" (trimmedContent (Req.content req))
              (selectedDatasetsOf req) (tempFilesOf req) s1 Hs1 Hin)
    as [chat' [m [Hfind [Hpop Hm]]]].
  rewrite Hcid in Hfind.
  exists chat', (Db.populate chat s1), m.
  split; [exact Hfind|]. split; [exact Hpop|]. split.
  - intros chat0 Hchat0. unfold Db.Chat_findById, Db.Chat_findOne in Hchat0.
    apply find_some in Hchat0. destruct Hchat0 as [Hin0 Hid0].
    apply Nat.eqb_eq in Hid0.
    assert (chat0 = chat).
    { apply (NoDup_map_eq _ _ Chat._id (chats s1));
        [apply (chat_ids_distinct Hs1)| |assumption|congruence].
      rewrite Hchats. apply in_or_app. now left. }
    subst chat0. unfold Db.populate. now rewrite Hmsg.
  - subst m. simpl. repeat (split; [reflexivity|]). split.
    + rewrite Hpop. destruct (recentHistory_snoc (Db.populate chat s1)
                                {| Message._id := nextId s1;
                                   Message.chat := Chat._id chat;
                                   Message.sender := "user";
                                   Message.content := trimmedContent (Req.content req);
                                   Message.selectedDatasets := selectedDatasetsOf req;
                                   Message.tempFiles := tempFilesOf req |})
        as [turns Hturns].
      exists turns. exact Hturns.
    + intros k Hk. rewrite Hpop. now apply selected_in_allDatasetIds.
Qed.

(** X10.  On a consistent store, after a reply answered 200 the history of
    the chat is the history the engine was given, followed by the new
    message: sender "chatbot", the serialised analysis as its text.  In the
    context of the next reply it is the last turn, under role
    "assistant". *)
Theorem reply_message_ends_the_history :
  forall FASTAPI_URL (engine : Engine) (req : Req.t) (user : User.t)
         (s s' : Store) analysis,
    consistent s ->
    run (aiReplyHandler FASTAPI_URL engine req user) s
    = ({| status := 200; body := AnalysisBody analysis |}, s') ->
    exists cid chat chat' m,
      Req.chatId req = Some cid
      /\ Db.Chat_findById cid s = Some chat
      /\ Db.Chat_findById cid s' = Some chat'
      /\ Db.populate chat' s' = Db.populate chat s ++ [m]
      /\ Message.sender m = "chatbot"
      /\ Message.content m = Some (JSON_stringify analysis)
      /\ exists turns,
           recentHistory (Db.populate chat' s')
           = turns ++ [{| role := "assistant";
                          text := Some (JSON_stringify analysis) |}].
Proof.
  intros FASTAPI_URL engine req user s s' analysis Hs Hrun.
  destruct (aiReplyHandler_saved FASTAPI_URL engine req user s analysis s' Hrun)
    as [cid [chat [Hcid [Hchat ->]]]].
  pose proof (find_some _ _ Hchat) as [Hin Hid]. apply Nat.eqb_eq in Hid.
  destruct (appended_history chat "chatbot" (Some (JSON_stringify analysis))
              [] [] s Hs Hin) as [chat' [m [Hfind [Hpop Hm]]]].
  rewrite Hid in Hfind.
  exists cid, chat, chat', m.
  split; [exact Hcid|]. split; [exact Hchat|]. split; [exact Hfind|].
  split; [exact Hpop|]. subst m. simpl. split; [reflexivity|]. split; [reflexivity|].
  rewrite Hpop.
  destruct (recentHistory_snoc (Db.populate chat s)
              {| Message._id := nextId s; Message.chat := Chat._id chat;
                 Message.sender := "chatbot";
                 Message.content := Some (JSON_stringify analysis);
                 Message.selectedDatasets := []; Message.tempFiles := [] |})
    as [turns Hturns].
  exists turns. exact Hturns.
Qed.

End NextHistory.

(** ** More on the context of a reply *)

(** X11.  Dataset accumulation is monotone: when a history grows, the set
    of identifiers keeps its entries in their places and gains the new
    identifiers after them, in first-seen order; every registry entry of
    the shorter history is one of the longer, and so is every uploaded
    file. *)
Theorem dataset_accumulation_is_monotone :
  forall (project : Project.t) (h later : list Message.t),
    allDatasetIds (h ++ later)
    = allDatasetIds h
      ++ Spec.firstSeen (allDatasetIds h) (Spec.selectedKeys later)
    /\ (forall d,
          In d (resolvedRefs (Project.datasets project) (allDatasetIds h)) ->
          In d (resolvedRefs (Project.datasets project)
                             (allDatasetIds (h ++ later))))
    /\ allUploadedFiles (h ++ later)
       = allUploadedFiles h ++ allUploadedFiles later.
Proof.
  intros project h later.
  assert (E : allDatasetIds (h ++ later)
              = allDatasetIds h
                ++ Spec.firstSeen (allDatasetIds h) (Spec.selectedKeys later)).
  { unfold allDatasetIds at 1. rewrite fold_left_app.
    fold (allDatasetIds h). apply collect_firstSeen. }
  split; [exact E|]. split; [|apply allUploadedFiles_app].
  intros d. unfold resolvedRefs. rewrite !in_map_iff.
  intros [x [Hx Hin]]. exists x. split; [exact Hx|].
  apply filter_In in Hin. apply filter_In. split; [tauto|].
  destruct Hin as [_ Hhas]. apply has_In in Hhas. apply has_In.
  rewrite E. apply in_or_app. now left.
Qed.

(** X12.  The window holds the last five messages or, of a shorter
    history, all of them: its length is the smaller of five and the length
    of the history, and for at most five messages it is the whole history,
    turn by turn. *)
Theorem recentHistory_window :
  forall allMessages : list Message.t,
    length (recentHistory allMessages) = Nat.min 5 (length allMessages)
    /\ (length allMessages <= 5 ->
        recentHistory allMessages
        = map (fun msg =>
                 {| role := if String.eqb (Message.sender msg) "user"
                            then "user" else "assistant";
                    text := Message.content msg |})
              allMessages).
Proof.
  intros allMessages. unfold recentHistory, JS.slice.
  change ((-5 <? 0)%Z) with true. cbv iota. split.
  - replace (Z.to_nat (Z.max (Z.of_nat (length allMessages) + -5) 0))
      with (length allMessages - 5) by lia.
    rewrite length_map, length_skipn.
    destruct (Nat.min_spec 5 (length allMessages)) as [[Hlt ->]|[Hle ->]]; lia.
  - intros H.
    replace (Z.to_nat (Z.max (Z.of_nat (length allMessages) + -5) 0)) with 0 by lia.
    reflexivity.
Qed.

Lemma uploadRefs_length : forall files index,
  length (uploadRefs index files) = length files.
Proof.
  induction files as [|f l IH]; intros index; simpl; [reflexivity|].
  now rewrite IH.
Qed.

Lemma uploadRefs_urls : forall files index,
  Forall (fun d => ref_url d = "Current Upload") (uploadRefs index files).
Proof.
  induction files as [|f l IH]; intros index; simpl; constructor;
    [reflexivity|apply IH].
Qed.

Lemma uploadRefs_names : forall files index,
  Forall (fun f => JS.orString (TempFile.originalname f) EmptyString <> EmptyString)
         files ->
  map ref_name (uploadRefs index files)
  = map (fun f => JS.orString (TempFile.originalname f) "dataset.csv") files.
Proof.
  induction files as [|f l IH]; intros index H; simpl; [reflexivity|].
  inversion H as [|x xs Hf Hl]; subst. rewrite (IH (S index) Hl). f_equal.
  unfold JS.orString in *. destruct (TempFile.originalname f) as [n|]; [|congruence].
  destruct (JS.nonEmpty n); [reflexivity|congruence].
Qed.

Section Uploads.

Context {rt : Runtime}.

Lemma attachments_replyForm : forall userText project allMessages,
  attachments (replyForm userText project allMessages)
  = map (fun f => ("files",
                   JS.orString (TempFile.originalname f) "dataset.csv",
                   base64_decode match TempFile.bufferBase64 f with
                                 | Some b => b
                                 | None => EmptyString
                                 end))
        (allUploadedFiles allMessages).
Proof.
  intros. unfold replyForm, fileParts. simpl.
  induction (allUploadedFiles allMessages) as [|f l IH]; simpl; [reflexivity|].
  now rewrite IH.
Qed.

(** X13.  The context of a reply describes each attached file once: after
    the registry entries come as many "Current Upload" entries as the form
    has file parts, in the same order, and when every file has a name the
    entries carry the file names of the parts. *)
Theorem upload_descriptors_match_attachments :
  forall (userText : string) (project : Project.t) (allMessages : list Message.t),
    exists uploads,
      datasetsContext project allMessages
      = resolvedRefs (Project.datasets project) (allDatasetIds allMessages)
        ++ uploads
      /\ length uploads
         = length (attachments (replyForm userText project allMessages))
      /\ Forall (fun d => ref_url d = "Current Upload") uploads
      /\ (Forall (fun f => JS.orString (TempFile.originalname f) EmptyString
                           <> EmptyString)
                 (allUploadedFiles allMessages) ->
          map ref_name uploads
          = map (fun a => snd (fst a))
                (attachments (replyForm userText project allMessages))).
Proof.
  intros userText project allMessages.
  exists (uploadRefs 0 (allUploadedFiles allMessages)).
  rewrite attachments_replyForm, length_map, uploadRefs_length.
  split; [reflexivity|]. split; [reflexivity|]. split; [apply uploadRefs_urls|].
  intros H. rewrite (uploadRefs_names _ 0 H), map_map. reflexivity.
Qed.

End Uploads.

(** ** Trimming and splitting *)

Lemma dropWhileEnd_idem : forall p s,
  JS.dropWhileEnd p (JS.dropWhileEnd p s) = JS.dropWhileEnd p s.
Proof.
  intros p. induction s as [|c s IH]; [reflexivity|].
  simpl. destruct (JS.dropWhileEnd p s) as [|x y] eqn:E.
  - destruct (p c) eqn:Hc; [reflexivity|]. simpl. now rewrite Hc.
  - simpl. simpl in IH. now rewrite IH.
Qed.

Lemma dropWhileEnd_head : forall p c r,
  p c = false -> exists r', JS.dropWhileEnd p (String c r) = String c r'.
Proof.
  intros p c r Hc. simpl. destruct (JS.dropWhileEnd p r) as [|x y].
  - rewrite Hc. now exists EmptyString.
  - now exists (String x y).
Qed.

Lemma dropWhile_head : forall p s,
  JS.dropWhile p s = EmptyString
  \/ exists c r, JS.dropWhile p s = String c r /\ p c = false.
Proof.
  intros p. induction s as [|c s IH]; [now left|].
  simpl. destruct (p c) eqn:Hc; [exact IH|]. right. now exists c, s.
Qed.

(** A trimmed string is left as it is by [trim]. *)
Lemma trim_trim : forall s, JS.trim (JS.trim s) = JS.trim s.
Proof.
  intros s. unfold JS.trim.
  destruct (dropWhile_head JS.isWhiteSpace s) as [->|[c [r [-> Hc]]]]; [reflexivity|].
  destruct (dropWhileEnd_head JS.isWhiteSpace c r Hc) as [r' Hr].
  rewrite Hr at 1. simpl JS.dropWhile. rewrite Hc, <- Hr.
  apply dropWhileEnd_idem.
Qed.

Lemma includes_dropWhile : forall c p s,
  JS.includes c s = false -> JS.includes c (JS.dropWhile p s) = false.
Proof.
  intros c p. induction s as [|d s IH]; [trivial|].
  simpl. intros H. apply orb_false_iff in H. destruct H as [H1 H2].
  destruct (p d); [now apply IH|]. simpl. now rewrite H1, H2.
Qed.

Lemma includes_dropWhileEnd : forall c p s,
  JS.includes c s = false -> JS.includes c (JS.dropWhileEnd p s) = false.
Proof.
  intros c p. induction s as [|d s IH]; [trivial|].
  simpl. intros H. apply orb_false_iff in H. destruct H as [H1 H2].
  specialize (IH H2). destruct (JS.dropWhileEnd p s) as [|x y].
  - destruct (p d); [reflexivity|]. simpl. now rewrite H1.
  - simpl. simpl in IH. now rewrite H1, IH.
Qed.

Lemma includes_trim : forall c s,
  JS.includes c s = false -> JS.includes c (JS.trim s) = false.
Proof.
  intros c s H. unfold JS.trim.
  now apply includes_dropWhileEnd, includes_dropWhile.
Qed.

(** No piece of a split contains the separator. *)
Lemma split_pieces : forall c s,
  Forall (fun piece => JS.includes c piece = false) (JS.split c s).
Proof.
  intros c. induction s as [|d s IH]; simpl.
  - constructor; [reflexivity|constructor].
  - destruct (Ascii.eqb d c) eqn:E.
    + constructor; [reflexivity|exact IH].
    + destruct (JS.split c s) as [|h t].
      * constructor; [simpl; now rewrite E|constructor].
      * inversion IH as [|x xs Hh Ht]; subst.
        constructor; [simpl; now rewrite E, Hh|exact Ht].
Qed.

Section Selection.

Context {rt : Runtime}.

(** X14.  When the selection is a string that is not JSON and has a comma,
    every identifier that comes out is a non-empty string, trimmed and
    without a comma: the empty pieces between commas are dropped. *)
Theorem comma_separated_ids_are_clean :
  forall s : string,
    JSON_parse s = None ->
    JS.includes ","%char s = true ->
    Forall (fun v => exists id,
                       v = JStr id
                       /\ JS.nonEmpty id = true
                       /\ JS.trim id = id
                       /\ JS.includes ","%char id = false)
           (parseSelectedDatasets (JStr s)).
Proof.
  intros s Hparse Hcomma. unfold parseSelectedDatasets.
  replace (truthy (JStr s)) with true by (destruct s; [discriminate Hcomma|reflexivity]).
  simpl. rewrite Hparse, Hcomma.
  pose proof (split_pieces ","%char s) as Hpieces.
  induction (JS.split ","%char s) as [|piece l IH]; simpl; [constructor|].
  inversion Hpieces as [|x xs Hp Hl]; subst.
  destruct (JS.nonEmpty (JS.trim piece)) eqn:E; simpl; [|now apply IH].
  constructor; [|now apply IH].
  exists (JS.trim piece). split; [reflexivity|]. split; [exact E|].
  split; [apply trim_trim|now apply includes_trim].
Qed.

Lemma fieldValues_files : forall name (files : list Frontend.File),
  Frontend.fieldValues name
    (map (fun f => FilePart "files" (Frontend.fileData f) (Frontend.fileName f)
                            (Frontend.fileType f)) files) = [].
Proof.
  intros name. induction files as [|f l IH]; simpl; [reflexivity|exact IH].
Qed.

(** X15.  The selection survives the way from the chat page to the submit
    operation: for an array of identifiers that JSON carries faithfully,
    the form of [sendUserMessage] has one [selectedDatasets] field, and
    [parseSelectedDatasets] gives back the array from its text; for the
    empty array the form has no such field, and the missing field is read
    as the empty array. *)
Theorem selection_round_trip :
  forall (a : Frontend.SendArgs) (ids : list jsval),
    Frontend.send_selectedDatasetIds a = JArr ids ->
    JSON_parse (JSON_stringify (JArr ids)) = Some (JArr ids) ->
    JSON_stringify (JArr ids) <> EmptyString ->
    match ids with
    | [] =>
        Frontend.fieldValues "selectedDatasets" (Frontend.sendUserMessage a) = []
        /\ parseSelectedDatasets JUndefined = ids
    | _ =>
        Frontend.fieldValues "selectedDatasets" (Frontend.sendUserMessage a)
        = [JSON_stringify (JArr ids)]
        /\ parseSelectedDatasets (JStr (JSON_stringify (JArr ids))) = ids
    end.
Proof.
  intros a ids Hsel Hround Hne.
  assert (Hfields : Frontend.fieldValues "selectedDatasets" (Frontend.sendUserMessage a)
                    = if Frontend.hasLength (JArr ids)
                      then [JSON_stringify (JArr ids)] else []).
  { unfold Frontend.sendUserMessage, Frontend.fieldValues.
    rewrite !flat_map_app.
    fold (Frontend.fieldValues "selectedDatasets"
            (map (fun f => FilePart "files" (Frontend.fileData f) (Frontend.fileName f)
                                    (Frontend.fileType f)) (Frontend.send_files a))).
    rewrite fieldValues_files, Hsel.
    destruct (Frontend.send_content a) as [c|]; [destruct (JS.nonEmpty c)|];
      destruct (Frontend.send_chatId a), (Frontend.send_projectId a);
      destruct (Frontend.hasLength (JArr ids)); reflexivity. }
  destruct ids as [|id ids].
  - split; [exact Hfields|reflexivity].
  - split; [exact Hfields|].
    unfold parseSelectedDatasets.
    replace (truthy (JStr (JSON_stringify (JArr (id :: ids))))) with true
      by (simpl; destruct (JSON_stringify (JArr (id :: ids))); [congruence|reflexivity]).
    simpl. now rewrite Hround.
Qed.

(** X16.  When [handleSend] sends, the text it shows and sends is not empty
    and trimmed: the typed text without surrounding white space, or
    "Analyze these" when nothing was typed and there is a selection or a
    file.  The submit and reply operations keep that text as it is, and the
    history shows the stored user message with the same text. *)
Theorem handleSend_text :
  forall (p : Frontend.Page) send reply,
    Frontend.handleSend p = Some (send, reply) ->
    Frontend.send_content send = Some (Frontend.reply_content reply)
    /\ Frontend.send_projectId send = Frontend.reply_projectId reply
    /\ Frontend.send_chatId send = Frontend.reply_chatId reply
    /\ (Frontend.reply_content reply = JS.trim (Frontend.input p)
        \/ (JS.trim (Frontend.input p) = EmptyString
            /\ Frontend.reply_content reply = "Analyze these"
            /\ (Frontend.attachFiles p <> []
                \/ exists id ids,
                     Frontend.send_selectedDatasetIds send = JArr (id :: ids))))
    /\ trimmedContent (Frontend.send_content send)
       = Some (Frontend.reply_content reply)
    /\ forall m,
         Message.sender m = "user" ->
         Message.content m = trimmedContent (Frontend.send_content send) ->
         Frontend.historyBubbles m
         = [Frontend.UserBubble (Frontend.reply_content reply)].
Proof.
  intros p send reply. unfold Frontend.handleSend.
  destruct (Frontend.selectedProjectId p) as [pid|]; [|discriminate].
  destruct (Frontend.activeChat p) as [cid|]; [|discriminate].
  assert (Hshown : forall text,
            trimmedContent (Some text) = Some text ->
            forall m, Message.sender m = "user" ->
                      Message.content m = trimmedContent (Some text) ->
                      Frontend.historyBubbles m = [Frontend.UserBubble text]).
  { intros text Htext m Hsender Hcontent. unfold Frontend.historyBubbles.
    rewrite Hsender, Hcontent, Htext. simpl.
    unfold trimmedContent in Htext.
    destruct (JS.nonEmpty (JS.trim text)) eqn:E; [|discriminate].
    injection Htext as Htext. rewrite Htext in E. now rewrite E. }
  destruct (JS.nonEmpty (JS.trim (Frontend.input p))) eqn:Htyped; simpl.
  - intros H. injection H as <- <-. simpl.
    assert (Htext : trimmedContent (Some (JS.trim (Frontend.input p)))
                    = Some (JS.trim (Frontend.input p)))
      by (unfold trimmedContent; now rewrite trim_trim, Htyped).
    repeat (split; [reflexivity|]). split; [now left|].
    split; [exact Htext|]. now apply Hshown.
  - destruct (match Frontend.storedSelection (Frontend.stored p) with
              | JArr (_ :: _) => true
              | _ => false
              end
              || match Frontend.attachFiles p with [] => false | _ => true end)
      eqn:Hany; simpl; [|discriminate].
    intros H. injection H as <- <-. simpl.
    repeat (split; [reflexivity|]).
    split; [|split; [reflexivity|intros m Hs Hc;
                                 exact (Hshown "Analyze these" eq_refl m Hs Hc)]].
    right. split; [now destruct (JS.trim (Frontend.input p))|].
    split; [reflexivity|].
    destruct (Frontend.attachFiles p) as [|f l]; [right|left; discriminate].
    rewrite orb_false_r in Hany.
    destruct (Frontend.storedSelection (Frontend.stored p)) as [| | | | | |[|id ids]|];
      try discriminate Hany.
    now exists id, ids.
Qed.

End Selection.

(** ** What the chat page shows for an answer *)

Lemma analysisParts_primitive : forall v,
  (forall fields, v <> JObj fields) -> Frontend.analysisParts v = [].
Proof.
  intros v Hv. destruct v; try reflexivity. now contradiction (Hv fields).
Qed.

Section Shown.

Context {rt : Runtime}.

(** X17.  An answer is shown the same way when it arrives and when the
    chat is opened again, up to one case.  For an analysis other than
    [null] and [undefined] that JSON carries faithfully, the bubbles
    [openChat] makes of the message stored by the reply operation are the
    bubbles [handleSend] added for the answer; when that answer had no
    insights, no chart and no error, so that nothing was added, the history
    shows "No content." instead. *)
Theorem stored_answer_is_shown_as_it_was_live :
  forall FASTAPI_URL (engine : Engine) (req : Req.t) (user : User.t)
         (s s' : Store) analysis,
    consistent s ->
    run (aiReplyHandler FASTAPI_URL engine req user) s
    = ({| status := 200; body := AnalysisBody analysis |}, s') ->
    analysis <> JNull ->
    analysis <> JUndefined ->
    JSON_parse (JSON_stringify analysis) = Some analysis ->
    exists cid chat' older m,
      Req.chatId req = Some cid
      /\ Db.Chat_findById cid s' = Some chat'
      /\ Db.populate chat' s' = older ++ [m]
      /\ Frontend.historyBubbles m
         = match Frontend.liveBubbles analysis with
           | [] => [Frontend.BotText (JStr "No content.")]
           | parts => parts
           end.
Proof.
  intros FASTAPI_URL engine req user s s' analysis Hs Hrun Hnull Hundef Hround.
  destruct (aiReplyHandler_saved FASTAPI_URL engine req user s analysis s' Hrun)
    as [cid [chat [Hcid [Hchat ->]]]].
  pose proof (find_some _ _ Hchat) as [Hin Hid]. apply Nat.eqb_eq in Hid.
  destruct (appended_history chat "chatbot" (Some (JSON_stringify analysis))
              [] [] s Hs Hin) as [chat' [m [Hfind [Hpop Hm]]]].
  rewrite Hid in Hfind.
  exists cid, chat', (Db.populate chat s), m.
  split; [exact Hcid|]. split; [exact Hfind|]. split; [exact Hpop|].
  subst m. unfold Frontend.historyBubbles, Frontend.liveBubbles.
  cbn [Message.sender Message.content]. rewrite Hround.
  change (String.eqb "chatbot" "chatbot") with true. cbv iota.
  destruct analysis as [| |b|r|t|h|items|fields];
    try (now contradiction Hnull); try (now contradiction Hundef);
    try (rewrite analysisParts_primitive by discriminate;
         now destruct (truthy _)).
  reflexivity.
Qed.

End Shown.

(** ** From the upload to the engine *)

Section Bytes.

Context {rt : Runtime}.

(** X18.  The bytes of an upload reach the engine as they were sent.  When
    the last message of a history is the user message of a submission, and
    base64 decoding undoes the encoding on the uploaded contents, the form
    of the next reply has the file parts it would have had without that
    message, followed by one part for each upload of the submission that is
    a CSV file with content, in upload order, under its own name (or
    "dataset.csv") and with the uploaded bytes. *)
Theorem uploaded_bytes_reach_the_engine :
  forall (userText : string) (project : Project.t) (older : list Message.t)
         (m : Message.t) (req : Req.t),
    Message.sender m = "user" ->
    Message.tempFiles m = tempFilesOf req ->
    Forall (fun f => forall b, Upload.buffer f = Some b ->
                               base64_decode (base64_encode b) = b)
           (Req.files req) ->
    attachments (replyForm userText project (older ++ [m]))
    = attachments (replyForm userText project older)
      ++ flat_map
           (fun f =>
              match Upload.buffer f with
              | Some b =>
                  if isCsv f && JS.nonEmpty (base64_encode b)
                  then [("files",
                         JS.orString (Upload.originalname f) "dataset.csv", b)]
                  else []
              | None => []
              end)
           (Req.files req).
Proof.
  intros userText project older m req Hsender Hfiles Hround.
  rewrite !attachments_replyForm, allUploadedFiles_app, map_app. f_equal.
  unfold allUploadedFiles. simpl. rewrite Hsender, Hfiles, app_nil_r.
  change (String.eqb "user" "user") with true. cbv iota.
  unfold tempFilesOf.
  induction (Req.files req) as [|f l IH]; [reflexivity|].
  inversion Hround as [|x xs Hf Hl]; subst. specialize (IH Hl).
  cbn [filter flat_map]. destruct (isCsv f) eqn:Hcsv.
  - cbn [map filter]. unfold TempFile.retained at 1, toTempFile at 1.
    cbn [TempFile.bufferBase64 TempFile.originalname].
    destruct (Upload.buffer f) as [b|] eqn:Hb; [|exact IH].
    cbn [andb]. destruct (JS.nonEmpty (base64_encode b)) eqn:He; [|exact IH].
    rewrite He. cbn [map app]. rewrite IH. unfold toTempFile.
    cbn [TempFile.originalname TempFile.bufferBase64].
    rewrite Hb, He, (Hf b eq_refl). reflexivity.
  - destruct (Upload.buffer f); exact IH.
Qed.

End Bytes.

(** ** More on [callFastAPIAnalyze] *)

Section ClientChecks.

Context {rt : Runtime}.

(** X19.  [callFastAPIAnalyze] checks its configuration and its arguments
    before it posts: with a base location that cannot be parsed, a file
    content that is neither a buffer nor a stream, or a file name that does
    not end with [.csv] in any letter case, the error thrown has no status
    and no code, and it is the same whatever the engine would answer. *)
Theorem client_checks_precede_the_dispatch :
  forall (FASTAPI_URL : option string) (engine engine' : Engine)
         (userQuery : string) (fileBuffer fileName sessionId : option string),
    parseBase (JS.orString FASTAPI_URL "http://localhost:8000") = None
    \/ fileBuffer = None
    \/ JS.endsWith (JS.toLowerCase (JS.orString fileName "dataset.csv")) ".csv"
       = false ->
    exists thrown,
      FastApiClient.callFastAPIAnalyze FASTAPI_URL engine userQuery
        fileBuffer fileName sessionId = inl thrown
      /\ FastApiClient.callFastAPIAnalyze FASTAPI_URL engine' userQuery
           fileBuffer fileName sessionId = inl thrown
      /\ FastApiClient.status thrown = None
      /\ FastApiClient.code thrown = None.
Proof.
  intros FASTAPI_URL engine engine' userQuery fileBuffer fileName sessionId H.
  unfold FastApiClient.callFastAPIAnalyze, FastApiClient.analyzeUrl.
  destruct (parseBase (JS.orString FASTAPI_URL "http://localhost:8000")) as [u|].
  - destruct fileBuffer as [buffer|].
    + destruct H as [H|[H|H]]; try discriminate H.
      rewrite H. simpl. eexists. repeat split.
    + eexists. repeat split.
  - eexists. repeat split.
Qed.

(** X20.  [callFastAPIAnalyze] returns a value only when the engine
    answered it: the value is the body of an answer with a status in
    200..299 to a request whose location is the configured one with its
    path replaced by a path that ends with [/analyze], whose form has the
    query and one [text/csv] file part with the given content, and whose
    added headers are the session header when a non-empty session id was
    given and none otherwise. *)
Theorem client_returns_what_the_engine_answered :
  forall (FASTAPI_URL : option string) (engine : Engine)
         (userQuery : string) (fileBuffer fileName sessionId : option string)
         (data : jsval),
    FastApiClient.callFastAPIAnalyze FASTAPI_URL engine userQuery
      fileBuffer fileName sessionId = inr data ->
    exists u buffer st,
      parseBase (JS.orString FASTAPI_URL "http://localhost:8000") = Some u
      /\ fileBuffer = Some buffer
      /\ JS.endsWith (FastApiClient.normalizedPath u) "/analyze" = true
      /\ engine (URL.origin u ++ FastApiClient.normalizedPath u
                 ++ URL.search u ++ URL.hash u)%string
                (match sessionId with
                 | Some id => if JS.nonEmpty id then [("X-Session-ID", id)] else []
                 | None => []
                 end)
                [Field "user_query" userQuery;
                 FilePart "file" buffer (JS.orString fileName "dataset.csv")
                          "text/csv"]
         = Answered st data
      /\ 200 <= st < 300.
Proof.
  intros FASTAPI_URL engine userQuery fileBuffer fileName sessionId data.
  unfold FastApiClient.callFastAPIAnalyze, FastApiClient.analyzeUrl.
  destruct (parseBase (JS.orString FASTAPI_URL "http://localhost:8000")) as [u|];
    [|discriminate].
  destruct fileBuffer as [buffer|]; [|discriminate].
  destruct (negb (JS.endsWith (JS.toLowerCase (JS.orString fileName "dataset.csv"))
                              ".csv")); [discriminate|].
  unfold Axios.post, URL.toString, URL.setPathname. cbn [URL.origin URL.pathname
                                                         URL.search URL.hash].
  destruct (engine _ _ _) as [st d|msg c] eqn:Hengine; [|discriminate].
  destruct ((200 <=? st) && (st <? 300)) eqn:Hst; [|discriminate].
  intros H. injection H as <-.
  exists u, buffer, st. split; [reflexivity|]. split; [reflexivity|].
  split; [apply endsWith_app|]. split; [exact Hengine|].
  apply andb_true_iff in Hst. destruct Hst as [H1 H2].
  apply Nat.leb_le in H1. apply Nat.ltb_lt in H2. lia.
Qed.

(** X21.  When no answer arrives (refused connection, timeout), the error
    thrown by [callFastAPIAnalyze] has no status, the code of the transport
    error, and its message, or "Error calling FastAPI" when that message is
    empty. *)
Theorem unanswered_dispatch_translation :
  forall (FASTAPI_URL : option string) (engine : Engine)
         (transportMessage : string) (transportCode : option string)
         (userQuery buffer : string) (fileName sessionId : option string) url,
    (forall url headers form,
       engine url headers form = NoAnswer transportMessage transportCode) ->
    FastApiClient.analyzeUrl FASTAPI_URL = inr url ->
    JS.endsWith (JS.toLowerCase (JS.orString fileName "dataset.csv")) ".csv" = true ->
    FastApiClient.callFastAPIAnalyze FASTAPI_URL engine userQuery
      (Some buffer) fileName sessionId
    = inl {| FastApiClient.message :=
               if JS.nonEmpty transportMessage then transportMessage
               else "Error calling FastAPI";
             FastApiClient.status := None;
             FastApiClient.code := transportCode |}.
Proof.
  intros FASTAPI_URL engine transportMessage transportCode userQuery buffer
         fileName sessionId url Hengine Hurl Hname.
  unfold FastApiClient.callFastAPIAnalyze. rewrite Hurl, Hname.
  cbn [negb]. cbv iota. unfold Axios.post. rewrite Hengine.
  unfold FastApiClient.translate, FastApiClient.clientMsg, or_else.
  cbn [Axios.response_ Axios.message Axios.code option_map prop truthy].
  destruct (JS.nonEmpty transportMessage); reflexivity.
Qed.

End ClientChecks.

(** ** [truncateString] *)

Lemma length_append : forall a b : string,
  String.length (a ++ b) = String.length a + String.length b.
Proof. induction a as [|c a IH]; intros b; simpl; [reflexivity|now rewrite IH]. Qed.

Lemma length_substring : forall s n,
  n <= String.length s -> String.length (String.substring 0 n s) = n.
Proof.
  induction s as [|c s IH]; intros [|n] H; simpl in *; try reflexivity; try lia.
  rewrite IH; [reflexivity|lia].
Qed.

Lemma substring_append : forall s n t,
  n <= String.length s ->
  String.substring 0 n (String.substring 0 n s ++ t) = String.substring 0 n s.
Proof.
  induction s as [|c s IH]; intros [|n] t H; simpl in *; try lia.
  - now destruct t.
  - now destruct t.
  - rewrite IH; [reflexivity|lia].
Qed.

(** X22.  [truncateString] keeps the first [n] characters of the text, and
    it does not bound the length by [n]: the result is longer than [n]
    exactly when the text was, since the note that replaces the rest is
    never empty. *)
Theorem truncateString_keeps_the_head :
  forall (s : string) (n : nat),
    String.substring 0 n (truncateString s n) = String.substring 0 n s
    /\ (n < String.length (truncateString s n) <-> n < String.length s)
    /\ (String.length s <= n -> truncateString s n = s).
Proof.
  intros s n. unfold truncateString.
  destruct (n <? String.length s) eqn:E.
  - apply Nat.ltb_lt in E. split; [apply substring_append; lia|].
    split; [|lia]. split; [intros _; exact E|intros _].
    rewrite length_append, length_substring by lia. simpl. lia.
  - apply Nat.ltb_ge in E. split; [reflexivity|]. split; [reflexivity|reflexivity].
Qed.

(** ** The history request *)

Lemma populate_listed : forall c s,
  consistent s ->
  In c (chats s) ->
  map Message._id (Db.populate c s) = Chat.messages c
  /\ Forall (fun m => Message.chat m = Chat._id c) (Db.populate c s).
Proof.
  intros c s Hs Hin. unfold Db.populate.
  pose proof (fun id => listed_messages_stored Hs c id Hin) as Hlisted.
  induction (Chat.messages c) as [|id ids IH]; [split; [reflexivity|constructor]|].
  destruct IH as [IH1 IH2]; [intros i Hi; apply Hlisted; now right|].
  destruct (Hlisted id (or_introl eq_refl)) as [m [Hm [Hid Hchat]]].
  destruct (find_present _ (fun m => Message._id m =? id) (messages s) m Hm)
    as [y Hy]; [now apply Nat.eqb_eq|].
  pose proof (find_some _ _ Hy) as [Hyin Hyid]. apply Nat.eqb_eq in Hyid.
  assert (y = m)
    by (apply (NoDup_map_eq _ _ Message._id (messages s));
        [apply (message_ids_distinct Hs)|assumption|assumption|congruence]).
  subst y. cbn [flat_map]. rewrite Hy. cbn [app map]. split.
  - now rewrite IH1, Hid.
  - constructor; assumption.
Qed.

(** X23.  A history request never writes.  On a consistent store, when it
    succeeds it answers 200 with a chat of the store that has the given id
    and belongs to the given project, and with the sorted messages of that
    chat: one stored message for each identifier the chat lists, in the
    order of the list before sorting, and each of them a message of that
    chat. *)
Theorem getChatHistory_reads_the_chat :
  forall (sortByCreatedAt : list Message.t -> list Message.t)
         (pid cid : ObjectId) (user : User.t) (s : Store),
    consistent s ->
    match getChatHistory sortByCreatedAt pid cid user s with
    | (s', inl r) => s' = s
    | (s', inr ok) =>
        s' = s
        /\ answered ok = 200
        /\ exists chat,
             In chat (chats s)
             /\ Chat._id chat = cid
             /\ Chat.project chat = pid
             /\ json ok = (chat, sortByCreatedAt (Db.populate chat s))
             /\ map Message._id (Db.populate chat s) = Chat.messages chat
             /\ Forall (fun m => Message.chat m = cid) (Db.populate chat s)
    end.
Proof.
  intros sortByCreatedAt pid cid user s Hs.
  unfold getChatHistory. unfold_handler.
  destruct (Db.Project_findById pid s) as [project|] eqn:Hproj; [|reflexivity].
  pose proof (find_some _ _ Hproj) as [_ Hpid]. apply Nat.eqb_eq in Hpid.
  destruct (Project.team project) as [team|]; [|reflexivity].
  pose proof (accessCheck_store user team s) as Hacc.
  destruct (accessCheck user team s) as [s0 [r|[]]]; simpl in Hacc; subst s0;
    [reflexivity|].
  destruct (Db.Chat_findOne _ s) as [chat|] eqn:Hchat; [|reflexivity].
  pose proof (find_some _ _ Hchat) as [Hin Hq].
  apply andb_true_iff in Hq. destruct Hq as [Hid Hp].
  apply Nat.eqb_eq in Hid. apply Nat.eqb_eq in Hp.
  destruct (populate_listed chat s Hs Hin) as [Hids Hall].
  split; [reflexivity|]. split; [reflexivity|].
  exists chat. split; [exact Hin|]. split; [exact Hid|].
  split; [congruence|]. split; [reflexivity|]. split; [exact Hids|].
  now rewrite <- Hid.
Qed.

(** ** Concrete runs *)

Lemma Demo_store_consistent : consistent Demo.store.
Proof.
  constructor.
  - simpl. repeat constructor; simpl; intuition discriminate.
  - simpl. repeat constructor; simpl; intuition discriminate.
  - intros c [<-|[<-|[]]]; simpl; lia.
  - intros m [<-|[<-|[<-|[]]]]; simpl; lia.
  - intros c id [<-|[<-|[]]]; simpl.
    + intros [<-|[<-|[<-|[]]]];
        [exists Demo.turn1|exists Demo.turn2|exists Demo.turn3];
        simpl; intuition reflexivity.
    + intros [].
Qed.

(** After a chat has been created by hand in [Demo.project], a submission
    without a chat id still goes to its first chat. *)
Lemma created_chat_witness :
  getOrCreateChat Demo.project None 1
    (fst (createChatManually (Some 1) Demo.member Demo.store))
  = (fst (createChatManually (Some 1) Demo.member Demo.store),
     inr (Some Demo.firstChat)).
Proof.
  exact (created_chat_is_not_the_default 1 Demo.member Demo.store
           (fst (createChatManually (Some 1) Demo.member Demo.store))
           {| answered := 201;
              json := ("New chat created for project.",
                       {| Chat._id := 30; Chat.project := 1;
                          Chat.title := "New chat"; Chat.messages := [] |}) |}
           eq_refl Demo.project).
Defined.

(** [Demo.outsider] is refused by the three handlers. *)
Lemma other_handlers_refuse_witness :
  exists r,
    status r = 403
    /\ renameChat Cases.rename Demo.outsider Demo.store = (Demo.store, inl r)
    /\ createChatManually (Some 1) Demo.outsider Demo.store = (Demo.store, inl r)
    /\ getChatHistory (fun l => l) 1 10 Demo.outsider Demo.store
       = (Demo.store, inl r).
Proof.
  apply (other_handlers_refuse_before_persistence (fun l => l) Cases.rename
           Demo.outsider Demo.store 1 10 "  Sales 2024 " Demo.project Demo.team
           eq_refl eq_refl eq_refl eq_refl eq_refl eq_refl).
  - discriminate.
  - right. simpl. intros [E|[E|[]]]; discriminate E.
Defined.

(** [Demo.member] names project 1 and the chat of project 3: the submit
    operation answers 404, the reply operation answers 200. *)
Lemma cross_project_witness :
  run (chatHandler (rt := Ref.runtime) Cases.crossAsk Demo.member) Cases.twoProjects
  = (errorResponse 404 "Chat not found or could not be created.", Cases.twoProjects)
  /\ exists s',
       run (aiReplyHandler (rt := Ref.runtime) None Demo.answering
              Cases.crossAsk Demo.member) Cases.twoProjects
       = ({| status := 200;
             body := AnalysisBody (JObj [("insights", JStr "fine")]) |}, s').
Proof.
  assert (Hnd : NoDup (map Chat._id (chats Cases.twoProjects)))
    by (simpl; repeat constructor; simpl; intuition discriminate).
  assert (Hproject : Chat.project Cases.otherChat <> 1) by discriminate.
  assert (Hurl : apiUrl (rt := Ref.runtime) None = Some "http://localhost:8000/analyze")
    by (vm_compute; reflexivity).
  destruct (only_reply_ignores_the_project_of_a_chat (rt := Ref.runtime)
              (fun l => l) None Demo.answering Cases.crossAsk Demo.member
              Cases.twoProjects 1 12 "what is here?" Demo.project Demo.team
              Cases.otherChat "http://localhost:8000/analyze"
              {| Axios.status := 200;
                 Axios.data := JObj [("insights", JStr "fine")] |}
              Hnd eq_refl eq_refl eq_refl eq_refl eq_refl eq_refl eq_refl
              Hproject Hurl eq_refl)
    as [Hsubmit [_ [_ [s' [m [Hreply _]]]]]].
  split; [exact Hsubmit|]. exists s'. exact Hreply.
Defined.

(** Pictures only, blank text, an empty selection. *)
Lemma empty_turn_witness :
  run (chatHandler (rt := Ref.runtime) Cases.picturesOnly Demo.member) Demo.store
  = (errorResponse 400
       "projectId and at least one of content, selectedDatasets, or files are required.",
     Demo.store).
Proof.
  apply (empty_turn_is_rejected (rt := Ref.runtime)).
  - reflexivity.
  - intros f [<-|[]]. reflexivity.
  - vm_compute. reflexivity.
Defined.

Lemma consistent_after_submit_witness :
  consistent (snd (run (chatHandler (rt := Ref.runtime) Demo.submit Demo.member)
                       Demo.store)).
Proof.
  exact (proj1 (handlers_keep_the_store_consistent (rt := Ref.runtime)
                  None Demo.answering Demo.submit Cases.rename (Some 1)
                  Demo.member Demo.store Demo_store_consistent)).
Defined.

Lemma reply_only_appends_witness :
  extends Demo.store
          (snd (run (aiReplyHandler (rt := Ref.runtime) None Demo.answering
                       Demo.ask Demo.member) Demo.store)).
Proof.
  exact (proj1 (proj2 (handlers_only_append (rt := Ref.runtime)
                         None Demo.answering Demo.ask Cases.rename (Some 1)
                         Demo.member Demo.store Demo_store_consistent))).
Defined.

(** "hello" ends the history of the first chat of [Demo.project]. *)
Lemma submitted_message_witness :
  exists chat' older m,
    Db.Chat_findById 10 Demo.afterSubmit = Some chat'
    /\ Db.populate chat' Demo.afterSubmit = older ++ [m]
    /\ Message.sender m = "user"
    /\ Message.content m = Some "hello".
Proof.
  destruct (submitted_message_ends_the_history (rt := Ref.runtime)
              Demo.submit Demo.member Demo.store Demo.afterSubmit
              "User message saved." 10 Demo_store_consistent eq_refl)
    as [chat' [older [m [H1 [H2 [_ [H4 [H5 _]]]]]]]].
  exists chat', older, m. repeat split; assumption.
Defined.

Lemma reply_message_witness :
  exists chat' m,
    Db.Chat_findById 10
      (snd (run (aiReplyHandler (rt := Ref.runtime) None Demo.answering
                   Demo.ask Demo.member) Demo.store))
    = Some chat'
    /\ Db.populate chat'
         (snd (run (aiReplyHandler (rt := Ref.runtime) None Demo.answering
                      Demo.ask Demo.member) Demo.store))
       = Demo.history ++ [m]
    /\ Message.sender m = "chatbot".
Proof.
  assert (Hrun : run (aiReplyHandler (rt := Ref.runtime) None Demo.answering
                        Demo.ask Demo.member) Demo.store
                 = ({| status := 200;
                       body := AnalysisBody (JObj [("insights", JStr "fine")]) |},
                    snd (run (aiReplyHandler (rt := Ref.runtime) None Demo.answering
                                Demo.ask Demo.member) Demo.store)))
    by (vm_compute; reflexivity).
  destruct (reply_message_ends_the_history (rt := Ref.runtime) None Demo.answering
              Demo.ask Demo.member Demo.store _ _ Demo_store_consistent Hrun)
    as [cid [chat [chat' [m [Hcid [Hchat [Hchat' [Hpop [Hsender _]]]]]]]]].
  injection Hcid as <-. injection Hchat as <-.
  exists chat', m. repeat split; assumption.
Defined.

(** A comma-separated selection with an empty piece. *)
Lemma comma_separated_witness :
  Forall (fun v => exists id,
                     v = JStr id
                     /\ JS.nonEmpty id = true
                     /\ JS.trim id = id
                     /\ JS.includes ","%char id = false)
         (parseSelectedDatasets (rt := Ref.runtime) (JStr "a, ,b")).
Proof.
  exact (comma_separated_ids_are_clean (rt := Ref.runtime) "a, ,b" eq_refl eq_refl).
Defined.

Lemma selection_round_trip_witness :
  Frontend.fieldValues "selectedDatasets"
    (Frontend.sendUserMessage (rt := Ref.runtime) Cases.sent)
  = [Ref.stringify (JArr [JStr "a"])]
  /\ parseSelectedDatasets (rt := Ref.runtime)
       (JStr (Ref.stringify (JArr [JStr "a"])))
     = [JStr "a"].
Proof.
  assert (Hne : JSON_stringify (Runtime := Ref.runtime) (JArr [JStr "a"])
                <> EmptyString)
    by (vm_compute; discriminate).
  exact (selection_round_trip (rt := Ref.runtime) Cases.sent [JStr "a"]
           eq_refl eq_refl Hne).
Defined.

(** Nothing typed, one dataset selected: "Analyze these" is sent. *)
Lemma handleSend_witness :
  Frontend.handleSend (rt := Ref.runtime) Cases.page
  = Some (Cases.sent, Cases.asked)
  /\ trimmedContent (Frontend.send_content Cases.sent) = Some "Analyze these".
Proof.
  assert (H : Frontend.handleSend (rt := Ref.runtime) Cases.page
              = Some (Cases.sent, Cases.asked))
    by (vm_compute; reflexivity).
  split; [exact H|].
  exact (proj1 (proj2 (proj2 (proj2 (proj2
           (handleSend_text (rt := Ref.runtime) Cases.page Cases.sent Cases.asked
              H)))))).
Defined.

Lemma stored_answer_witness :
  exists chat' older m,
    Db.populate chat'
      (snd (run (aiReplyHandler (rt := Ref.runtime) None Demo.answering
                   Demo.ask Demo.member) Demo.store))
    = older ++ [m]
    /\ Frontend.historyBubbles (rt := Ref.runtime) m
       = [Frontend.BotText (JStr "fine")].
Proof.
  assert (Hrun : run (aiReplyHandler (rt := Ref.runtime) None Demo.answering
                        Demo.ask Demo.member) Demo.store
                 = ({| status := 200;
                       body := AnalysisBody (JObj [("insights", JStr "fine")]) |},
                    snd (run (aiReplyHandler (rt := Ref.runtime) None Demo.answering
                                Demo.ask Demo.member) Demo.store)))
    by (vm_compute; reflexivity).
  assert (Hnull : JObj [("insights", JStr "fine")] <> JNull) by discriminate.
  assert (Hundef : JObj [("insights", JStr "fine")] <> JUndefined) by discriminate.
  assert (Hround : JSON_parse (Runtime := Ref.runtime)
                     (JSON_stringify (Runtime := Ref.runtime)
                        (JObj [("insights", JStr "fine")]))
                   = Some (JObj [("insights", JStr "fine")]))
    by (vm_compute; reflexivity).
  destruct (stored_answer_is_shown_as_it_was_live (rt := Ref.runtime)
              None Demo.answering Demo.ask Demo.member Demo.store _ _
              Demo_store_consistent Hrun Hnull Hundef Hround)
    as [cid [chat' [older [m [_ [_ [Hpop Hshown]]]]]]].
  exists chat', older, m. split; [exact Hpop|exact Hshown].
Defined.

(** Of the two uploads of [Demo.withFiles], the CSV file reaches the
    engine, with its bytes. *)
Lemma uploaded_bytes_witness :
  attachments (replyForm (rt := Ref.runtime) "what is new?" Demo.project
                 (Demo.history ++ [Cases.uploadTurn]))
  = attachments (replyForm (rt := Ref.runtime) "what is new?" Demo.project
                   Demo.history)
    ++ [("files", "Sales.CSV", "a,b")].
Proof.
  assert (Hround : Forall (fun f => forall b, Upload.buffer f = Some b ->
                                              base64_decode (Runtime := Ref.runtime)
                                                (base64_encode (Runtime := Ref.runtime) b)
                                              = b)
                          (Req.files Demo.withFiles)).
  { repeat constructor; intros b Hb; injection Hb as <-; vm_compute; reflexivity. }
  exact (uploaded_bytes_reach_the_engine (rt := Ref.runtime) "what is new?"
           Demo.project Demo.history Cases.uploadTurn Demo.withFiles
           eq_refl eq_refl Hround).
Defined.

(** A file that is not a CSV file is refused whatever the engine. *)
Lemma client_checks_witness :
  exists thrown,
    FastApiClient.callFastAPIAnalyze (rt := Ref.runtime) None Demo.answering
      "what is in A?" (Some "a,b") (Some "notes.txt") None = inl thrown
    /\ FastApiClient.callFastAPIAnalyze (rt := Ref.runtime) None Demo.down
         "what is in A?" (Some "a,b") (Some "notes.txt") None = inl thrown
    /\ FastApiClient.status thrown = None
    /\ FastApiClient.code thrown = None.
Proof.
  exact (client_checks_precede_the_dispatch (rt := Ref.runtime) None
           Demo.answering Demo.down "what is in A?" (Some "a,b")
           (Some "notes.txt") None (or_intror (or_intror eq_refl))).
Defined.

Lemma client_returns_witness :
  exists u buffer st,
    parseBase (rt := Ref.runtime) "http://localhost:8000" = Some u
    /\ Some "a,b" = Some buffer
    /\ JS.endsWith (FastApiClient.normalizedPath u) "/analyze" = true
    /\ Demo.answering
         (URL.origin u ++ FastApiClient.normalizedPath u
          ++ URL.search u ++ URL.hash u)%string
         [("X-Session-ID", "s1")]
         [Field "user_query" "what is in A?";
          FilePart "file" buffer "A.csv" "text/csv"]
       = Answered st (JObj [("insights", JStr "fine")])
    /\ 200 <= st < 300.
Proof.
  assert (H : FastApiClient.callFastAPIAnalyze (rt := Ref.runtime) None
                Demo.answering "what is in A?" (Some "a,b") (Some "A.csv")
                (Some "s1")
              = inr (JObj [("insights", JStr "fine")]))
    by (vm_compute; reflexivity).
  exact (client_returns_what_the_engine_answered (rt := Ref.runtime) None
           Demo.answering "what is in A?" (Some "a,b") (Some "A.csv")
           (Some "s1") (JObj [("insights", JStr "fine")]) H).
Defined.

(** The engine is down. *)
Lemma unanswered_dispatch_witness :
  FastApiClient.callFastAPIAnalyze (rt := Ref.runtime) None Demo.down
    "what is in A?" (Some "a,b") (Some "A.csv") None
  = inl {| FastApiClient.message := "connect ECONNREFUSED";
           FastApiClient.status := None;
           FastApiClient.code := Some "ECONNREFUSED" |}.
Proof.
  assert (Hurl : FastApiClient.analyzeUrl (rt := Ref.runtime) None
                 = inr "http://localhost:8000/analyze")
    by (vm_compute; reflexivity).
  exact (unanswered_dispatch_translation (rt := Ref.runtime) None Demo.down
           "connect ECONNREFUSED" (Some "ECONNREFUSED") "what is in A?" "a,b"
           (Some "A.csv") None "http://localhost:8000/analyze"
           (fun _ _ _ => eq_refl) Hurl eq_refl).
Defined.

(** The history of the first chat of [Demo.project]. *)
Lemma getChatHistory_witness :
  getChatHistory (fun l => l) 1 10 Demo.member Demo.store
  = (Demo.store,
     inr {| answered := 200; json := (Demo.firstChat, Demo.history) |})
  /\ map Message._id (Db.populate Demo.firstChat Demo.store)
     = Chat.messages Demo.firstChat.
Proof.
  split; [reflexivity|].
  pose proof (getChatHistory_reads_the_chat (fun l => l) 1 10 Demo.member
                Demo.store Demo_store_consistent) as H.
  change (getChatHistory (fun l => l) 1 10 Demo.member Demo.store)
    with (Demo.store,
          @inr Response _
               {| answered := 200; json := (Demo.firstChat, Demo.history) |})
    in H.
  destruct H as [_ [_ [chat [_ [_ [_ [Hjson [Hids _]]]]]]]].
  cbn [json] in Hjson. injection Hjson as <- _. exact Hids.
Defined.

(** ** A turn: submission, then reply *)

Section Turn.

Context {rt : Runtime}.

(** A reply answered 200 has posted the history of the chat to the
    engine. *)
Lemma aiReplyHandler_answered : forall FASTAPI_URL engine req user s analysis s',
  run (aiReplyHandler FASTAPI_URL engine req user) s
  = ({| status := 200; body := AnalysisBody analysis |}, s') ->
  exists cid chat project url userText response,
    Req.chatId req = Some cid
    /\ Db.Chat_findById cid s = Some chat
    /\ trimmedContent (Req.content req) = Some userText
    /\ apiUrl FASTAPI_URL = Some url
    /\ Axios.post engine url [] (replyForm userText project (Db.populate chat s))
       = Axios.Resolved response
    /\ Axios.data response = analysis
    /\ s' = appended chat "chatbot" (Some (JSON_stringify analysis)) [] [] s.
Proof.
  intros FASTAPI_URL engine req user s analysis s' Hrun.
  revert Hrun. unfold aiReplyHandler.
  destruct (Req.projectId req) as [pid|]; [|discriminate].
  destruct (Req.chatId req) as [cid|]; [|discriminate].
  destruct (trimmedContent (Req.content req)) as [userText|]; [|discriminate].
  unfold_handler.
  destruct (Db.Project_findById pid s) as [project|]; [|discriminate].
  destruct (Db.Chat_findById cid s) as [chat|] eqn:Hchat; [|discriminate].
  destruct (Project.team project) as [team|]; [|discriminate].
  pose proof (accessCheck_store user team s) as Hs.
  destruct (accessCheck user team s) as [s0 [r|[]]] eqn:Hacc; simpl in Hs; subst s0.
  - unfold accessCheck in Hacc.
    destruct (negb (String.eqb (User.role user) "superadmin")); [|discriminate].
    destruct (negb (Team.organization team =? User.organization user)).
    + injection Hacc as <-. discriminate.
    + destruct (find _ _); [discriminate|]. injection Hacc as <-. discriminate.
  - destruct (apiUrl FASTAPI_URL) as [url|]; [|discriminate].
    destruct (Axios.post _ _ _ _) as [response|e] eqn:Hpost; [|discriminate].
    intros H. injection H as <- <-.
    exists cid, chat, project, url, userText, response. auto 10.
Qed.

(** X24.  A reply sees the turn that was just submitted.  On a consistent
    store, when a submission is answered 200 and a reply on the chat named
    in that answer is answered 200 next, the engine was given the history
    of that chat ending with the submitted message (its trimmed text, its
    selection, its CSV files), and afterwards the history of the chat ends
    with that message followed by the stored answer. *)
Theorem reply_sees_the_submitted_turn :
  forall FASTAPI_URL (engine : Engine) (req askReq : Req.t) (user asker : User.t)
         (s s1 s2 : Store) notice cid analysis,
    consistent s ->
    run (chatHandler req user) s
    = ({| status := 200; body := SavedBody notice cid |}, s1) ->
    Req.chatId askReq = Some cid ->
    run (aiReplyHandler FASTAPI_URL engine askReq asker) s1
    = ({| status := 200; body := AnalysisBody analysis |}, s2) ->
    exists older userMsg botMsg chat2 project url userText response,
      Message.sender userMsg = "user"
      /\ Message.content userMsg = trimmedContent (Req.content req)
      /\ Message.selectedDatasets userMsg = selectedDatasetsOf req
      /\ Message.tempFiles userMsg = tempFilesOf req
      /\ trimmedContent (Req.content askReq) = Some userText
      /\ apiUrl FASTAPI_URL = Some url
      /\ Axios.post engine url []
           (replyForm userText project (older ++ [userMsg]))
         = Axios.Resolved response
      /\ Axios.data response = analysis
      /\ Db.Chat_findById cid s2 = Some chat2
      /\ Db.populate chat2 s2 = older ++ [userMsg; botMsg]
      /\ Message.sender botMsg = "chatbot"
      /\ Message.content botMsg = Some (JSON_stringify analysis).
Proof.
  intros FASTAPI_URL engine req askReq user asker s s1 s2 notice cid analysis
         Hs Hsubmit Hcid Hreply.
  destruct (chatHandler_saved req user s notice cid s1 Hsubmit)
    as [pid [project0 [s0 [chat [_ [Hres [Hid ->]]]]]]].
  destruct (getOrCreateChat_consistent project0 (Req.chatId req) pid s s0 chat
              Hs Hres) as [Hs0 [Hin _]].
  pose proof (appended_consistent chat "user" (trimmedContent (Req.content req))
                (selectedDatasetsOf req) (tempFilesOf req) s0 Hs0 Hin) as Hs1.
  destruct (appended_history chat "user" (trimmedContent (Req.content req))
              (selectedDatasetsOf req) (tempFilesOf req) s0 Hs0 Hin)
    as [chat1 [userMsg [Hfind1 [Hpop1 HuserMsg]]]].
  rewrite Hid in Hfind1.
  destruct (aiReplyHandler_answered FASTAPI_URL engine askReq asker _ analysis s2
              Hreply)
    as [cid' [chat1' [project [url [userText [response
        [Hcid' [Hfind1' [Htext [Hurl [Hpost [Hdata ->]]]]]]]]]]]].
  rewrite Hcid in Hcid'. injection Hcid' as <-.
  rewrite Hfind1 in Hfind1'. injection Hfind1' as <-.
  pose proof (find_some _ _ Hfind1) as [Hin1 Hid1]. apply Nat.eqb_eq in Hid1.
  destruct (appended_history chat1 "chatbot" (Some (JSON_stringify analysis))
              [] [] _ Hs1 Hin1)
    as [chat2 [botMsg [Hfind2 [Hpop2 HbotMsg]]]].
  rewrite Hid1 in Hfind2. rewrite Hpop1 in Hpost, Hpop2.
  exists (Db.populate chat s0), userMsg, botMsg, chat2, project, url, userText,
         response.
  subst userMsg botMsg. cbn [Message.sender Message.content
                             Message.selectedDatasets Message.tempFiles].
  repeat (split; [reflexivity|]).
  split; [exact Htext|]. split; [exact Hurl|]. split; [exact Hpost|].
  split; [exact Hdata|]. split; [exact Hfind2|].
  split; [now rewrite Hpop2, <- app_assoc|]. split; reflexivity.
Qed.

End Turn.

(** "hello" is submitted, then a question is asked on the chat of the
    answer. *)
Lemma turn_witness :
  exists older userMsg botMsg chat2,
    Message.content userMsg = Some "hello"
    /\ Db.populate chat2
         (snd (run (aiReplyHandler (rt := Ref.runtime) None Demo.answering
                      Demo.ask Demo.member) Demo.afterSubmit))
       = older ++ [userMsg; botMsg]
    /\ Message.sender botMsg = "chatbot".
Proof.
  assert (Hreply : run (aiReplyHandler (rt := Ref.runtime) None Demo.answering
                          Demo.ask Demo.member) Demo.afterSubmit
                   = ({| status := 200;
                         body := AnalysisBody (JObj [("insights", JStr "fine")]) |},
                      snd (run (aiReplyHandler (rt := Ref.runtime) None
                                  Demo.answering Demo.ask Demo.member)
                               Demo.afterSubmit)))
    by (vm_compute; reflexivity).
  destruct (reply_sees_the_submitted_turn (rt := Ref.runtime) None Demo.answering
              Demo.submit Demo.ask Demo.member Demo.member Demo.store
              Demo.afterSubmit _ "User message saved." 10 _
              Demo_store_consistent eq_refl eq_refl Hreply)
    as [older [userMsg [botMsg [chat2 [project [url [userText [response
        [_ [Hcontent [_ [_ [_ [_ [_ [_ [_ [Hpop [Hsender _]]]]]]]]]]]]]]]]]]].
  exists older, userMsg, botMsg, chat2. repeat split; assumption.
Defined.
